(** * StockDashBoard: the indicator engine, the number formatter, the
      financial-metrics mapping and the chart builder of [utils.py]

    The development embeds [src/utils.py] shallowly.

    - Floating-point cells are values of [float]: an exact rational, or one
      of the IEEE special values NaN, +inf, -inf.  Arithmetic follows the
      IEEE rules for the special values (x/0, inf-inf, NaN propagation,
      comparisons with NaN are false); on finite values it is exact, so the
      rounding of binary64 is abstracted, and the sign of zero is not
      tracked.
    - Python values that reach [format_number] are [pyval]s; exceptions are
      the [Raise] results of the [result] monad.
    - A pandas [Series] is the list of its cells; a [DataFrame] is its index
      and the ordered list of its named columns.  Data frames are objects:
      they live in a heap and are passed by reference, and
      [calculate_metrics] is written in a state-and-exception monad over
      that heap.
    - pandas and plotly are third-party libraries; the operations of theirs
      that [utils.py] calls (diff, where, rolling mean and std, ewm mean,
      make_subplots, add_trace, ...) are modelled after their documented
      behaviour. *)

From Stdlib Require Import ZArith QArith Qround Qabs Lia Lqa.
From Stdlib Require Import String Ascii List DecimalString.
From stdpp Require Import base option list strings gmap.

Local Open Scope Z_scope.

(** ** Floating-point cells *)

Inductive float : Type :=
| NaN
| PInf
| NInf
| Fin (q : Q).

(** Finite results are kept in lowest terms, so that equal cells are equal
    terms. *)
Definition fin (q : Q) : float := Fin (Qred q).

Definition Qzero (q : Q) : bool := Qeq_bool q 0.
Definition Qpos (q : Q) : bool := negb (Qle_bool q 0).
Definition Qneg (q : Q) : bool := negb (Qle_bool 0 q).

Definition isnan (x : float) : bool :=
  match x with NaN => true | _ => false end.

Definition isinf (x : float) : bool :=
  match x with PInf | NInf => true | _ => false end.

Definition fneg (x : float) : float :=
  match x with
  | NaN => NaN
  | PInf => NInf
  | NInf => PInf
  | Fin q => fin (- q)
  end.

Definition fadd (x y : float) : float :=
  match x, y with
  | NaN, _ | _, NaN => NaN
  | PInf, NInf | NInf, PInf => NaN
  | PInf, _ | _, PInf => PInf
  | NInf, _ | _, NInf => NInf
  | Fin a, Fin b => fin (a + b)
  end.

Definition fsub (x y : float) : float := fadd x (fneg y).

(** The infinity that carries the sign of a non-zero finite factor. *)
Definition inf_of_sign (negative : bool) : float :=
  if negative then NInf else PInf.

Definition fmul (x y : float) : float :=
  match x, y with
  | NaN, _ | _, NaN => NaN
  | Fin a, Fin b => fin (a * b)
  | PInf, PInf | NInf, NInf => PInf
  | PInf, NInf | NInf, PInf => NInf
  | PInf, Fin b | Fin b, PInf =>
      if Qzero b then NaN else inf_of_sign (Qneg b)
  | NInf, Fin b | Fin b, NInf =>
      if Qzero b then NaN else inf_of_sign (negb (Qneg b))
  end.

Definition fdiv (x y : float) : float :=
  match x, y with
  | NaN, _ | _, NaN => NaN
  | Fin a, Fin b =>
      if Qzero b
      then (if Qzero a then NaN else inf_of_sign (Qneg a))
      else fin (a / b)
  | Fin _, (PInf | NInf) => Fin 0
  | (PInf | NInf), (PInf | NInf) => NaN
  | PInf, Fin b => inf_of_sign (Qneg b)
  | NInf, Fin b => inf_of_sign (negb (Qneg b))
  end.

(** Comparisons: every comparison with NaN is false. *)
Definition fltb (x y : float) : bool :=
  match x, y with
  | NaN, _ | _, NaN => false
  | _, NInf => false
  | NInf, _ => true
  | PInf, _ => false
  | Fin _, PInf => true
  | Fin a, Fin b => negb (Qle_bool b a)
  end.

Definition feqb (x y : float) : bool :=
  match x, y with
  | PInf, PInf | NInf, NInf => true
  | Fin a, Fin b => Qeq_bool a b
  | _, _ => false
  end.

Definition fleb (x y : float) : bool := fltb x y || feqb x y.
Definition fgtb (x y : float) : bool := fltb y x.
Definition fgeb (x y : float) : bool := fleb y x.

(** ** Python values and exceptions *)

Inductive exn : Type :=
| KeyError (key : string)
| TypeError
| ValueError
| OverflowError.

Inductive result (A : Type) : Type :=
| Ok (a : A)
| Raise (e : exn).
Arguments Ok {A} a.
Arguments Raise {A} e.

#[global] Instance result_ret : MRet result := fun _ a => Ok a.
#[global] Instance result_bind : MBind result := fun _ _ f m =>
  match m with
  | Ok a => f a
  | Raise e => Raise e
  end.

(** The values a metadata field can hold that matter to the formatter. *)
Inductive pyval : Type :=
| PyNone
| PyInt (n : Z)
| PyFloat (x : float)
| PyStr (s : string).

(** [float(n)] for a Python int: the nearest binary64 value, ties to even;
    [OverflowError] when that value would be outside the binary64 range.
    This is the one place where the precision of binary64 is modelled, since
    an int carries more digits than a float can. *)
Definition round_half_even (q : Q) : Z :=
  let f := Qfloor q in
  match Qcompare (q - inject_Z f) (1 # 2) with
  | Lt => f
  | Gt => f + 1
  | Eq => if Z.even f then f else f + 1
  end.

Definition round53 (n : Z) : Z :=
  let a := Z.abs n in
  if a <? 2 ^ 53 then n
  else
    let e := Z.log2 a - 52 in
    Z.sgn n * (round_half_even (inject_Z a / inject_Z (2 ^ e)) * 2 ^ e).

Definition float_of_int (n : Z) : result float :=
  if Z.abs n <? 2 ^ 1024 - 2 ^ 970
  then Ok (fin (inject_Z (round53 n)))
  else Raise OverflowError.

(** [pd.isna] on a scalar. *)
Definition pd_isna (v : pyval) : bool :=
  match v with
  | PyNone => true
  | PyFloat x => isnan x
  | _ => false
  end.

(** [v == 0]; never raises. *)
Definition py_eq_zero (v : pyval) : bool :=
  match v with
  | PyInt n => n =? 0
  | PyFloat x => feqb x (Fin 0)
  | _ => false
  end.

(** [v >= c] for a float constant [c]; an int is compared exactly. *)
Definition py_ge (v : pyval) (c : Q) : result bool :=
  match v with
  | PyInt n => Ok (Qle_bool c (inject_Z n))
  | PyFloat x => Ok (fgeb x (Fin c))
  | PyNone | PyStr _ => Raise TypeError
  end.

(** [v / c] for a non-zero float constant [c]. *)
Definition py_truediv (v : pyval) (c : Q) : result float :=
  match v with
  | PyInt n => x ← float_of_int n; Ok (fdiv x (Fin c))
  | PyFloat x => Ok (fdiv x (Fin c))
  | PyNone | PyStr _ => Raise TypeError
  end.

(** [v * 100] with an int constant. *)
Fixpoint str_repeat (n : nat) (s : string) : string :=
  match n with
  | O => EmptyString
  | S k => String.append s (str_repeat k s)
  end.

Definition py_mul100 (v : pyval) : result pyval :=
  match v with
  | PyInt n => Ok (PyInt (n * 100))
  | PyFloat x => Ok (PyFloat (fmul x (Fin 100)))
  | PyStr s => Ok (PyStr (str_repeat 100 s))
  | PyNone => Raise TypeError
  end.

(** Truth value of an object. *)
Definition py_truthy (v : pyval) : bool :=
  match v with
  | PyNone => false
  | PyInt n => negb (n =? 0)
  | PyFloat x => negb (feqb x (Fin 0))
  | PyStr s => negb (String.eqb s EmptyString)
  end.

(** ** The format specification [.2f] *)

Definition digit_char (d : Z) : ascii := ascii_of_nat (48 + Z.to_nat d).

Definition Z_to_string (z : Z) : string :=
  DecimalString.NilZero.string_of_int (Z.to_int z).

(** Two decimals of a finite value: the magnitude is rounded to hundredths,
    ties to even, and the sign of the unrounded value is kept (so that
    [-0.001] reads [-0.00], as in Python). *)
Definition fixed2 (q : Q) : string :=
  let r := round_half_even (Qabs q * 100) in
  String.append (if Qneg q then "-" else "")
    (String.append (Z_to_string (r / 100))
       (String "." (String (digit_char (r / 10 mod 10))
                      (String (digit_char (r mod 10)) EmptyString)))).

Definition float_format_2f (x : float) : string :=
  match x with
  | NaN => "nan"
  | PInf => "inf"
  | NInf => "-inf"
  | Fin q => fixed2 q
  end.

(** [f"{v:.2f}"]. *)
Definition py_format_2f (v : pyval) : result string :=
  match v with
  | PyInt n => x ← float_of_int n; Ok (float_format_2f x)
  | PyFloat x => Ok (float_format_2f x)
  | PyNone => Raise TypeError
  | PyStr _ => Raise ValueError
  end.

(** ** [format_number] *)

(** The body of the [try] block. *)
Definition format_number_try (number : pyval) : result string :=
  if pd_isna number || py_eq_zero number then Ok "N/A"
  else
    b9 ← py_ge number 1e9;
    if b9 : bool then
      x ← py_truediv number 1e9; Ok (String.append (float_format_2f x) "B")
    else
      b6 ← py_ge number 1e6;
      if b6 : bool then
        x ← py_truediv number 1e6; Ok (String.append (float_format_2f x) "M")
      else
        b3 ← py_ge number 1e3;
        if b3 : bool then
          x ← py_truediv number 1e3;
          Ok (String.append (float_format_2f x) "K")
        else py_format_2f number.

(** The bare [except] maps every exception to ["N/A"]. *)
Definition format_number (number : pyval) : string :=
  match format_number_try number with
  | Ok s => s
  | Raise _ => "N/A"
  end.

(** ** [get_financial_metrics] *)

(** [needle in s] on strings. *)
Fixpoint str_contains (needle s : string) : bool :=
  String.prefix needle s ||
  match s with
  | EmptyString => false
  | String _ rest => str_contains needle rest
  end.

(** [needle in v]: only a string can be searched. *)
Definition py_contains (needle : string) (v : pyval) : result bool :=
  match v with
  | PyStr s => Ok (str_contains needle s)
  | _ => Raise TypeError
  end.

(** [info.get(key, dflt)]. *)
Definition dict_get (info : gmap string pyval) (key : string) (dflt : pyval)
  : pyval :=
  default dflt (info !! key).

(** [info.get(key)]: the default is [None]. *)
Definition dict_get_none (info : gmap string pyval) (key : string) : pyval :=
  dict_get info key PyNone.

Definition rupee : string := "₹".

(** [f"{format_number(info.get(key, 0) * 100)}%"]. *)
Definition percent_entry (info : gmap string pyval) (key : string)
  : result string :=
  v ← py_mul100 (dict_get info key (PyInt 0));
  Ok (String.append (format_number v) "%").

(** The result is a [dict]; its entries are kept in insertion order. *)
Definition get_financial_metrics (info : gmap string pyval)
  : result (list (string * string)) :=
  ns ← py_contains ".NS" (dict_get info "symbol" (PyStr ""));
  let currency_symbol := if ns : bool then rupee else "$" in
  let market_cap :=
    String.append currency_symbol
      (format_number (dict_get info "marketCap" (PyInt 0))) in
  let pe := format_number (dict_get info "trailingPE" (PyInt 0)) in
  let eps :=
    String.append currency_symbol
      (format_number (dict_get info "trailingEps" (PyInt 0))) in
  let beta := format_number (dict_get info "beta" (PyInt 0)) in
  dividend ←
    (if py_truthy (dict_get_none info "dividendYield")
     then percent_entry info "dividendYield"
     else Ok "N/A");
  let revenue :=
    String.append currency_symbol
      (format_number (dict_get info "totalRevenue" (PyInt 0))) in
  profit ← percent_entry info "profitMargins";
  operating ← percent_entry info "operatingMargins";
  roe ← percent_entry info "returnOnEquity";
  roa ← percent_entry info "returnOnAssets";
  let debt := format_number (dict_get info "debtToEquity" (PyInt 0)) in
  let current := format_number (dict_get info "currentRatio" (PyInt 0)) in
  Ok [ ("Market Cap", market_cap);
       ("P/E Ratio", pe);
       ("EPS (TTM)", eps);
       ("Beta", beta);
       ("Dividend Yield", dividend);
       ("Revenue (TTM)", revenue);
       ("Profit Margin", profit);
       ("Operating Margin", operating);
       ("ROE", roe);
       ("ROA", roa);
       ("Debt to Equity", debt);
       ("Current Ratio", current) ].

(** [metrics[key]] on the returned mapping. *)
Fixpoint assoc {V : Type} (key : string) (l : list (string * V)) : option V :=
  match l with
  | [] => None
  | (k, v) :: rest => if String.eqb k key then Some v else assoc key rest
  end.

(** ** pandas Series *)

Abbreviation Series := (list float) (only parsing).

(** [s.diff()]: the first cell has no predecessor. *)
Definition diff (s : Series) : Series :=
  match s with
  | [] => []
  | _ :: rest => NaN :: zip_with fsub rest s
  end.

(** [s > c] and [s < c] against a scalar. *)
Definition series_gt (s : Series) (c : float) : list bool :=
  map (fun x => fgtb x c) s.
Definition series_lt (s : Series) (c : float) : list bool :=
  map (fun x => fltb x c) s.

(** [s.where(mask, other)]: a cell is kept where the mask holds. *)
Definition series_where (s : Series) (mask : list bool) (other : float)
  : Series :=
  zip_with (fun x (b : bool) => if b then x else other) s mask.

Definition series_neg (s : Series) : Series := map fneg s.

(** Cell-wise arithmetic of two series on the same index. *)
Definition series_add (a b : Series) : Series := zip_with fadd a b.
Definition series_sub (a b : Series) : Series := zip_with fsub a b.
Definition series_div (a b : Series) : Series := zip_with fdiv a b.

(** Arithmetic with a scalar on the left: [c + s], [c - s], [c * s],
    [c / s]. *)
Definition scalar_add (c : float) (s : Series) : Series := map (fadd c) s.
Definition scalar_sub (c : float) (s : Series) : Series := map (fsub c) s.
Definition scalar_mul (c : float) (s : Series) : Series := map (fmul c) s.
Definition scalar_div (c : float) (s : Series) : Series := map (fdiv c) s.

(** The window operations first turn infinite cells into NaN. *)
Definition prep_values (s : Series) : Series :=
  map (fun x => if isinf x then NaN else x) s.

(** The cells of the trailing window of width [w] that ends at position
    [i]. *)
Definition window (w i : nat) (vals : Series) : list float :=
  let start := (i + 1 - w)%nat in
  take (i + 1 - start)%nat (drop start vals).

(** The observations of a window: its cells that are not NaN. *)
Fixpoint observations (win : list float) : list Q :=
  match win with
  | [] => []
  | Fin q :: rest => q :: observations rest
  | _ :: rest => observations rest
  end.

(** [s.rolling(window=w, min_periods=m)] followed by an aggregation: a
    position holds NaN unless its window has at least [m] observations. *)
Definition rolling (w m : nat) (agg : list Q -> float) (s : Series)
  : Series :=
  let vals := prep_values s in
  map (fun i =>
         let obs := observations (window w i vals) in
         if (m <=? length obs)%nat then agg obs else NaN)
      (seq 0 (length s)).

Definition Qsum (l : list Q) : Q := fold_right Qplus 0%Q l.

Definition Qlen (l : list Q) : Q := inject_Z (Z.of_nat (length l)).

Definition mean (obs : list Q) : float :=
  fdiv (Fin (Qsum obs)) (Fin (Qlen obs)).

(** [s.rolling(window=w).mean()]; [min_periods] defaults to the width. *)
Definition rolling_mean (w : nat) (s : Series) : Series :=
  rolling w w mean s.

(** The sample variance (one degree of freedom removed). *)
Definition variance (obs : list Q) : float :=
  let m := (Qsum obs / Qlen obs)%Q in
  fdiv (Fin (Qsum (map (fun x => (x - m) * (x - m))%Q obs)))
       (Fin (Qlen obs - 1)).

Section Std.

(** The square root of a non-negative rational is left as a parameter:
    no claim depends on its values. *)
Variable sqrtQ : Q -> Q.

Definition fsqrt (x : float) : float :=
  match x with
  | NaN | NInf => NaN
  | PInf => PInf
  | Fin q => if Qneg q then NaN else fin (sqrtQ q)
  end.

Definition std (obs : list Q) : float := fsqrt (variance obs).

(** [s.rolling(window=w).std()]. *)
Definition rolling_std (w : nat) (s : Series) : Series :=
  rolling w w std s.

End Std.

(** [s.ewm(span=span, adjust=False).mean()].  [weighted] is the running
    average and [old_wt] the weight it carries; a NaN cell leaves the
    average in place and lets its weight decay; [min_periods] is 0, so
    every position from the first observation on reports the average. *)
Definition ewm_alpha (span : Z) : Q := (2 / (inject_Z span + 1))%Q.

Definition ewm_step (alpha : Q) (weighted : float) (old_wt : Q) (cur : float)
  : float * Q :=
  let is_observation := negb (isnan cur) in
  if isnan weighted then
    (if is_observation then cur else weighted, old_wt)
  else
    let old_wt := (old_wt * (1 - alpha))%Q in
    if is_observation then
      ((if feqb weighted cur then weighted
        else fdiv (fadd (fmul (Fin old_wt) weighted) (fmul (Fin alpha) cur))
                  (fadd (Fin old_wt) (Fin alpha))),
       1%Q)
    else (weighted, old_wt).

Fixpoint ewm_loop (alpha : Q) (weighted : float) (old_wt : Q)
    (vals : list float) : list float :=
  match vals with
  | [] => []
  | cur :: rest =>
      let '(weighted, old_wt) := ewm_step alpha weighted old_wt cur in
      weighted :: ewm_loop alpha weighted old_wt rest
  end.

Definition ewm_mean (span : Z) (s : Series) : Series :=
  match prep_values s with
  | [] => []
  | first :: rest => first :: ewm_loop (ewm_alpha span) first 1%Q rest
  end.

(** ** [calculate_rsi] *)

Definition rsi_delta (prices : Series) : Series := diff prices.

Definition rsi_gain (prices : Series) (period : nat) : Series :=
  let delta := rsi_delta prices in
  rolling_mean period (series_where delta (series_gt delta (Fin 0)) (Fin 0)).

Definition rsi_loss (prices : Series) (period : nat) : Series :=
  let delta := rsi_delta prices in
  rolling_mean period
    (series_neg (series_where delta (series_lt delta (Fin 0)) (Fin 0))).

Definition calculate_rsi (prices : Series) (period : nat) : Series :=
  let gain := rsi_gain prices period in
  let loss := rsi_loss prices period in
  let rs := series_div gain loss in
  scalar_sub (Fin 100) (scalar_div (Fin 100) (scalar_add (Fin 1) rs)).

(** ** Data frames as heap objects *)

Record DataFrame : Type := mkDataFrame {
  df_index : list Z;                        (* the session timestamps *)
  df_columns : list (string * Series)       (* the columns, in order *)
}.

(** [df[key] = s] on the columns: an existing column is overwritten where
    it stands, a new one is appended. *)
Fixpoint set_column (key : string) (s : Series)
    (cols : list (string * Series)) : list (string * Series) :=
  match cols with
  | [] => [(key, s)]
  | (k, v) :: rest =>
      if String.eqb k key then (k, s) :: rest
      else (k, v) :: set_column key s rest
  end.

Definition column (key : string) (d : DataFrame) : option Series :=
  assoc key (df_columns d).

Definition with_column (key : string) (s : Series) (d : DataFrame)
  : DataFrame :=
  mkDataFrame (df_index d) (set_column key s (df_columns d)).

Abbreviation ref := positive (only parsing).
Abbreviation heap := (gmap positive DataFrame) (only parsing).

(** Computations that read and write the heap and may raise. *)
Definition M (A : Type) : Type := heap -> result (A * heap).

#[global] Instance M_ret : MRet M := fun _ a h => Ok (a, h).
#[global] Instance M_bind : MBind M := fun _ _ f m h =>
  match m h with
  | Ok (a, h') => f a h'
  | Raise e => Raise e
  end.

#[global] Typeclasses Opaque M.

Definition raise {A : Type} (e : exn) : M A := fun _ => Raise e.

(** A reference always denotes an object of the heap; the model raises
    [KeyError] with an empty key on one that does not, which no call of
    the program reaches. *)
Definition deref (df : ref) : M DataFrame := fun h =>
  match h !! df with
  | Some d => Ok (d, h)
  | None => Raise (KeyError "")
  end.

Definition store (df : ref) (d : DataFrame) : M unit := fun h =>
  Ok (tt, <[df := d]> h).

(** [df[key]] for a label that names one column.  The tables of the
    provider have distinct labels; on a repeated label pandas answers
    with a sub-table instead of a column, which is outside the model
    (the first column of that label is taken). *)
Definition getitem (df : ref) (key : string) : M Series :=
  d ← deref df;
  match column key d with
  | Some s => mret s
  | None => raise (KeyError key)
  end.

(** [df[key] = s]: the object behind the reference is updated in place. *)
Definition setitem (df : ref) (key : string) (s : Series) : M unit :=
  d ← deref df;
  store df (with_column key s d).

(** ** [calculate_metrics] *)

Section Metrics.

Variable sqrtQ : Q -> Q.

Definition calculate_metrics (df : ref) : M ref :=
  (* Basic moving averages *)
  close ← getitem df "Close";
  setitem df "SMA_20" (rolling_mean 20 close);;
  close ← getitem df "Close";
  setitem df "SMA_50" (rolling_mean 50 close);;
  (* RSI *)
  close ← getitem df "Close";
  setitem df "RSI" (calculate_rsi close 14);;
  (* MACD *)
  close ← getitem df "Close";
  let exp1 := ewm_mean 12 close in
  close ← getitem df "Close";
  let exp2 := ewm_mean 26 close in
  setitem df "MACD" (series_sub exp1 exp2);;
  macd ← getitem df "MACD";
  setitem df "Signal_Line" (ewm_mean 9 macd);;
  (* Bollinger Bands *)
  close ← getitem df "Close";
  setitem df "BB_middle" (rolling_mean 20 close);;
  middle ← getitem df "BB_middle";
  close ← getitem df "Close";
  setitem df "BB_upper"
    (series_add middle (scalar_mul (Fin 2) (rolling_std sqrtQ 20 close)));;
  middle ← getitem df "BB_middle";
  close ← getitem df "Close";
  setitem df "BB_lower"
    (series_sub middle (scalar_mul (Fin 2) (rolling_std sqrtQ 20 close)));;
  mret df.

End Metrics.

(** The names of the derived columns. *)
Definition derived_columns : list string :=
  ["SMA_20"; "SMA_50"; "RSI"; "MACD"; "Signal_Line";
   "BB_middle"; "BB_upper"; "BB_lower"].

(** A square root for running the model on examples: the floor of the
    root at a resolution of [2^-40]. *)
Definition sqrt_floor (q : Q) : Q :=
  (inject_Z (Z.sqrt (Qfloor (q * inject_Z (2 ^ 80)))) / inject_Z (2 ^ 40))%Q.

(** ** Chart specifications *)

Record Line : Type := mkLine {
  line_color : string;
  line_width : option Q
}.

Inductive Trace : Type :=
| Candlestick (x : list Z) (open high low close : Series) (name : string)
| Scatter (x : list Z) (y : Series) (name : string) (line : Line)
    (fill : option (string * string))      (* fill mode and fill colour *)
| Bar (x : list Z) (y : Series) (name : string)
    (marker_color : list string) (opacity : Q).

Record HLine : Type := mkHLine {
  hl_y : Q;
  hl_line_color : string;
  hl_line_width : Q;
  hl_line_dash : string;
  hl_annotation_text : string;
  hl_annotation_position : string;
  hl_row : nat;
  hl_col : nat
}.

Record Layout : Type := mkLayout {
  template : string;
  paper_bgcolor : string;
  plot_bgcolor : string;
  xaxis_rangeslider_visible : bool;
  height : Z;
  showlegend : bool;
  legend_bgcolor : string;
  margin : Z * Z * Z * Z                    (* l, r, t, b *)
}.

Record Axes : Type := mkAxes {
  showgrid : bool;
  gridwidth : Z;
  gridcolor : string;
  zeroline : bool
}.

Record Figure : Type := mkFigure {
  fig_rows : nat;
  fig_cols : nat;
  fig_shared_xaxes : bool;
  fig_vertical_spacing : Q;
  fig_row_heights : list Q;
  fig_data : list (Trace * (nat * nat));    (* a trace and its grid cell *)
  fig_hlines : list HLine;
  fig_layout : option Layout;
  fig_xaxes : option Axes;
  fig_yaxes : option Axes;
  fig_yaxis_titles : list (nat * string)    (* row and title *)
}.

(** [make_subplots]: one height per row is required, and the spacing must
    leave room for the rows. *)
Definition make_subplots (rows cols : nat) (shared_xaxes : bool)
    (vertical_spacing : Q) (row_heights : list Q) : result Figure :=
  if negb (length row_heights =? rows)%nat
     || negb (forallb Qpos row_heights)
     || Qneg vertical_spacing
     || Qpos (vertical_spacing * inject_Z (Z.of_nat (rows - 1)) - 1)
  then Raise ValueError
  else Ok (mkFigure rows cols shared_xaxes vertical_spacing row_heights
             [] [] None None None []).

Definition in_grid (fig : Figure) (row col : nat) : bool :=
  ((1 <=? row) && (row <=? fig_rows fig) &&
   (1 <=? col) && (col <=? fig_cols fig))%nat.

(** [fig.add_trace(trace, row=row, col=col)]. *)
Definition add_trace (fig : Figure) (t : Trace) (row col : nat)
  : result Figure :=
  if in_grid fig row col then
    Ok (mkFigure (fig_rows fig) (fig_cols fig) (fig_shared_xaxes fig)
          (fig_vertical_spacing fig) (fig_row_heights fig)
          (fig_data fig ++ [(t, (row, col))]) (fig_hlines fig)
          (fig_layout fig) (fig_xaxes fig) (fig_yaxes fig)
          (fig_yaxis_titles fig))
  else Raise ValueError.

(** [fig.add_hline(..., row=row, col=col)]. *)
Definition add_hline (fig : Figure) (l : HLine) : result Figure :=
  if in_grid fig (hl_row l) (hl_col l) then
    Ok (mkFigure (fig_rows fig) (fig_cols fig) (fig_shared_xaxes fig)
          (fig_vertical_spacing fig) (fig_row_heights fig)
          (fig_data fig) (fig_hlines fig ++ [l])
          (fig_layout fig) (fig_xaxes fig) (fig_yaxes fig)
          (fig_yaxis_titles fig))
  else Raise ValueError.

Definition update_layout (fig : Figure) (l : Layout) : Figure :=
  mkFigure (fig_rows fig) (fig_cols fig) (fig_shared_xaxes fig)
    (fig_vertical_spacing fig) (fig_row_heights fig)
    (fig_data fig) (fig_hlines fig)
    (Some l) (fig_xaxes fig) (fig_yaxes fig) (fig_yaxis_titles fig).

Definition update_xaxes (fig : Figure) (a : Axes) : Figure :=
  mkFigure (fig_rows fig) (fig_cols fig) (fig_shared_xaxes fig)
    (fig_vertical_spacing fig) (fig_row_heights fig)
    (fig_data fig) (fig_hlines fig)
    (fig_layout fig) (Some a) (fig_yaxes fig) (fig_yaxis_titles fig).

Definition update_yaxes (fig : Figure) (a : Axes) : Figure :=
  mkFigure (fig_rows fig) (fig_cols fig) (fig_shared_xaxes fig)
    (fig_vertical_spacing fig) (fig_row_heights fig)
    (fig_data fig) (fig_hlines fig)
    (fig_layout fig) (fig_xaxes fig) (Some a) (fig_yaxis_titles fig).

(** [fig.update_yaxes(title_text=title, row=row, col=1)]. *)
Definition update_yaxis_title (fig : Figure) (title : string) (row : nat)
  : result Figure :=
  if in_grid fig row 1 then
    Ok (mkFigure (fig_rows fig) (fig_cols fig) (fig_shared_xaxes fig)
          (fig_vertical_spacing fig) (fig_row_heights fig)
          (fig_data fig) (fig_hlines fig)
          (fig_layout fig) (fig_xaxes fig) (fig_yaxes fig)
          (fig_yaxis_titles fig ++ [(row, title)]))
  else Raise ValueError.

(** A fallible step that leaves the heap alone. *)
Definition lift {A : Type} (r : result A) : M A := fun h =>
  match r with
  | Ok a => Ok (a, h)
  | Raise e => Raise e
  end.

(** The bar colours: one per session, by the direction of the session. *)
Definition volume_colors (close open : Series) : list string :=
  zip_with (fun c o => if fgeb c o then "#4BFF4B" else "#FF4B4B") close open.

(** ** [create_price_chart] *)

Definition create_price_chart (df : ref) (symbol : string) : M Figure :=
  fig ← lift (make_subplots 3 1 true 0.1 [0.5; 0.25; 0.25]%Q);
  (* Main price chart *)
  d ← deref df;
  let index := df_index d in
  open ← getitem df "Open";
  high ← getitem df "High";
  low ← getitem df "Low";
  close ← getitem df "Close";
  fig ← lift (add_trace fig (Candlestick index open high low close "Price")
                1 1);
  (* Bollinger Bands *)
  upper ← getitem df "BB_upper";
  fig ← lift (add_trace fig
                (Scatter index upper "Upper Band"
                   (mkLine "rgba(173, 204, 255, 0.3)" None) None) 1 1);
  lower ← getitem df "BB_lower";
  fig ← lift (add_trace fig
                (Scatter index lower "Lower Band"
                   (mkLine "rgba(173, 204, 255, 0.3)" None)
                   (Some ("tonexty", "rgba(173, 204, 255, 0.1)"))) 1 1);
  (* Moving averages *)
  sma20 ← getitem df "SMA_20";
  fig ← lift (add_trace fig
                (Scatter index sma20 "20-Day MA"
                   (mkLine "#00FF9D" (Some 1.5%Q)) None) 1 1);
  sma50 ← getitem df "SMA_50";
  fig ← lift (add_trace fig
                (Scatter index sma50 "50-Day MA"
                   (mkLine "#FF4B4B" (Some 1.5%Q)) None) 1 1);
  (* Volume bars *)
  close ← getitem df "Close";
  open ← getitem df "Open";
  let colors := volume_colors close open in
  volume ← getitem df "Volume";
  fig ← lift (add_trace fig (Bar index volume "Volume" colors 0.8%Q) 2 1);
  (* RSI *)
  rsi ← getitem df "RSI";
  fig ← lift (add_trace fig
                (Scatter index rsi "RSI"
                   (mkLine "#00FF9D" (Some 1.5%Q)) None) 3 1);
  fig ← lift (add_hline fig
                (mkHLine 70 "#FF4B4B" 1 "dash" "Overbought (70)" "right"
                   3 1));
  fig ← lift (add_hline fig
                (mkHLine 30 "#4BFF4B" 1 "dash" "Oversold (30)" "right"
                   3 1));
  let fig := update_layout fig
               (mkLayout "plotly_dark" "#1E1E1E" "#2D2D2D" false 800 true
                  "rgba(0,0,0,0.5)" (50, 50, 30, 50)) in
  let fig := update_xaxes fig
               (mkAxes true 1 "rgba(128,128,128,0.2)" false) in
  let fig := update_yaxes fig
               (mkAxes true 1 "rgba(128,128,128,0.2)" false) in
  fig ← lift (update_yaxis_title fig "Price" 1);
  fig ← lift (update_yaxis_title fig "Volume" 2);
  fig ← lift (update_yaxis_title fig "RSI" 3);
  mret fig.

(** The rows of the grid that hold at least one trace. *)
Definition traces_in_row (fig : Figure) (row : nat) : list Trace :=
  map fst (filter (fun e => fst (snd e) = row) (fig_data fig)).

(** ** Vocabulary of the properties *)

(** The last character of a string, and the K/M/B suffix test. *)
Fixpoint last_char (s : string) : option ascii :=
  match s with
  | EmptyString => None
  | String c EmptyString => Some c
  | String _ rest => last_char rest
  end.

Definition is_suffix_letter (c : ascii) : bool :=
  (Ascii.eqb c "K" || Ascii.eqb c "M" || Ascii.eqb c "B")%char.

Definition has_suffix (s : string) : bool :=
  match last_char s with
  | Some c => is_suffix_letter c
  | None => false
  end.

(** What makes an input of [format_number] strictly negative, and what
    makes it convertible to a float. *)
Definition py_negative (v : pyval) : bool :=
  match v with
  | PyInt n => n <? 0
  | PyFloat x => fltb x (Fin 0)
  | _ => false
  end.

Definition float_convertible (v : pyval) : bool :=
  match v with
  | PyInt n => Z.abs n <? 2 ^ 1024 - 2 ^ 970
  | _ => true
  end.

(** The entries of the financial-metrics mapping with the metadata field
    each one reads: those rendered as they are, those behind the currency
    symbol, and those in front of a percent sign. *)
Definition bare_entries : list (string * string) :=
  [("P/E Ratio", "trailingPE"); ("Beta", "beta");
   ("Dividend Yield", "dividendYield");
   ("Debt to Equity", "debtToEquity"); ("Current Ratio", "currentRatio")].

Definition currency_entries : list (string * string) :=
  [("Market Cap", "marketCap"); ("EPS (TTM)", "trailingEps");
   ("Revenue (TTM)", "totalRevenue")].

Definition percent_entries : list (string * string) :=
  [("Profit Margin", "profitMargins");
   ("Operating Margin", "operatingMargins");
   ("ROE", "returnOnEquity"); ("ROA", "returnOnAssets")].

(** A source field is absent from the metadata (no entry, or an entry that
    holds [None]), or holds a zero. *)
Definition absent_or_zero (info : gmap string pyval) (field : string)
  : bool :=
  match info !! field with
  | None | Some PyNone => true
  | Some v => py_eq_zero v
  end.

(** The conditions under which [get_financial_metrics] raises nothing: the
    symbol, when present, is a string, and no field that is multiplied
    holds [None]. *)
Definition symbol_ok (info : gmap string pyval) : bool :=
  match info !! "symbol" with
  | None | Some (PyStr _) => true
  | Some _ => false
  end.

Definition not_none (info : gmap string pyval) (field : string) : bool :=
  match info !! field with
  | Some PyNone => false
  | _ => true
  end.

Definition percent_ok (info : gmap string pyval) : bool :=
  forallb (fun e => not_none info (snd e)) percent_entries.

(** The value of the RSI at a position whose average gain is [g] and whose
    average loss is [l]. *)
Definition rsi_value (g l : float) : float :=
  fsub (Fin 100) (fdiv (Fin 100) (fadd (Fin 1) (fdiv g l))).

(** A value of the RSI is either undefined or within [0, 100]. *)
Definition in_range (y : float) : Prop :=
  y = NaN \/ exists q, y = Fin q /\ (0 <= q <= 100)%Q.

Definition is_fin (x : float) : bool :=
  match x with Fin _ => true | _ => false end.

(** Monotone series: each cell compares below ([<=], resp. [<]) its
    successor. *)
Fixpoint nondecreasing (s : Series) : bool :=
  match s with
  | x :: (y :: _) as rest => fleb x y && nondecreasing rest
  | _ => true
  end.

Fixpoint increasing (s : Series) : bool :=
  match s with
  | x :: (y :: _) as rest => fltb x y && increasing rest
  | _ => true
  end.

(** Cells that are not negative: [+inf] and the finite values from 0
    up. *)
Definition nonneg_cell (x : float) : Prop :=
  x = PInf \/ exists q, x = Fin q /\ (0 <= q)%Q.

(** Averages of such cells: undefined, or finite and not negative. *)
Definition nonneg_avg (x : float) : Prop :=
  x = NaN \/ exists q, x = Fin q /\ (0 <= q)%Q.

(** The table [calculate_metrics] leaves behind, from the table it found
    and the Close column of that table. *)
Definition with_metrics (sqrtQ : Q -> Q) (close : Series) (d : DataFrame)
  : DataFrame :=
  let macd := series_sub (ewm_mean 12 close) (ewm_mean 26 close) in
  let middle := rolling_mean 20 close in
  let band := scalar_mul (Fin 2) (rolling_std sqrtQ 20 close) in
  with_column "BB_lower" (series_sub middle band)
    (with_column "BB_upper" (series_add middle band)
       (with_column "BB_middle" middle
          (with_column "Signal_Line" (ewm_mean 9 macd)
             (with_column "MACD" macd
                (with_column "RSI" (calculate_rsi close 14)
                   (with_column "SMA_50" (rolling_mean 50 close)
                      (with_column "SMA_20" (rolling_mean 20 close)
                         d))))))).

(** The names of the columns of a table, in order. *)
Definition column_names (d : DataFrame) : list string :=
  map fst (df_columns d).

(** A three-session table for running the model: Open, High, Low, Close
    and Volume. *)
Definition sample_frame : DataFrame :=
  mkDataFrame [20240101; 20240102; 20240103]
    [("Open", [Fin 10; Fin 11; Fin 12]);
     ("High", [Fin 12; Fin 12; Fin 13]);
     ("Low", [Fin 9; Fin 10; Fin 11]);
     ("Close", [Fin 11; Fin 12; Fin 11]);
     ("Volume", [Fin 1000; Fin 1500; Fin 1200])].

Definition sample_heap : gmap positive DataFrame :=
  {[ 1%positive := sample_frame ]}.

(** The columns [create_price_chart] reads: an indicator table has them
    all. *)
Definition chart_columns : list string :=
  ["Open"; "High"; "Low"; "Close"; "BB_upper"; "BB_lower";
   "SMA_20"; "SMA_50"; "Volume"; "RSI"].

Definition has_column (d : DataFrame) (key : string) : bool :=
  match column key d with
  | Some _ => true
  | None => false
  end.

Definition indicator_table (d : DataFrame) : bool :=
  forallb (has_column d) chart_columns.

(** The grid cells of the traces of a figure. *)
Definition trace_cells (fig : Figure) : list (nat * nat) :=
  map snd (fig_data fig).




(** A heap whose table already carries the indicators. *)
Definition sample_indicator_heap : gmap positive DataFrame :=
  {[ 1%positive :=
       with_metrics sqrt_floor [Fin 11; Fin 12; Fin 11] sample_frame ]}.

(** ** [get_company_profile] *)

(** The values of the profile are what the metadata holds, so they are
    Python values; the number of employees is formatted. *)
Definition get_company_profile (info : gmap string pyval)
  : list (string * pyval) :=
  [ ("Business Summary", dict_get info "longBusinessSummary" (PyStr "N/A"));
    ("Sector", dict_get info "sector" (PyStr "N/A"));
    ("Industry", dict_get info "industry" (PyStr "N/A"));
    ("Website", dict_get info "website" (PyStr "N/A"));
    ("Full Time Employees",
     PyStr (format_number (dict_get info "fullTimeEmployees" (PyInt 0)))) ].

(** ** [get_stock_news] *)

(** [s.replace(old, new)] for a non-empty [old]: the occurrences are taken
    from the left and do not overlap.  [skip] counts the characters of an
    occurrence that are still to be passed over. *)
Fixpoint replace_from (old new : string) (skip : nat) (s : string) : string :=
  match s with
  | EmptyString => EmptyString
  | String c rest =>
      match skip with
      | S k => replace_from old new k rest
      | O =>
          if String.prefix old s
          then String.append new
                 (replace_from old new (String.length old - 1) rest)
          else String c (replace_from old new 0 rest)
      end
  end.

Definition str_replace (old new s : string) : string :=
  replace_from old new 0 s.

(** A row of the news table, and the table: its column labels and its
    rows. *)
Record NewsRow : Type := mkNewsRow {
  news_title : pyval;
  news_date : string;
  news_link : pyval
}.

Record NewsFrame : Type := mkNewsFrame {
  news_columns : list string;
  news_rows : list NewsRow
}.

(** [pd.DataFrame(news_data)] on a list of records: the labels come from
    the records, so an empty list gives a table without columns. *)
Definition news_frame_of (news_data : list NewsRow) : NewsFrame :=
  match news_data with
  | [] => mkNewsFrame [] []
  | _ :: _ => mkNewsFrame ["Title"; "Date"; "Link"] news_data
  end.

(** [item[key]]. *)
Definition item_get (item : gmap string pyval) (key : string)
  : result pyval :=
  match item !! key with
  | Some v => Ok v
  | None => Raise (KeyError key)
  end.

Section News.

(** The data provider and the clock are outside the repository:
    [Ticker_news symbol] stands for [yf.Ticker(symbol).news],
    [date_of_timestamp t] for
    [datetime.fromtimestamp(t).strftime('%Y-%m-%d')], and [str_exn e] for
    the text of an exception. *)
Variable Ticker_news : string -> result (list (gmap string pyval)).
Variable date_of_timestamp : pyval -> result string.
Variable str_exn : exn -> string.

(** One turn of the loop: the record built from an item. *)
Definition news_record (item : gmap string pyval) : result NewsRow :=
  title ← item_get item "title";
  time ← item_get item "providerPublishTime";
  date ← date_of_timestamp time;
  link ← item_get item "link";
  Ok (mkNewsRow title date link).

(** The loop: the first item that raises ends it. *)
Fixpoint news_records (items : list (gmap string pyval))
  : result (list NewsRow) :=
  match items with
  | [] => Ok []
  | item :: rest =>
      record ← news_record item;
      records ← news_records rest;
      Ok (record :: records)
  end.

(** The table, and the lines printed. *)
Definition get_stock_news (symbol : string) : NewsFrame * list string :=
  let attempt :=
    let company_symbol := str_replace ".NS" "" symbol in
    news ← Ticker_news symbol;
    news_data ← news_records (take 5 news);
    Ok (news_frame_of news_data) in
  match attempt with
  | Ok frame => (frame, [])
  | Raise e =>
      (mkNewsFrame ["Title"; "Date"; "Link"] [],
       [String.append "Error fetching news: " (str_exn e)])
  end.

End News.

(** ** [get_stock_data] *)

Section StockData.

(** [history_period symbol period] stands for
    [yf.Ticker(symbol).history(period=period)], [history_range symbol
    start end] for [yf.Ticker(symbol).history(start=start, end=end)] and
    [Ticker_info symbol] for [yf.Ticker(symbol).info]. *)
Variable history_period : string -> string -> result DataFrame.
Variable history_range : string -> pyval -> pyval -> result DataFrame.
Variable Ticker_info : string -> result (gmap string pyval).
Variable str_exn : exn -> string.

(** The pair returned, and the lines printed. *)
Definition get_stock_data (symbol period : string)
    (start_date end_date : pyval)
  : (option DataFrame * option (gmap string pyval)) * list string :=
  let attempt :=
    hist ← (if String.eqb period "custom"
               && py_truthy start_date && py_truthy end_date
            then history_range symbol start_date end_date
            else history_period symbol period);
    info ← Ticker_info symbol;
    Ok (hist, info) in
  match attempt with
  | Ok (hist, info) => ((Some hist, Some info), [])
  | Raise e =>
      ((None, None),
       [String.append "Error fetching stock data: " (str_exn e)])
  end.

End StockData.

(** ** Vocabulary of the further properties *)

(** The inputs [format_number] answers with "N/A": [None], a string, a
    NaN, a zero, and an int that no float can hold. *)
Definition na_input (v : pyval) : bool :=
  match v with
  | PyNone | PyStr _ => true
  | PyFloat x => isnan x || feqb x (Fin 0)
  | PyInt n => (n =? 0) || negb (Z.abs n <? 2 ^ 1024 - 2 ^ 970)
  end.

(** The labels of the financial-metrics mapping, in order. *)
Definition metric_labels : list string :=
  ["Market Cap"; "P/E Ratio"; "EPS (TTM)"; "Beta"; "Dividend Yield";
   "Revenue (TTM)"; "Profit Margin"; "Operating Margin"; "ROE"; "ROA";
   "Debt to Equity"; "Current Ratio"].

(** The currency symbol [get_financial_metrics] picks for a symbol. *)
Definition currency_of (symbol : string) : string :=
  if str_contains ".NS" symbol then rupee else "$".

(** Falling series: each cell compares above ([>=], resp. [>]) its
    successor. *)
Fixpoint nonincreasing (s : Series) : bool :=
  match s with
  | x :: (y :: _) as rest => fleb y x && nonincreasing rest
  | _ => true
  end.

Fixpoint decreasing (s : Series) : bool :=
  match s with
  | x :: (y :: _) as rest => fltb y x && decreasing rest
  | _ => true
  end.

(** A table is rectangular: every column has one cell per entry of the
    index. *)
Definition rectangular (d : DataFrame) : Prop :=
  Forall (fun c => length (snd c) = length (df_index d)) (df_columns d).

(** A table with the Close column of [sample_frame] and a stale SMA_20
    column, and nothing else. *)
Definition stale_frame : DataFrame :=
  mkDataFrame [20240101; 20240102; 20240103]
    [("SMA_20", [Fin 1; Fin 1; Fin 1]);
     ("Close", [Fin 11; Fin 12; Fin 11])].

(** A computation leaves the heap as it finds it. *)
Definition read_only {A : Type} (m : M A) : Prop :=
  forall h a h', m h = Ok (a, h') -> h' = h.

(** The first of the columns [create_price_chart] reads that a table
    lacks. *)
Definition first_missing (d : DataFrame) : option string :=
  find (fun key => negb (has_column d key)) chart_columns.

(** The horizontal and the vertical data of a trace, and the number of
    sessions each holds. *)
Definition trace_x (t : Trace) : list Z :=
  match t with
  | Candlestick x _ _ _ _ _ => x
  | Scatter x _ _ _ _ => x
  | Bar x _ _ _ _ => x
  end.

Definition trace_sizes (t : Trace) : list nat :=
  match t with
  | Candlestick _ open high low close _ =>
      [length open; length high; length low; length close]
  | Scatter _ y _ _ _ => [length y]
  | Bar _ y _ colors _ => [length y; length colors]
  end.

(** The five columns of a price table. *)
Definition ohlcv_columns : list string :=
  ["Open"; "High"; "Low"; "Close"; "Volume"].

(** The entries of the company profile that are passed through, with the
    metadata field each one reads. *)
Definition profile_text_entries : list (string * string) :=
  [("Business Summary", "longBusinessSummary"); ("Sector", "sector");
   ("Industry", "industry"); ("Website", "website")].

(** A table of twenty sessions with the closing prices 1 to 20, and two
    price series of fifteen sessions, one that mostly rises and one that
    mostly falls. *)
Definition band_sample : Series :=
  map (fun n => Fin (inject_Z (Z.of_nat n))) (seq 1 20).

Definition band_frame : DataFrame :=
  mkDataFrame (map Z.of_nat (seq 1 20)) [("Close", band_sample)].

Definition band_heap : gmap positive DataFrame :=
  {[ 1%positive := band_frame ]}.

Definition mostly_rising : Series :=
  [Fin 1; Fin 2; Fin 3; Fin 2; Fin 5; Fin 6; Fin 7; Fin 8; Fin 7;
   Fin 10; Fin 11; Fin 12; Fin 13; Fin 14; Fin 12].

Definition mostly_falling : Series :=
  [Fin 20; Fin 19; Fin 18; Fin 20; Fin 17; Fin 16; Fin 15; Fin 14; Fin 13;
   Fin 12; Fin 11; Fin 10; Fin 9; Fin 8; Fin 7].

(** A table without a Close column. *)
Definition open_only_frame : DataFrame := mkDataFrame [] [("Open", [])].

Definition open_only_heap : gmap positive DataFrame :=
  {[ 1%positive := open_only_frame ]}.

(** The table [get_stock_news] returns when anything fails. *)
Definition no_news_frame : NewsFrame :=
  mkNewsFrame ["Title"; "Date"; "Link"] [].

(** Providers and a clock for running the model: three news items for
    the symbol "TCS.NS", the second without a link, and none for "INFY.NS";
    the provider fails on every other symbol. *)
Definition sample_item (title : string) (time : Z) (link : option string)
  : gmap string pyval :=
  let base : gmap string pyval :=
    {[ "title" := PyStr title; "providerPublishTime" := PyInt time ]} in
  match link with
  | Some l => <[ "link" := PyStr l ]> base
  | None => base
  end.

Definition sample_news (symbol : string)
  : result (list (gmap string pyval)) :=
  if String.eqb symbol "TCS.NS" then
    Ok [ sample_item "Results" 1700000000 (Some "https://a");
         sample_item "Dividend" 1700086400 None;
         sample_item "Outlook" 1700172800 (Some "https://c") ]
  else if String.eqb symbol "INFY.NS" then Ok []
  else Raise ValueError.

(** A clock that counts days since the epoch instead of naming them. *)
Definition sample_date (time : pyval) : result string :=
  match time with
  | PyInt t => Ok (Z_to_string (t / 86400))
  | _ => Raise TypeError
  end.

Definition sample_str_exn (e : exn) : string :=
  match e with
  | KeyError key => String.append "'" (String.append key "'")
  | TypeError => "TypeError"
  | ValueError => "ValueError"
  | OverflowError => "OverflowError"
  end.

(** ** [submit_analysis] of [app.py] *)

(** The bound variables of the page, the page shown, the tables alive,
    and what has been printed. *)
Record State : Type := mkState {
  selected_stock : string;
  time_period : string;
  current_price : string;
  price_change : string;
  change_class : string;
  market_cap : string;
  volume : string;
  chart : option Figure;
  metrics_df : list (string * list string);   (* the columns, in order *)
  news_items : NewsFrame
}.

Record World : Type := mkWorld {
  gui : State;
  page : string;
  objects : gmap positive DataFrame;
  stdout : list string
}.

(** [initial_state]. *)
Definition initial_state : State :=
  mkState "RELIANCE.NS" "1y" "" "" "" "" "" None [] (mkNewsFrame [] []).

(** Callbacks act on the world and may raise; what they did before
    raising stays done. *)
Definition G (A : Type) : Type := World -> result A * World.

#[global] Instance G_ret : MRet G := fun _ a w => (Ok a, w).
#[global] Instance G_bind : MBind G := fun _ _ f m w =>
  match m w with
  | (Ok a, w') => f a w'
  | (Raise e, w') => (Raise e, w')
  end.
#[global] Typeclasses Opaque G.

Definition get_state : G State := fun w => (Ok (gui w), w).

Definition set_state (f : State -> State) : G unit := fun w =>
  (Ok tt, mkWorld (f (gui w)) (page w) (objects w) (stdout w)).

(** [navigate(state, to)]. *)
Definition navigate (to : string) : G unit := fun w =>
  (Ok tt, mkWorld (gui w) to (objects w) (stdout w)).

Definition print_lines (lines : list string) : G unit := fun w =>
  (Ok tt, mkWorld (gui w) (page w) (objects w) (stdout w ++ lines)).

(** A table that comes from the provider is a new object. *)
Definition new_table (d : DataFrame) : G positive := fun w =>
  let r := fresh (dom (objects w)) in
  (Ok r, mkWorld (gui w) (page w) (<[r := d]> (objects w)) (stdout w)).

(** A computation on the tables.  The two that are run here change no
    table before they raise. *)
Definition on_tables {A : Type} (m : M A) : G A := fun w =>
  match m (objects w) with
  | Ok (a, h) => (Ok a, mkWorld (gui w) (page w) h (stdout w))
  | Raise e => (Raise e, w)
  end.

Definition try_result {A : Type} (r : result A) : G A := fun w => (r, w).

(** The assignments [state.x = v]. *)
Definition set_current_price (v : string) (s : State) : State :=
  mkState (selected_stock s) (time_period s) v (price_change s)
    (change_class s) (market_cap s) (volume s) (chart s) (metrics_df s)
    (news_items s).
Definition set_price_change (v : string) (s : State) : State :=
  mkState (selected_stock s) (time_period s) (current_price s) v
    (change_class s) (market_cap s) (volume s) (chart s) (metrics_df s)
    (news_items s).
Definition set_change_class (v : string) (s : State) : State :=
  mkState (selected_stock s) (time_period s) (current_price s)
    (price_change s) v (market_cap s) (volume s) (chart s) (metrics_df s)
    (news_items s).
Definition set_market_cap (v : string) (s : State) : State :=
  mkState (selected_stock s) (time_period s) (current_price s)
    (price_change s) (change_class s) v (volume s) (chart s) (metrics_df s)
    (news_items s).
Definition set_volume (v : string) (s : State) : State :=
  mkState (selected_stock s) (time_period s) (current_price s)
    (price_change s) (change_class s) (market_cap s) v (chart s)
    (metrics_df s) (news_items s).
Definition set_chart (v : option Figure) (s : State) : State :=
  mkState (selected_stock s) (time_period s) (current_price s)
    (price_change s) (change_class s) (market_cap s) (volume s) v
    (metrics_df s) (news_items s).
Definition set_metrics_df (v : list (string * list string)) (s : State)
  : State :=
  mkState (selected_stock s) (time_period s) (current_price s)
    (price_change s) (change_class s) (market_cap s) (volume s) (chart s) v
    (news_items s).
Definition set_news_items (v : NewsFrame) (s : State) : State :=
  mkState (selected_stock s) (time_period s) (current_price s)
    (price_change s) (change_class s) (market_cap s) (volume s) (chart s)
    (metrics_df s) v.

Section App.

Variable sqrtQ : Q -> Q.
Variable history_period : string -> string -> result DataFrame.
Variable history_range : string -> pyval -> pyval -> result DataFrame.
Variable Ticker_info : string -> result (gmap string pyval).
Variable Ticker_news : string -> result (list (gmap string pyval)).
Variable date_of_timestamp : pyval -> result string.
Variable str_exn : exn -> string.

Definition submit_analysis : G unit :=
  state ← get_state;
  let '((hist_data, stock_info), printed) :=
    get_stock_data history_period history_range Ticker_info str_exn
      (selected_stock state) (time_period state) PyNone PyNone in
  print_lines printed;;
  match hist_data, stock_info with
  | Some hist, Some stock_info =>
      (* Calculate metrics *)
      hist_data ← new_table hist;
      df ← on_tables (calculate_metrics sqrtQ hist_data);
      (* Update state with new data *)
      set_state (set_current_price
        (String.append "$"
           (format_number (dict_get stock_info "currentPrice" (PyInt 0)))));;
      let change :=
        dict_get stock_info "regularMarketChangePercent" (PyInt 0) in
      text ← try_result (py_format_2f change);
      set_state (set_price_change (String.append text "%"));;
      rising ← try_result (py_ge change 0);
      set_state (set_change_class
        (if rising : bool then "positive" else "negative"));;
      set_state (set_market_cap
        (String.append "$"
           (format_number (dict_get stock_info "marketCap" (PyInt 0)))));;
      set_state (set_volume
        (format_number (dict_get stock_info "volume" (PyInt 0))));;
      (* Create chart *)
      state ← get_state;
      fig ← on_tables (create_price_chart df (selected_stock state));
      set_state (set_chart (Some fig));;
      (* Create metrics dataframe *)
      set_state (set_metrics_df
        [ ("Metric",
           ["P/E Ratio"; "EPS"; "52 Week High"; "52 Week Low"; "Beta"]);
          ("Value",
           [ format_number (dict_get stock_info "trailingPE" (PyInt 0));
             format_number (dict_get stock_info "trailingEps" (PyInt 0));
             format_number
               (dict_get stock_info "fiftyTwoWeekHigh" (PyInt 0));
             format_number
               (dict_get stock_info "fiftyTwoWeekLow" (PyInt 0));
             format_number (dict_get stock_info "beta" (PyInt 0)) ]) ]);;
      (* Get news *)
      state ← get_state;
      let '(news, printed) :=
        get_stock_news Ticker_news date_of_timestamp str_exn
          (selected_stock state) in
      print_lines printed;;
      set_state (set_news_items news);;
      (* Navigate to analysis page *)
      navigate "analysis"
  | _, _ => mret tt
  end.

End App.
(** * Properties *)

(** ** Strings *)

Lemma last_char_app (a s : string) :
  s <> EmptyString -> last_char (String.append a s) = last_char s.
Proof.
  intros Hs. induction a as [|x a IH]; [reflexivity|].
  simpl. rewrite IH.
  destruct (String.append a s) eqn:E; [|reflexivity].
  destruct a; simpl in E; [contradiction | discriminate].
Qed.

Lemma app_cons_nonempty (a : string) (c : ascii) (b : string) :
  String.append a (String c b) <> EmptyString.
Proof. destruct a; discriminate. Qed.

Lemma last_char_fixed2 (q : Q) :
  last_char (fixed2 q)
  = Some (digit_char (round_half_even (Qabs q * 100) mod 10)).
Proof.
  unfold fixed2.
  rewrite last_char_app by apply app_cons_nonempty.
  rewrite last_char_app by discriminate.
  reflexivity.
Qed.

Lemma digit_char_not_suffix (d : Z) :
  0 <= d < 10 -> is_suffix_letter (digit_char d) = false.
Proof.
  intros H.
  assert (Hd : d = 0 \/ d = 1 \/ d = 2 \/ d = 3 \/ d = 4 \/ d = 5 \/
               d = 6 \/ d = 7 \/ d = 8 \/ d = 9) by lia.
  repeat destruct Hd as [-> | Hd]; try subst d; reflexivity.
Qed.

Lemma digit_char_not_A (d : Z) :
  0 <= d < 10 -> digit_char d <> "A"%char.
Proof.
  intros H.
  assert (Hd : d = 0 \/ d = 1 \/ d = 2 \/ d = 3 \/ d = 4 \/ d = 5 \/
               d = 6 \/ d = 7 \/ d = 8 \/ d = 9) by lia.
  repeat destruct Hd as [-> | Hd]; try subst d; discriminate.
Qed.

(** A two-decimal rendering ends in a digit or in the [f] of [-inf]:
    it is not ["N/A"] and carries no suffix. *)
Lemma fixed2_plain (q : Q) :
  fixed2 q <> "N/A" /\ has_suffix (fixed2 q) = false.
Proof.
  pose proof (last_char_fixed2 q) as L.
  set (d := round_half_even (Qabs q * 100) mod 10) in L.
  assert (Hd : 0 <= d < 10) by (apply Z.mod_pos_bound; lia).
  split.
  - intros E. rewrite E in L. simpl in L. inversion L as [L'].
    symmetry in L'. revert L'. apply digit_char_not_A, Hd.
  - unfold has_suffix. rewrite L. apply digit_char_not_suffix, Hd.
Qed.

(** ** [format_number] *)

Lemma Qle_bool_pos_neg (c : Q) (n : Z) :
  (0 < c)%Q -> n < 0 -> Qle_bool c (inject_Z n) = false.
Proof.
  intros Hc Hn.
  destruct (Qle_bool c (inject_Z n)) eqn:E; [|reflexivity].
  apply Qle_bool_iff in E.
  assert (inject_Z n < 0)%Q by (unfold Qlt; simpl; lia).
  exfalso. apply (Qlt_irrefl 0). 
  eapply Qlt_le_trans; [exact Hc|].
  eapply Qle_trans; [exact E|]. apply Qlt_le_weak. assumption.
Qed.

Lemma fgeb_neg_pos (x : float) (c : Q) :
  (0 < c)%Q -> fltb x (Fin 0) = true -> fgeb x (Fin c) = false.
Proof.
  intros Hc Hx.
  destruct x as [| | |q]; try discriminate; try reflexivity.
  unfold fgeb, fleb. simpl in *.
  apply negb_true_iff in Hx.
  assert (Hq : (q < 0)%Q).
  { apply Qnot_le_lt. intros H. apply Qle_bool_iff in H. congruence. }
  assert (Hqc : (q < c)%Q) by (eapply Qlt_trans; eassumption).
  apply orb_false_iff. split.
  - apply negb_false_iff. apply Qle_bool_iff. apply Qlt_le_weak, Hqc.
  - destruct (Qeq_bool c q) eqn:E; [|reflexivity].
    apply Qeq_bool_iff in E. rewrite E in Hqc.
    exfalso. exact (Qlt_irrefl _ Hqc).
Qed.

(** The negative inputs skip every threshold. *)
Lemma format_number_try_negative (v : pyval) :
  py_negative v = true ->
  format_number_try v = py_format_2f v.
Proof.
  intros Hneg. unfold format_number_try.
  destruct v as [|n|x|s]; try discriminate; simpl in Hneg.
  - apply Z.ltb_lt in Hneg.
    assert (E0 : (n =? 0) = false) by (apply Z.eqb_neq; lia).
    simpl. rewrite E0. simpl.
    rewrite !Qle_bool_pos_neg by (try reflexivity; assumption).
    reflexivity.
  - assert (En : isnan x = false) by (destruct x; simpl in *; congruence).
    assert (Ez : feqb x (Fin 0) = false).
    { destruct x as [| | |q]; try reflexivity; try discriminate.
      simpl in *. apply negb_true_iff in Hneg.
      destruct (Qeq_bool q 0) eqn:E; [|reflexivity].
      apply Qeq_bool_iff in E.
      assert (Qle_bool 0 q = true)
        by (apply Qle_bool_iff; rewrite E; apply Qle_refl).
      congruence. }
    simpl. rewrite En, Ez. simpl.
    rewrite !fgeb_neg_pos by (try reflexivity; assumption).
    reflexivity.
Qed.

(** C5: [format_number] maps 0 to "N/A", 1500 to "1.50K", 2500000 to
    "2.50M", 3200000000 to "3.20B" and 42.5 to "42.50". *)
Theorem format_number_examples :
  format_number (PyInt 0) = "N/A" /\
  format_number (PyInt 1500) = "1.50K" /\
  format_number (PyInt 2500000) = "2.50M" /\
  format_number (PyInt 3200000000) = "3.20B" /\
  format_number (PyFloat (Fin 42.5)) = "42.50".
Proof. repeat split; vm_compute; reflexivity. Qed.

(** C10, as stated, fails on a negative int beyond the range of a float:
    the conversion raises, and the handler answers "N/A". *)
Lemma format_number_negative_overflow :
  py_negative (PyInt (- 2 ^ 1024)) = true /\
  format_number (PyInt (- 2 ^ 1024)) = "N/A".
Proof. split; vm_compute; reflexivity. Qed.

(** C10 (amended): for every strictly negative input that is a float, or
    an int that converts to a float, [format_number] returns the plain
    two-decimal rendering of the number: never "N/A", no K/M/B suffix. *)
Theorem format_number_negative (v : pyval) :
  py_negative v = true ->
  float_convertible v = true ->
  exists s, py_format_2f v = Ok s /\
            format_number v = s /\
            s <> "N/A" /\
            has_suffix s = false.
Proof.
  intros Hneg Hconv.
  unfold format_number. rewrite (format_number_try_negative v Hneg).
  destruct v as [|n|x|s]; try discriminate; simpl in *.
  - unfold float_of_int. rewrite Hconv. simpl.
    eexists. split; [reflexivity|]. split; [reflexivity|].
    apply fixed2_plain.
  - eexists. split; [reflexivity|]. split; [reflexivity|].
    destruct x as [| | |q]; try discriminate.
    + split; [discriminate | reflexivity].
    + apply fixed2_plain.
Qed.

Lemma format_number_negative_witness :
  exists s, py_format_2f (PyInt (-2500000)) = Ok s /\
            format_number (PyInt (-2500000)) = s /\
            s <> "N/A" /\
            has_suffix s = false.
Proof.
  apply (format_number_negative (PyInt (-2500000))); reflexivity.
Defined.

(** The example of the claim. *)
Lemma format_number_negative_example :
  format_number (PyInt (-2500000)) = "-2500000.00".
Proof. vm_compute; reflexivity. Qed.

(** ** [get_financial_metrics] *)

Lemma format_number_absent_or_zero (info : gmap string pyval)
    (field : string) :
  absent_or_zero info field = true ->
  format_number (dict_get info field (PyInt 0)) = "N/A".
Proof.
  unfold absent_or_zero, dict_get.
  destruct (info !! field) as [v|]; simpl; [|reflexivity].
  destruct v as [|n|x|s]; [reflexivity| | |discriminate];
    intros Hz; unfold format_number, format_number_try;
    cbn [pd_isna py_eq_zero] in *; rewrite Hz, orb_true_r; reflexivity.
Qed.

Lemma py_truthy_absent_or_zero (info : gmap string pyval) (field : string) :
  absent_or_zero info field = true ->
  py_truthy (dict_get_none info field) = false.
Proof.
  unfold absent_or_zero, dict_get_none, dict_get.
  destruct (info !! field) as [v|]; simpl; [|reflexivity].
  destruct v; simpl; try discriminate; try reflexivity;
    intros ->; reflexivity.
Qed.

Lemma percent_entry_ok (info : gmap string pyval) (field : string) :
  not_none info field = true ->
  exists s, percent_entry info field = Ok s.
Proof.
  unfold not_none, percent_entry, dict_get.
  destruct (info !! field) as [[| | |]|]; simpl; try discriminate;
    intros _; eexists; reflexivity.
Qed.

Lemma percent_entry_absent_or_zero (info : gmap string pyval)
    (field : string) :
  absent_or_zero info field = true ->
  not_none info field = true ->
  percent_entry info field = Ok "N/A%".
Proof.
  unfold absent_or_zero, not_none, percent_entry, dict_get.
  destruct (info !! field) as [v|]; simpl; [|reflexivity].
  destruct v as [|n|x|s]; simpl; try discriminate.
  - intros Hn _. apply Z.eqb_eq in Hn. subst n. reflexivity.
  - destruct x as [| | |q]; simpl; try discriminate.
    intros Hq _. apply Qeq_bool_iff in Hq.
    assert (E : Qeq_bool (Qred (q * 100)) 0 = true).
    { apply Qeq_bool_iff. rewrite Qred_correct, Hq. reflexivity. }
    unfold format_number, format_number_try. simpl.
    unfold fin. simpl. rewrite E. reflexivity.
Qed.

Lemma percent_entry_not_none (info : gmap string pyval) (field s : string) :
  percent_entry info field = Ok s -> not_none info field = true.
Proof.
  unfold not_none, percent_entry, dict_get.
  destruct (info !! field) as [[| | |]|]; simpl; try discriminate;
    reflexivity.
Qed.

(** The dividend entry raises nothing: a field that counts as true is not
    [None]. *)
Lemma dividend_entry_ok (info : gmap string pyval) :
  exists s,
    (if py_truthy (dict_get_none info "dividendYield")
     then percent_entry info "dividendYield"
     else Ok "N/A") = Ok s.
Proof.
  destruct (py_truthy (dict_get_none info "dividendYield")) eqn:E;
    [|eexists; reflexivity].
  apply percent_entry_ok. unfold not_none.
  unfold dict_get_none, dict_get in E.
  destruct (info !! "dividendYield") as [[| | |]|]; simpl in *;
    congruence.
Qed.

(** C6, as stated, fails on the empty metadata: the market capitalisation
    reads "$N/A", with the currency symbol attached. *)
Lemma financial_metrics_empty_market_cap :
  exists m, get_financial_metrics ∅ = Ok m /\
            absent_or_zero ∅ "marketCap" = true /\
            assoc "Market Cap" m = Some "$N/A" /\
            assoc "Market Cap" m <> Some "N/A".
Proof.
  eexists. split; [vm_compute; reflexivity|].
  split; [reflexivity|]. split; [reflexivity | discriminate].
Qed.

(** C6 (amended): in the mapping produced from the metadata, a value whose
    source field is absent or zero is rendered "N/A", each value on its
    own: bare for P/E, Beta, Dividend Yield, Debt to Equity and Current
    Ratio, and behind the currency symbol for Market Cap, EPS and
    Revenue. *)
Theorem financial_metrics_absent_or_zero (info : gmap string pyval) :
  symbol_ok info = true ->
  percent_ok info = true ->
  exists m cur,
    get_financial_metrics info = Ok m /\
    (cur = rupee \/ cur = "$") /\
    (forall label field,
        In (label, field) bare_entries ->
        absent_or_zero info field = true ->
        assoc label m = Some "N/A") /\
    (forall label field,
        In (label, field) currency_entries ->
        absent_or_zero info field = true ->
        assoc label m = Some (String.append cur "N/A")).
Proof.
  intros Hsym Hpct.
  unfold percent_ok in Hpct. simpl in Hpct.
  repeat (apply andb_prop in Hpct; destruct Hpct as [? Hpct]).
  destruct (percent_entry_ok info "profitMargins") as [s1 E1]; [assumption|].
  destruct (percent_entry_ok info "operatingMargins") as [s2 E2];
    [assumption|].
  destruct (percent_entry_ok info "returnOnEquity") as [s3 E3];
    [assumption|].
  destruct (percent_entry_ok info "returnOnAssets") as [s4 E4];
    [assumption|].
  destruct (dividend_entry_ok info) as [sd Ed].
  assert (Hns : exists b, py_contains ".NS" (dict_get info "symbol" (PyStr ""))
                          = Ok b).
  { unfold symbol_ok in Hsym. unfold dict_get.
    destruct (info !! "symbol") as [[| | |]|]; simpl in *;
      try discriminate; eexists; reflexivity. }
  destruct Hns as [b Eb].
  unfold get_financial_metrics.
  rewrite Eb. cbn [mbind result_bind].
  rewrite Ed. cbn [mbind result_bind].
  rewrite E1, E2, E3, E4. cbn [mbind result_bind].
  eexists. exists (if b then rupee else "$").
  split; [reflexivity|].
  split; [destruct b; auto|].
  split.
  - intros label field Hin Hz. simpl in Hin.
    repeat destruct Hin as [Hin|Hin]; try contradiction;
      inversion Hin; subst; cbn [assoc String.eqb Ascii.eqb Bool.eqb];
      try (rewrite format_number_absent_or_zero by assumption; reflexivity).
    rewrite (py_truthy_absent_or_zero _ _ Hz) in Ed. congruence.
  - intros label field Hin Hz. simpl in Hin.
    repeat destruct Hin as [Hin|Hin]; try contradiction;
      inversion Hin; subst; cbn [assoc String.eqb Ascii.eqb Bool.eqb];
      rewrite format_number_absent_or_zero by assumption; reflexivity.
Qed.

Lemma financial_metrics_absent_or_zero_witness :
  exists m cur,
    get_financial_metrics {[ "symbol" := PyStr "TCS.NS";
                             "marketCap" := PyInt 0;
                             "beta" := PyFloat (Fin 0) ]} = Ok m /\
    (cur = rupee \/ cur = "$") /\
    (forall label field,
        In (label, field) bare_entries ->
        absent_or_zero {[ "symbol" := PyStr "TCS.NS";
                          "marketCap" := PyInt 0;
                          "beta" := PyFloat (Fin 0) ]} field = true ->
        assoc label m = Some "N/A") /\
    (forall label field,
        In (label, field) currency_entries ->
        absent_or_zero {[ "symbol" := PyStr "TCS.NS";
                          "marketCap" := PyInt 0;
                          "beta" := PyFloat (Fin 0) ]} field = true ->
        assoc label m = Some (String.append cur "N/A")).
Proof.
  apply (financial_metrics_absent_or_zero
           {[ "symbol" := PyStr "TCS.NS";
              "marketCap" := PyInt 0;
              "beta" := PyFloat (Fin 0) ]}); vm_compute; reflexivity.
Defined.

(** The entries in front of a percent sign keep the sign: an absent or
    zero margin or return reads "N/A%". *)
Lemma financial_metrics_percent_absent (info : gmap string pyval)
    (m : list (string * string)) (label field : string) :
  get_financial_metrics info = Ok m ->
  In (label, field) percent_entries ->
  absent_or_zero info field = true ->
  assoc label m = Some "N/A%".
Proof.
  unfold get_financial_metrics. intros Hm Hin Hz.
  destruct (py_contains _ _) as [b|]; [|discriminate].
  cbn [mbind result_bind] in Hm.
  destruct (if py_truthy _ then _ else _) as [sd|]; [|discriminate].
  cbn [mbind result_bind] in Hm.
  destruct (percent_entry info "profitMargins") as [s1|] eqn:E1;
    [|discriminate].
  cbn [mbind result_bind] in Hm.
  destruct (percent_entry info "operatingMargins") as [s2|] eqn:E2;
    [|discriminate].
  cbn [mbind result_bind] in Hm.
  destruct (percent_entry info "returnOnEquity") as [s3|] eqn:E3;
    [|discriminate].
  cbn [mbind result_bind] in Hm.
  destruct (percent_entry info "returnOnAssets") as [s4|] eqn:E4;
    [|discriminate].
  cbn [mbind result_bind] in Hm.
  inversion Hm; subst m; clear Hm.
  simpl in Hin.
  repeat destruct Hin as [Hin|Hin]; try contradiction;
    inversion Hin; subst; cbn [assoc String.eqb Ascii.eqb Bool.eqb];
    match goal with
    | E : percent_entry info ?f = Ok ?s |- Some ?s = _ =>
        rewrite (percent_entry_absent_or_zero info f Hz
                   (percent_entry_not_none info f s E)) in E;
        congruence
    end.
Qed.

(** ** Cells *)

Lemma Qle_bool_false (a b : Q) : Qle_bool a b = false <-> (b < a)%Q.
Proof.
  split.
  - intros H. apply Qnot_le_lt. intros L. apply Qle_bool_iff in L. congruence.
  - intros H. destruct (Qle_bool a b) eqn:E; [|reflexivity].
    apply Qle_bool_iff in E. exfalso. exact (Qlt_not_le _ _ H E).
Qed.

Lemma Qzero_true (q : Q) : Qzero q = true <-> (q == 0)%Q.
Proof. unfold Qzero. apply Qeq_bool_iff. Qed.

Lemma Qzero_false (q : Q) : Qzero q = false <-> ~ (q == 0)%Q.
Proof.
  unfold Qzero. split.
  - intros H E. apply Qeq_bool_iff in E. congruence.
  - intros H. destruct (Qeq_bool q 0) eqn:E; [|reflexivity].
    apply Qeq_bool_iff in E. contradiction.
Qed.

Lemma Qneg_true (q : Q) : Qneg q = true <-> (q < 0)%Q.
Proof.
  unfold Qneg. rewrite negb_true_iff. apply Qle_bool_false.
Qed.

Lemma Qneg_false (q : Q) : Qneg q = false <-> (0 <= q)%Q.
Proof.
  unfold Qneg. rewrite negb_false_iff. apply Qle_bool_iff.
Qed.

Lemma fin_eq (p q : Q) : (p == q)%Q -> fin p = fin q.
Proof. intros H. unfold fin. f_equal. apply Qred_complete, H. Qed.


Lemma fgtb_zero_inv (g : float) :
  fgtb g (Fin 0) = true ->
  g = PInf \/ exists q, g = Fin q /\ (0 < q)%Q.
Proof.
  destruct g as [| | |q]; simpl; try discriminate; [left; reflexivity|].
  intros H. right. exists q. split; [reflexivity|].
  apply negb_true_iff, Qle_bool_false in H. exact H.
Qed.

(** *** The RSI formula on one position *)

Lemma rsi_value_nan_l (l : float) : rsi_value NaN l = NaN.
Proof. destruct l; reflexivity. Qed.

Lemma rsi_value_nan_r (g : float) : rsi_value g NaN = NaN.
Proof. destruct g; reflexivity. Qed.

Lemma rsi_value_zero_loss_pos (g : float) :
  fgtb g (Fin 0) = true -> rsi_value g (Fin 0) = Fin 100.
Proof.
  intros H. destruct (fgtb_zero_inv g H) as [-> | (q & -> & Hq)];
    [reflexivity|].
  unfold rsi_value. 
  assert (E : fdiv (Fin q) (Fin 0) = PInf).
  { unfold fdiv. change (Qzero 0) with true. cbv iota.
    assert (Qzero q = false) as ->.
    { apply Qzero_false. intros E. rewrite E in Hq.
      exact (Qlt_irrefl _ Hq). }
    assert (Qneg q = false) as ->
        by (apply Qneg_false, Qlt_le_weak, Hq).
    reflexivity. }
  rewrite E. reflexivity.
Qed.

Lemma rsi_value_zero_loss_zero (q : Q) :
  (q == 0)%Q -> rsi_value (Fin q) (Fin 0) = NaN.
Proof.
  intros Hq. unfold rsi_value.
  assert (E : fdiv (Fin q) (Fin 0) = NaN).
  { unfold fdiv. change (Qzero 0) with true. cbv iota.
    assert (Qzero q = true) as -> by (apply Qzero_true, Hq).
    reflexivity. }
  rewrite E. reflexivity.
Qed.

(** With no loss the value is undefined or exactly 100. *)
Lemma rsi_value_zero_loss (g : float) :
  nonneg_avg g ->
  rsi_value g (Fin 0) = NaN \/ rsi_value g (Fin 0) = Fin 100.
Proof.
  intros [-> | (q & -> & Hq)]; [left; reflexivity|].
  destruct (Qzero q) eqn:E.
  - left. apply rsi_value_zero_loss_zero, Qzero_true, E.
  - right. apply rsi_value_zero_loss_pos. simpl.
    apply negb_true_iff, Qle_bool_false.
    apply Qzero_false in E.
    apply Qle_lteq in Hq. destruct Hq as [Hq | Hq]; [exact Hq|].
    exfalso. apply E. symmetry. exact Hq.
Qed.

Lemma rsi_value_in_range (g l : float) :
  nonneg_avg g -> nonneg_avg l -> in_range (rsi_value g l).
Proof.
  intros [-> | (a & -> & Ha)] [-> | (b & -> & Hb)].
  - left. reflexivity.
  - left. apply rsi_value_nan_l.
  - left. apply rsi_value_nan_r.
  - destruct (Qzero b) eqn:Zb.
    + unfold rsi_value, fdiv at 2. rewrite Zb.
      destruct (Qzero a); [left; reflexivity|].
      apply Qneg_false in Ha. rewrite Ha. right. exists 100%Q.
      split; [reflexivity|]. split; discriminate.
    + apply Qzero_false in Zb as Hb0.
      assert (Hbpos : (0 < b)%Q).
      { apply Qle_lteq in Hb. destruct Hb as [Hb|Hb]; [exact Hb|].
        exfalso. apply Hb0. symmetry. exact Hb. }
      set (r := Qred (a / b)).
      assert (Hr : (0 <= r)%Q).
      { unfold r. rewrite Qred_correct. apply Qle_shift_div_l; [exact Hbpos|].
        lra. }
      set (u := Qred (1 + r)).
      assert (Hu : (1 <= u)%Q) by (unfold u; rewrite Qred_correct; lra).
      assert (Zu : Qzero u = false).
      { apply Qzero_false. intros E. rewrite E in Hu. lra. }
      set (t := Qred (100 / u)).
      assert (Ht : (0 <= t <= 100)%Q).
      { unfold t. rewrite Qred_correct. split.
        - apply Qle_shift_div_l; lra.
        - apply Qle_shift_div_r; lra. }
      assert (E : rsi_value (Fin a) (Fin b) = fin (100 + Qred (- t))).
      { unfold rsi_value, fdiv at 2. rewrite Zb.
        unfold fin at 1. fold r. unfold fadd at 1, fin at 1. fold u.
        unfold fdiv. rewrite Zu. unfold fin at 1. fold t. reflexivity. }
      rewrite E. right. eexists. split; [reflexivity|].
      rewrite !Qred_correct. lra.
Qed.
(** ** Series *)

Lemma map_fmap {A B : Type} (f : A -> B) (l : list A) : map f l = f <$> l.
Proof. reflexivity. Qed.

Lemma where_gt_map (s : Series) (c other : float) :
  series_where s (series_gt s c) other
  = map (fun x => if fgtb x c then x else other) s.
Proof.
  unfold series_where, series_gt.
  induction s as [|x s IH]; [reflexivity|]. simpl. f_equal. exact IH.
Qed.

Lemma where_lt_map (s : Series) (c other : float) :
  series_where s (series_lt s c) other
  = map (fun x => if fltb x c then x else other) s.
Proof.
  unfold series_where, series_lt.
  induction s as [|x s IH]; [reflexivity|]. simpl. f_equal. exact IH.
Qed.

Lemma length_diff (s : Series) : length (diff s) = length s.
Proof.
  destruct s as [|x rest]; [reflexivity|]. simpl. f_equal.
  rewrite length_zip_with. simpl. lia.
Qed.

Lemma diff_lookup_0 (s : Series) (x : float) :
  s !! 0%nat = Some x -> diff s !! 0%nat = Some NaN.
Proof. destruct s; [discriminate | reflexivity]. Qed.

Lemma diff_lookup_S (s : Series) (i : nat) (x y : float) :
  s !! i = Some x -> s !! S i = Some y ->
  diff s !! S i = Some (fsub y x).
Proof.
  destruct s as [|x0 rest]; [discriminate|].
  intros Hx Hy. simpl in Hy. unfold diff.
  change ((NaN :: zip_with fsub rest (x0 :: rest)) !! S i)
    with (zip_with fsub rest (x0 :: rest) !! i).
  apply lookup_zip_with_Some. exists y, x. auto.
Qed.

Lemma diff_lookup_inv (s : Series) (i : nat) (d : float) :
  diff s !! i = Some d ->
  (i = 0%nat /\ d = NaN) \/
  exists j x y, i = S j /\ s !! j = Some x /\ s !! S j = Some y /\
                d = fsub y x.
Proof.
  destruct s as [|x0 rest]; [discriminate|].
  destruct i as [|j]; simpl.
  - intros H. left. split; [reflexivity | congruence].
  - intros H. right. apply lookup_zip_with_Some in H.
    destruct H as (y & x & -> & Hy & Hx). exists j, x, y. auto.
Qed.

(** *** Windows *)

Lemma length_window (w i : nat) (vals : Series) :
  (i < length vals)%nat ->
  length (window w i vals) = Nat.min w (i + 1).
Proof.
  intros Hi. unfold window. rewrite length_take, length_drop. lia.
Qed.

Lemma window_lookup (w i k : nat) (vals : Series) :
  (k < Nat.min w (i + 1))%nat ->
  window w i vals !! k = vals !! (i + 1 - w + k)%nat.
Proof.
  intros Hk. unfold window.
  rewrite lookup_take_lt by lia. apply lookup_drop.
Qed.

Lemma window_last (w i : nat) (vals : Series) (x : float) :
  (0 < w)%nat -> vals !! i = Some x -> x ∈ window w i vals.
Proof.
  intros Hw Hx. apply list_elem_of_lookup.
  exists (Nat.min w (i + 1) - 1)%nat.
  rewrite window_lookup by lia. rewrite <- Hx. f_equal. lia.
Qed.

Lemma elem_of_window (w i : nat) (vals : Series) (x : float) :
  x ∈ window w i vals -> x ∈ vals.
Proof.
  unfold window. intros H.
  apply (subseteq_drop (i + 1 - w) vals).
  apply (subseteq_take _ _ _ H).
Qed.

Lemma length_observations (win : list float) :
  (length (observations win) <= length win)%nat.
Proof.
  induction win as [|x win IH]; simpl; [lia|].
  destruct x; simpl; lia.
Qed.

Lemma observations_all_fin (win : list float) :
  forallb is_fin win = true ->
  length (observations win) = length win.
Proof.
  induction win as [|x win IH]; simpl; [reflexivity|].
  destruct x; simpl; try discriminate. intros H. f_equal. exact (IH H).
Qed.

Lemma elem_of_observations (win : list float) (q : Q) :
  q ∈ observations win <-> Fin q ∈ win.
Proof.
  induction win as [|x win IH]; simpl.
  - split; intros H; inversion H.
  - rewrite (elem_of_cons win). destruct x as [| | |p].
    1-3: rewrite IH; split; [auto | intros [H|H]; [discriminate | exact H]].
    rewrite elem_of_cons, IH. split.
    + intros [-> | H]; auto.
    + intros [H | H]; [left; congruence | auto].
Qed.

Lemma elem_of_prep_values (s : Series) (q : Q) :
  Fin q ∈ prep_values s <-> Fin q ∈ s.
Proof.
  unfold prep_values. rewrite map_fmap, list_elem_of_fmap. split.
  - intros (x & E & Hx). destruct x; simpl in E; try discriminate.
    inversion E; subst. exact Hx.
  - intros H. exists (Fin q). auto.
Qed.

Lemma prep_values_all_fin (s : Series) :
  forallb is_fin s = true -> prep_values s = s.
Proof.
  unfold prep_values. induction s as [|x s IH]; simpl; [reflexivity|].
  destruct x; simpl; try discriminate. intros H. f_equal. exact (IH H).
Qed.

Lemma length_prep_values (s : Series) : length (prep_values s) = length s.
Proof. unfold prep_values. apply length_map. Qed.

(** *** Rolling aggregations *)

Lemma length_rolling (w m : nat) (agg : list Q -> float) (s : Series) :
  length (rolling w m agg s) = length s.
Proof. unfold rolling. rewrite length_map. apply length_seq. Qed.

Lemma rolling_lookup (w m : nat) (agg : list Q -> float) (s : Series)
    (i : nat) :
  (i < length s)%nat ->
  rolling w m agg s !! i
  = Some (let obs := observations (window w i (prep_values s)) in
          if (m <=? length obs)%nat then agg obs else NaN).
Proof.
  intros Hi. unfold rolling. cbv zeta.
  rewrite map_fmap, list_lookup_fmap, lookup_seq_lt by exact Hi.
  reflexivity.
Qed.

Lemma rolling_lookup_lt (w m : nat) (agg : list Q -> float) (s : Series)
    (i : nat) (y : float) :
  rolling w m agg s !! i = Some y -> (i < length s)%nat.
Proof.
  intros H. apply lookup_lt_Some in H. rewrite length_rolling in H. exact H.
Qed.

(** A position whose window is not yet full holds NaN. *)
Lemma rolling_short (w : nat) (agg : list Q -> float) (s : Series)
    (i : nat) :
  (i < length s)%nat -> (i + 1 < w)%nat ->
  rolling w w agg s !! i = Some NaN.
Proof.
  intros Hi Hw. rewrite rolling_lookup by exact Hi. cbv zeta.
  pose proof (length_observations (window w i (prep_values s))) as L.
  rewrite length_window in L by (rewrite length_prep_values; exact Hi).
  assert ((w <=? length (observations (window w i (prep_values s))))%nat
          = false) as -> by (apply Nat.leb_gt; lia).
  reflexivity.
Qed.

(** A series shorter than the window is undefined throughout. *)
Lemma rolling_all_nan (w : nat) (agg : list Q -> float) (s : Series) :
  (length s < w)%nat ->
  rolling w w agg s = replicate (length s) NaN.
Proof.
  intros Hlen. apply list_eq. intros i.
  destruct (decide (i < length s)%nat) as [Hi|Hi].
  - rewrite rolling_short by lia.
    symmetry. apply lookup_replicate_2. exact Hi.
  - rewrite !lookup_ge_None_2; [reflexivity| |].
    + rewrite length_replicate. lia.
    + rewrite length_rolling. lia.
Qed.

(** *** Sums and means *)

Lemma Qsum_nonneg (l : list Q) :
  (forall q, q ∈ l -> (0 <= q)%Q) -> (0 <= Qsum l)%Q.
Proof.
  induction l as [|x l IH]; intros H; simpl; [apply Qle_refl|].
  assert (0 <= x)%Q by (apply H; left).
  assert (0 <= Qsum l)%Q by (apply IH; intros q Hq; apply H; right; exact Hq).
  lra.
Qed.

Lemma Qsum_ge_elem (l : list Q) (x : Q) :
  (forall q, q ∈ l -> (0 <= q)%Q) -> x ∈ l -> (x <= Qsum l)%Q.
Proof.
  induction l as [|y l IH]; intros H Hx; [inversion Hx|].
  assert (0 <= y)%Q by (apply H; left).
  assert (Hl : forall q, q ∈ l -> (0 <= q)%Q)
    by (intros q Hq; apply H; right; exact Hq).
  pose proof (Qsum_nonneg l Hl).
  simpl. apply elem_of_cons in Hx. destruct Hx as [-> | Hx].
  - lra.
  - specialize (IH Hl Hx). lra.
Qed.

Lemma Qsum_zero (l : list Q) :
  (forall q, q ∈ l -> (q == 0)%Q) -> (Qsum l == 0)%Q.
Proof.
  induction l as [|x l IH]; intros H; simpl; [reflexivity|].
  rewrite (H x) by left.
  rewrite IH by (intros q Hq; apply H; right; exact Hq). reflexivity.
Qed.

Lemma Qlen_pos (l : list Q) : l <> [] -> (0 < Qlen l)%Q.
Proof.
  intros H. unfold Qlen, Qlt. simpl. destruct l; [contradiction|].
  simpl length. lia.
Qed.

Lemma mean_eq (l : list Q) :
  l <> [] -> mean l = fin (Qsum l / Qlen l).
Proof.
  intros H. unfold mean, fdiv.
  assert (Qzero (Qlen l) = false) as ->; [|reflexivity].
  apply Qzero_false. intros E. pose proof (Qlen_pos l H) as P.
  rewrite E in P. exact (Qlt_irrefl _ P).
Qed.
(** *** Monotone series *)

Lemma forallb_Forall {A : Type} (f : A -> bool) (l : list A) :
  forallb f l = true <-> Forall (fun x => f x = true) l.
Proof.
  induction l as [|x l IH]; simpl.
  - split; [constructor | reflexivity].
  - rewrite andb_true_iff, IH. split.
    + intros [H1 H2]. constructor; assumption.
    + intros H. inversion H; subst. split; assumption.
Qed.

Lemma nondecreasing_lookup (s : Series) (j : nat) (x y : float) :
  nondecreasing s = true ->
  s !! j = Some x -> s !! S j = Some y -> fleb x y = true.
Proof.
  revert j. induction s as [|a s IH]; intros j Hs Hx Hy; [discriminate|].
  destruct s as [|b s]; [discriminate|].
  simpl in Hs. apply andb_prop in Hs. destruct Hs as [Hab Hs].
  destruct j as [|j].
  - simpl in Hx, Hy. congruence.
  - exact (IH j Hs Hx Hy).
Qed.

Lemma increasing_lookup (s : Series) (j : nat) (x y : float) :
  increasing s = true ->
  s !! j = Some x -> s !! S j = Some y -> fltb x y = true.
Proof.
  revert j. induction s as [|a s IH]; intros j Hs Hx Hy; [discriminate|].
  destruct s as [|b s]; [discriminate|].
  simpl in Hs. apply andb_prop in Hs. destruct Hs as [Hab Hs].
  destruct j as [|j].
  - simpl in Hx, Hy. congruence.
  - exact (IH j Hs Hx Hy).
Qed.

Lemma increasing_nondecreasing (s : Series) :
  increasing s = true -> nondecreasing s = true.
Proof.
  induction s as [|a s IH]; [reflexivity|].
  destruct s as [|b s]; [reflexivity|].
  simpl. intros H. apply andb_prop in H. destruct H as [Hab Hs].
  apply andb_true_intro. split.
  - unfold fleb. rewrite Hab. reflexivity.
  - exact (IH Hs).
Qed.

(** A step up is not a loss. *)
Lemma fsub_not_negative (x y : float) :
  fleb x y = true -> fltb (fsub y x) (Fin 0) = false.
Proof.
  unfold fleb, fsub.
  destruct x as [| | |a], y as [| | |b]; simpl; try discriminate;
    try reflexivity.
  intros H. apply negb_false_iff, Qle_bool_iff.
  rewrite !Qred_correct.
  apply orb_true_iff in H. destruct H as [H | H].
  - apply negb_true_iff, Qle_bool_false in H. lra.
  - apply Qeq_bool_iff in H. lra.
Qed.

(** A strict step up between finite cells is a finite, positive gain. *)
Lemma fsub_positive (a b : Q) :
  fltb (Fin a) (Fin b) = true ->
  exists q, fsub (Fin b) (Fin a) = Fin q /\ (0 < q)%Q.
Proof.
  simpl. intros H. apply negb_true_iff, Qle_bool_false in H.
  eexists. split; [reflexivity|]. rewrite !Qred_correct. lra.
Qed.

(** *** The inputs of the two averages *)

Lemma gain_input_nonneg (x : float) :
  nonneg_cell (if fgtb x (Fin 0) then x else Fin 0).
Proof.
  destruct (fgtb x (Fin 0)) eqn:E.
  - destruct (fgtb_zero_inv x E) as [-> | (q & -> & Hq)].
    + left. reflexivity.
    + right. exists q. split; [reflexivity | apply Qlt_le_weak, Hq].
  - right. exists 0%Q. split; [reflexivity | apply Qle_refl].
Qed.

Lemma loss_input_nonneg (x : float) :
  nonneg_cell (fneg (if fltb x (Fin 0) then x else Fin 0)).
Proof.
  destruct (fltb x (Fin 0)) eqn:E.
  - destruct x as [| | |q]; simpl in E; try discriminate.
    + left. reflexivity.
    + right. eexists. split; [reflexivity|].
      apply negb_true_iff, Qle_bool_false in E.
      rewrite Qred_correct. lra.
  - right. eexists. split; [reflexivity|]. discriminate.
Qed.

Lemma rsi_gain_eq (prices : Series) (period : nat) :
  rsi_gain prices period
  = rolling_mean period
      (map (fun x => if fgtb x (Fin 0) then x else Fin 0) (diff prices)).
Proof. unfold rsi_gain, rsi_delta. rewrite where_gt_map. reflexivity. Qed.

Lemma rsi_loss_eq (prices : Series) (period : nat) :
  rsi_loss prices period
  = rolling_mean period
      (map (fun x => fneg (if fltb x (Fin 0) then x else Fin 0))
         (diff prices)).
Proof.
  unfold rsi_loss, rsi_delta, series_neg. rewrite where_lt_map.
  rewrite map_map. reflexivity.
Qed.

(** *** Averages of non-negative cells *)

Lemma observations_nonneg (w i : nat) (s : Series) (q : Q) :
  Forall nonneg_cell s ->
  q ∈ observations (window w i (prep_values s)) -> (0 <= q)%Q.
Proof.
  intros Hs Hq.
  apply elem_of_observations, elem_of_window in Hq.
    apply (proj1 (elem_of_prep_values _ _)) in Hq.
  rewrite Forall_forall in Hs.
  destruct (Hs _ Hq) as [E | (p & E & Hp)]; [discriminate|].
  inversion E; subst. exact Hp.
Qed.

Lemma rolling_mean_nonneg (w i : nat) (s : Series) (y : float) :
  (0 < w)%nat ->
  Forall nonneg_cell s ->
  rolling_mean w s !! i = Some y -> nonneg_avg y.
Proof.
  intros Hw Hs Hy. unfold rolling_mean in Hy.
  pose proof (rolling_lookup_lt _ _ _ _ _ _ Hy) as Hi.
  rewrite rolling_lookup in Hy by exact Hi. cbv zeta in Hy.
  set (obs := observations (window w i (prep_values s))) in *.
  destruct (w <=? length obs)%nat eqn:E.
  - apply Nat.leb_le in E.
    assert (Hne : obs <> [])
      by (destruct obs; simpl in E; [lia | discriminate]).
    rewrite mean_eq in Hy by exact Hne. inversion Hy; subst y.
    right. eexists. split; [reflexivity|]. rewrite Qred_correct.
    apply Qle_shift_div_l; [apply Qlen_pos, Hne|].
    rewrite Qmult_0_l. apply Qsum_nonneg.
    intros q Hq. eapply observations_nonneg; eassumption.
  - left. congruence.
Qed.

(** The average of cells that are all zero is undefined or zero. *)
Lemma rolling_mean_zero (w i : nat) (s : Series) (y : float) :
  (0 < w)%nat ->
  Forall (eq (Fin 0)) s ->
  rolling_mean w s !! i = Some y -> y = NaN \/ y = Fin 0.
Proof.
  intros Hw Hs Hy. unfold rolling_mean in Hy.
  pose proof (rolling_lookup_lt _ _ _ _ _ _ Hy) as Hi.
  rewrite rolling_lookup in Hy by exact Hi. cbv zeta in Hy.
  set (obs := observations (window w i (prep_values s))) in *.
  destruct (w <=? length obs)%nat eqn:E.
  - apply Nat.leb_le in E.
    assert (Hne : obs <> [])
      by (destruct obs; simpl in E; [lia | discriminate]).
    rewrite mean_eq in Hy by exact Hne. inversion Hy; subst y.
    right. change (Fin 0) with (fin 0). apply fin_eq.
    rewrite Qsum_zero; [unfold Qdiv; apply Qmult_0_l|].
    intros q Hq.
    apply elem_of_observations, elem_of_window in Hq.
    apply (proj1 (elem_of_prep_values _ _)) in Hq.
    rewrite Forall_forall in Hs. specialize (Hs _ Hq).
    inversion Hs; subst. reflexivity.
  - left. congruence.
Qed.

(** On finite cells a full window is fully observed. *)
Lemma rolling_mean_full (w i : nat) (s : Series) :
  (0 < w)%nat -> (w <= i + 1)%nat -> (i < length s)%nat ->
  forallb is_fin s = true ->
  rolling_mean w s !! i
  = Some (fin (Qsum (observations (window w i s))
               / Qlen (observations (window w i s)))).
Proof.
  intros Hw Hwi Hi Hfin. unfold rolling_mean.
  rewrite rolling_lookup by exact Hi. cbv zeta.
  rewrite prep_values_all_fin by exact Hfin.
  assert (Hwin : forallb is_fin (window w i s) = true).
  { apply forallb_Forall, Forall_forall. intros x Hx.
    apply elem_of_window in Hx.
    apply forallb_Forall in Hfin. rewrite Forall_forall in Hfin. auto. }
  assert (Hlen : length (observations (window w i s)) = w).
  { rewrite observations_all_fin by exact Hwin.
    rewrite length_window by exact Hi. lia. }
  rewrite Hlen, Nat.leb_refl.
  rewrite mean_eq; [reflexivity|].
  intros E. rewrite E in Hlen. simpl in Hlen. lia.
Qed.

(** *** The RSI position by position *)

Lemma length_rsi_gain (prices : Series) (period : nat) :
  length (rsi_gain prices period) = length prices.
Proof.
  rewrite rsi_gain_eq. unfold rolling_mean.
  rewrite length_rolling, length_map. apply length_diff.
Qed.

Lemma length_rsi_loss (prices : Series) (period : nat) :
  length (rsi_loss prices period) = length prices.
Proof.
  rewrite rsi_loss_eq. unfold rolling_mean.
  rewrite length_rolling, length_map. apply length_diff.
Qed.

Lemma rsi_lookup (prices : Series) (period i : nat) :
  calculate_rsi prices period !! i
  = (g ← rsi_gain prices period !! i;
     l ← rsi_loss prices period !! i;
     Some (rsi_value g l)).
Proof.
  unfold calculate_rsi, scalar_sub, scalar_div, scalar_add, series_div.
  cbv zeta. rewrite !map_fmap, !list_lookup_fmap, lookup_zip_with.
  destruct (rsi_gain prices period !! i) as [g|]; [|reflexivity].
  destruct (rsi_loss prices period !! i) as [l|]; reflexivity.
Qed.

Lemma rsi_lookup_Some (prices : Series) (period i : nat) (y : float) :
  calculate_rsi prices period !! i = Some y <->
  exists g l, rsi_gain prices period !! i = Some g /\
              rsi_loss prices period !! i = Some l /\
              y = rsi_value g l.
Proof.
  rewrite rsi_lookup. split.
  - destruct (rsi_gain prices period !! i) as [g|]; [|discriminate].
    destruct (rsi_loss prices period !! i) as [l|]; [|discriminate].
    simpl. intros H. inversion H. exists g, l. auto.
  - intros (g & l & -> & -> & ->). reflexivity.
Qed.

Lemma length_calculate_rsi (prices : Series) (period : nat) :
  length (calculate_rsi prices period) = length prices.
Proof.
  unfold calculate_rsi, scalar_sub, scalar_div, scalar_add, series_div.
  rewrite !length_map, length_zip_with, length_rsi_gain, length_rsi_loss.
  lia.
Qed.

Lemma rsi_gain_nonneg (prices : Series) (period i : nat) (g : float) :
  (0 < period)%nat ->
  rsi_gain prices period !! i = Some g -> nonneg_avg g.
Proof.
  rewrite rsi_gain_eq. intros Hp. apply rolling_mean_nonneg; [exact Hp|].
  rewrite map_fmap. apply Forall_fmap, Forall_forall.
  intros x _. apply gain_input_nonneg.
Qed.

Lemma rsi_loss_nonneg (prices : Series) (period i : nat) (l : float) :
  (0 < period)%nat ->
  rsi_loss prices period !! i = Some l -> nonneg_avg l.
Proof.
  rewrite rsi_loss_eq. intros Hp. apply rolling_mean_nonneg; [exact Hp|].
  rewrite map_fmap. apply Forall_fmap, Forall_forall.
  intros x _. apply loss_input_nonneg.
Qed.
(** *** Monotone prices *)

(** On a series that never steps down, the loss input is zero
    everywhere. *)
Lemma loss_input_zero (prices : Series) :
  nondecreasing prices = true ->
  Forall (eq (Fin 0))
    (map (fun x => fneg (if fltb x (Fin 0) then x else Fin 0))
       (diff prices)).
Proof.
  intros Hmono. rewrite map_fmap. apply Forall_fmap, Forall_lookup.
  intros i d Hd. simpl.
  assert (E : fltb d (Fin 0) = false).
  { destruct (diff_lookup_inv _ _ _ Hd)
      as [[_ ->] | (j & x & y & _ & Hx & Hy & ->)]; [reflexivity|].
    apply fsub_not_negative. eapply nondecreasing_lookup; eassumption. }
  rewrite E. reflexivity.
Qed.

Lemma forallb_lookup {A : Type} (f : A -> bool) (l : list A) (i : nat)
    (x : A) :
  forallb f l = true -> l !! i = Some x -> f x = true.
Proof.
  intros H Hx. apply forallb_Forall in H.
  exact (Forall_lookup_1 _ _ _ _ H Hx).
Qed.

(** On a finite series that steps up strictly, the gain input is finite,
    and positive from the second position on. *)
Lemma gain_input_increasing (prices : Series) :
  increasing prices = true ->
  forallb is_fin prices = true ->
  let gain := map (fun x => if fgtb x (Fin 0) then x else Fin 0)
                (diff prices) in
  forallb is_fin gain = true /\
  forall i, (0 < i < length prices)%nat ->
            exists q, gain !! i = Some (Fin q) /\ (0 < q)%Q.
Proof.
  intros Hinc Hfin gain.
  assert (Hstep : forall j d, diff prices !! S j = Some d ->
                              exists q, d = Fin q /\ (0 < q)%Q).
  { intros j d Hd.
    destruct (diff_lookup_inv _ _ _ Hd)
      as [[E _] | (k & x & y & E & Hx & Hy & ->)]; [discriminate|].
    inversion E; subst k.
    pose proof (increasing_lookup _ _ _ _ Hinc Hx Hy) as Hlt.
    pose proof (forallb_lookup _ _ _ _ Hfin Hx) as Fx.
    pose proof (forallb_lookup _ _ _ _ Hfin Hy) as Fy.
    destruct x as [| | |a]; try discriminate.
    destruct y as [| | |b]; try discriminate.
    apply fsub_positive, Hlt. }
  split.
  - apply forallb_Forall. unfold gain. rewrite map_fmap.
    apply Forall_fmap, Forall_lookup. intros i d Hd. simpl.
    destruct i as [|j].
    + destruct (diff_lookup_inv _ _ _ Hd)
        as [[_ ->] | (k & _ & _ & E & _)]; [reflexivity | discriminate].
    + destruct (Hstep j d Hd) as (q & -> & _).
      destruct (Qle_bool q 0); reflexivity.
  - intros i [Hi0 Hi]. destruct i as [|j]; [lia|].
    destruct (lookup_lt_is_Some_2 (diff prices) (S j)) as [d Hd];
      [rewrite length_diff; exact Hi|].
    destruct (Hstep j d Hd) as (q & -> & Hq).
    exists q. split; [|exact Hq].
    unfold gain. rewrite map_fmap, list_lookup_fmap, Hd. simpl.
    assert (Qle_bool q 0 = false) as -> by (apply Qle_bool_false, Hq).
    reflexivity.
Qed.

Lemma all_zero_fin (s : Series) :
  Forall (eq (Fin 0)) s -> forallb is_fin s = true.
Proof.
  intros H. apply forallb_Forall. eapply Forall_impl; [exact H|].
  intros x <-. reflexivity.
Qed.

(** C1, as stated, fails on a flat series: with no loss and no gain the
    value at a fully populated position is undefined, not 100. *)
Lemma rsi_flat_undefined :
  rsi_loss (replicate 14 (Fin 10)) 14 !! 13%nat = Some (Fin 0) /\
  rsi_gain (replicate 14 (Fin 10)) 14 !! 13%nat = Some (Fin 0) /\
  calculate_rsi (replicate 14 (Fin 10)) 14 !! 13%nat = Some NaN /\
  calculate_rsi (replicate 14 (Fin 10)) 14 !! 13%nat <> Some (Fin 100).
Proof.
  repeat split; try (vm_compute; reflexivity).
  vm_compute. discriminate.
Qed.

(** C1 (amended): wherever the 14-period average loss is zero (which makes
    the position one whose lookback window is fully populated),
    [calculate_rsi] yields 100 when the average gain is positive, and the
    undefined value otherwise, in particular when the average gain is
    zero as well. *)
Theorem rsi_zero_loss (prices : Series) (i : nat) (g : float) :
  rsi_loss prices 14 !! i = Some (Fin 0) ->
  rsi_gain prices 14 !! i = Some g ->
  (13 <= i)%nat /\
  calculate_rsi prices 14 !! i
  = Some (if fgtb g (Fin 0) then Fin 100 else NaN).
Proof.
  intros Hl Hg. split.
  - destruct (decide (13 <= i)%nat) as [H|H]; [exact H|]. exfalso.
    rewrite rsi_loss_eq in Hl. unfold rolling_mean in Hl.
    pose proof (rolling_lookup_lt _ _ _ _ _ _ Hl) as Hi.
    rewrite rolling_short in Hl by lia. discriminate.
  - apply rsi_lookup_Some. exists g, (Fin 0).
    split; [exact Hg|]. split; [exact Hl|].
    destruct (fgtb g (Fin 0)) eqn:E.
    + symmetry. apply rsi_value_zero_loss_pos, E.
    + assert (Hp : (0 < 14)%nat) by lia.
      destruct (rsi_gain_nonneg _ _ _ _ Hp Hg) as [-> | (q & -> & Hq)];
        [reflexivity|].
      symmetry. apply rsi_value_zero_loss_zero.
      simpl in E. apply negb_false_iff, Qle_bool_iff in E.
      apply Qle_antisym; assumption.
Qed.

Lemma rsi_zero_loss_witness :
  (13 <= 13)%nat /\
  calculate_rsi (map (fun n => Fin (inject_Z (Z.of_nat n))) (seq 1 14)) 14
    !! 13%nat
  = Some (if fgtb (Fin (13 # 14)) (Fin 0) then Fin 100 else NaN).
Proof.
  apply (rsi_zero_loss
           (map (fun n => Fin (inject_Z (Z.of_nat n))) (seq 1 14)) 13
           (Fin (13 # 14))); vm_compute; reflexivity.
Defined.

(** C7: every value of the RSI is undefined or within [0, 100]; on a
    series that never steps down every defined value is exactly 100; and
    on a finite, strictly increasing series the value is defined, and 100,
    at every position from the fourteenth on. *)
Theorem rsi_range_monotone (prices : Series) (i : nat) (y : float) :
  calculate_rsi prices 14 !! i = Some y ->
  in_range y /\
  (nondecreasing prices = true -> y = NaN \/ y = Fin 100) /\
  (increasing prices = true -> forallb is_fin prices = true ->
   (13 <= i)%nat -> y = Fin 100).
Proof.
  intros Hy. apply rsi_lookup_Some in Hy.
  destruct Hy as (g & l & Hg & Hl & ->).
  assert (Hp : (0 < 14)%nat) by lia.
  pose proof (rsi_gain_nonneg _ _ _ _ Hp Hg) as Ng.
  pose proof (rsi_loss_nonneg _ _ _ _ Hp Hl) as Nl.
  split; [apply rsi_value_in_range; assumption|].
  split.
  - intros Hmono.
    rewrite rsi_loss_eq in Hl.
    destruct (rolling_mean_zero _ _ _ _ Hp (loss_input_zero _ Hmono) Hl)
      as [-> | ->].
    + left. apply rsi_value_nan_r.
    + apply rsi_value_zero_loss, Ng.
  - intros Hinc Hfin Hi.
    assert (Hlen : (i < length prices)%nat).
    { apply lookup_lt_Some in Hg. rewrite length_rsi_gain in Hg. exact Hg. }
    pose proof (increasing_nondecreasing _ Hinc) as Hmono.
    (* the average loss is zero *)
    rewrite rsi_loss_eq in Hl.
    pose proof (loss_input_zero _ Hmono) as Hzero.
    destruct (rolling_mean_zero _ _ _ _ Hp Hzero Hl) as [-> | ->].
    { rewrite rolling_mean_full in Hl;
        [ discriminate | lia | lia
          | rewrite length_map, length_diff; exact Hlen
          | apply all_zero_fin, Hzero ]. }
    clear Hl Nl Hzero.
    (* the average gain is positive *)
    rewrite rsi_gain_eq in Hg.
    destruct (gain_input_increasing _ Hinc Hfin) as [Gfin Gpos].
    rewrite rolling_mean_full in Hg;
      [ | lia | lia | rewrite length_map, length_diff; exact Hlen
        | exact Gfin ].
    destruct (Gpos i) as (q & Hq & Hqpos); [lia|].
    set (G := map (fun x => if fgtb x (Fin 0) then x else Fin 0)
                (diff prices)) in *.
    set (obs := observations (window 14 i G)) in *.
    assert (Hin : q ∈ obs).
    { apply elem_of_observations. apply window_last; [lia | exact Hq]. }
    assert (Hall : forall p, p ∈ obs -> (0 <= p)%Q).
    { intros p Hp'. apply elem_of_observations, elem_of_window in Hp'.
      assert (HG : Forall nonneg_cell G).
      { unfold G. rewrite map_fmap. apply Forall_fmap, Forall_forall.
        intros x _. apply gain_input_nonneg. }
      rewrite Forall_forall in HG.
      destruct (HG _ Hp') as [E | (p' & E & Hp'')]; [discriminate|].
      inversion E; subst. exact Hp''. }
    pose proof (Qsum_ge_elem obs q Hall Hin) as Hsum.
    assert (Hne : obs <> []) by (intros E; rewrite E in Hin; inversion Hin).
    pose proof (Qlen_pos obs Hne) as Hlenpos.
    inversion Hg as [Eg].
    apply rsi_value_zero_loss_pos. unfold fin. simpl.
    apply negb_true_iff, Qle_bool_false. rewrite Qred_correct.
    apply Qlt_shift_div_l; [exact Hlenpos|]. lra.
Qed.

Lemma rsi_range_monotone_witness :
  in_range (Fin 100) /\
  (Fin 100 = NaN \/ Fin 100 = Fin 100) /\
  Fin 100 = Fin 100.
Proof.
  destruct (rsi_range_monotone
              (map (fun n => Fin (inject_Z (Z.of_nat n))) (seq 1 15)) 14
              (Fin 100)) as (H1 & H2 & H3).
  - vm_compute; reflexivity.
  - split; [exact H1|]. split.
    + apply H2. vm_compute; reflexivity.
    + apply H3; [vm_compute; reflexivity | vm_compute; reflexivity | lia].
Defined.
(** ** Data frames *)

Lemma assoc_set_column (key key' : string) (s : Series)
    (cols : list (string * Series)) :
  assoc key (set_column key' s cols)
  = if String.eqb key' key then Some s else assoc key cols.
Proof.
  induction cols as [|[k v] cols IH]; simpl.
  - reflexivity.
  - destruct (String.eqb k key') eqn:E; simpl.
    + apply String.eqb_eq in E. subst k.
      destruct (String.eqb key' key); reflexivity.
    + rewrite IH. destruct (String.eqb k key) eqn:E'; [|reflexivity].
      apply String.eqb_eq in E'. subst k.
      rewrite String.eqb_sym, E. reflexivity.
Qed.

Lemma column_with_column (key key' : string) (s : Series) (d : DataFrame) :
  column key (with_column key' s d)
  = if String.eqb key' key then Some s else column key d.
Proof. unfold column, with_column. simpl. apply assoc_set_column. Qed.

Lemma set_column_id (key : string) (s : Series)
    (cols : list (string * Series)) :
  assoc key cols = Some s -> set_column key s cols = cols.
Proof.
  induction cols as [|[k v] cols IH]; simpl; [discriminate|].
  destruct (String.eqb k key).
  - intros H. inversion H. reflexivity.
  - intros H. rewrite IH by exact H. reflexivity.
Qed.

Lemma with_column_id (key : string) (s : Series) (d : DataFrame) :
  column key d = Some s -> with_column key s d = d.
Proof.
  unfold column, with_column. intros H. rewrite set_column_id by exact H.
  destruct d; reflexivity.
Qed.

Lemma index_with_column (key : string) (s : Series) (d : DataFrame) :
  df_index (with_column key s d) = df_index d.
Proof. reflexivity. Qed.

(** Setting a column adds its name at the end, or leaves the names as
    they are. *)
Lemma names_set_column (key : string) (s : Series)
    (cols : list (string * Series)) :
  map fst (set_column key s cols)
  = if existsb (String.eqb key) (map fst cols) then map fst cols
    else map fst cols ++ [key].
Proof.
  induction cols as [|[k v] cols IH]; simpl; [reflexivity|].
  rewrite (String.eqb_sym key k).
  destruct (String.eqb k key) eqn:E; simpl; [reflexivity|].
  rewrite IH. destruct (existsb _ _); reflexivity.
Qed.

Lemma NoDup_set_column (key : string) (s : Series)
    (cols : list (string * Series)) :
  NoDup (map fst cols) -> NoDup (map fst (set_column key s cols)).
Proof.
  intros H. rewrite names_set_column.
  destruct (existsb (String.eqb key) (map fst cols)) eqn:E; [exact H|].
  apply NoDup_app. split; [exact H|]. split; [|apply NoDup_singleton].
  intros x Hx Hk. apply list_elem_of_singleton in Hk. subst x.
  assert (existsb (String.eqb key) (map fst cols) = true); [|congruence].
  apply existsb_exists. exists key. split.
  - apply list_elem_of_In, Hx.
  - apply String.eqb_refl.
Qed.

Lemma NoDup_with_column (key : string) (s : Series) (d : DataFrame) :
  NoDup (column_names d) -> NoDup (column_names (with_column key s d)).
Proof. apply NoDup_set_column. Qed.

(** ** The heap monad *)

Lemma bind_run {A B : Type} (m : M A) (f : A -> M B) (h : heap) :
  (m ≫= f) h
  = match m h with
    | Ok (a, h') => f a h'
    | Raise e => Raise e
    end.
Proof. reflexivity. Qed.

Lemma getitem_run (df : ref) (key : string) (d : DataFrame) (s : Series)
    (h : heap) :
  column key d = Some s ->
  getitem df key (<[df := d]> h) = Ok (s, <[df := d]> h).
Proof.
  intros Hc. unfold getitem. rewrite bind_run. unfold deref.
  rewrite lookup_insert_eq, Hc. reflexivity.
Qed.

Lemma setitem_run (df : ref) (key : string) (d : DataFrame) (s : Series)
    (h : heap) :
  setitem df key s (<[df := d]> h)
  = Ok (tt, <[df := with_column key s d]> h).
Proof.
  unfold setitem. rewrite bind_run. unfold deref.
  rewrite lookup_insert_eq. unfold store. rewrite insert_insert_eq.
  reflexivity.
Qed.

Lemma getitem_missing (df : ref) (key : string) (d : DataFrame) (h : heap) :
  h !! df = Some d -> column key d = None ->
  getitem df key h = Raise (KeyError key).
Proof.
  intros Hd Hc. unfold getitem. rewrite bind_run. unfold deref.
  rewrite Hd, Hc. reflexivity.
Qed.

Ltac columns :=
  repeat (rewrite column_with_column;
          cbn [String.eqb Ascii.eqb Bool.eqb]).

Section MetricsFacts.

Variable sqrtQ : Q -> Q.

(** The run of [calculate_metrics] on a table that has a Close column. *)
Lemma calculate_metrics_insert (df : ref) (d : DataFrame) (close : Series)
    (h : heap) :
  column "Close" d = Some close ->
  calculate_metrics sqrtQ df (<[df := d]> h)
  = Ok (df, <[df := with_metrics sqrtQ close d]> h).
Proof.
  intros Hc. unfold calculate_metrics.
  repeat (rewrite bind_run;
          first [ rewrite setitem_run
                | rewrite (getitem_run _ "Close" _ close)
                    by (columns; exact Hc)
                | erewrite getitem_run by (columns; reflexivity) ]).
  reflexivity.
Qed.

Lemma calculate_metrics_run (df : ref) (d : DataFrame) (close : Series)
    (h : heap) :
  h !! df = Some d ->
  column "Close" d = Some close ->
  calculate_metrics sqrtQ df h
  = Ok (df, <[df := with_metrics sqrtQ close d]> h).
Proof.
  intros Hd Hc. rewrite <- (calculate_metrics_insert df d close h Hc).
  rewrite (insert_id h df d Hd). reflexivity.
Qed.

(** Without a Close column the first statement raises. *)
Lemma calculate_metrics_no_close (df : ref) (d : DataFrame) (h : heap) :
  h !! df = Some d ->
  column "Close" d = None ->
  calculate_metrics sqrtQ df h = Raise (KeyError "Close").
Proof.
  intros Hd Hc. unfold calculate_metrics. rewrite bind_run.
  rewrite (getitem_missing _ _ _ _ Hd Hc). reflexivity.
Qed.

End MetricsFacts.

(** ** The EMA of pandas is the recurrence *)

Lemma ewm_step_finite (alpha p prev x : Q) :
  (p == prev)%Q ->
  exists p', ewm_step alpha (Fin p) 1 (Fin x) = (Fin p', 1%Q) /\
             (p' == alpha * x + (1 - alpha) * prev)%Q.
Proof.
  intros Hp. unfold ewm_step. cbn [isnan negb].
  cbn [feqb]. destruct (Qeq_bool p x) eqn:E.
  - apply Qeq_bool_iff in E. exists p. split; [reflexivity|].
    rewrite <- Hp, <- E. ring.
  - set (ow := (1 * (1 - alpha))%Q).
    assert (Z1 : Qzero (Qred (ow + alpha)) = false).
    { apply Qzero_false. rewrite Qred_correct. unfold ow.
      intros H. assert (H' : (1 == 0)%Q) by (rewrite <- H; ring).
      discriminate H'. }
    eexists. split.
    + unfold fmul, fadd, fdiv, fin. rewrite Z1. reflexivity.
    + rewrite !Qred_correct. unfold ow. rewrite Hp. field.
      intros H. assert (H' : (1 == 0)%Q) by (rewrite <- H; ring).
      discriminate H'.
Qed.









(** ** [calculate_metrics] *)

Lemma length_ewm_loop (alpha : Q) (weighted : float) (old_wt : Q)
    (vals : list float) :
  length (ewm_loop alpha weighted old_wt vals) = length vals.
Proof.
  revert weighted old_wt.
  induction vals as [|cur rest IH]; intros weighted old_wt; simpl;
    [reflexivity|].
  destruct (ewm_step alpha weighted old_wt cur) as [w' o'].
  simpl. f_equal. apply IH.
Qed.

Lemma length_ewm_mean (span : Z) (s : Series) :
  length (ewm_mean span s) = length s.
Proof.
  unfold ewm_mean. rewrite <- (length_prep_values s).
  destruct (prep_values s) as [|x rest]; [reflexivity|].
  simpl. f_equal. apply length_ewm_loop.
Qed.

Lemma replicate_nan_add (n : nat) (s : Series) :
  length s = n ->
  series_add (replicate n NaN) s = replicate n NaN.
Proof.
  intros <-. unfold series_add.
  induction s as [|x s IH]; simpl; [reflexivity|]. f_equal. exact IH.
Qed.

Lemma replicate_nan_sub (n : nat) (s : Series) :
  length s = n ->
  series_sub (replicate n NaN) s = replicate n NaN.
Proof.
  intros <-. unfold series_sub.
  induction s as [|x s IH]; simpl; [reflexivity|]. f_equal. exact IH.
Qed.

Section MetricsClaims.

Variable sqrtQ : Q -> Q.

Lemma with_metrics_other (close : Series) (d : DataFrame) (key : string) :
  key ∉ derived_columns ->
  column key (with_metrics sqrtQ close d) = column key d.
Proof.
  intros Hk. unfold with_metrics. cbv zeta.
  repeat (rewrite column_with_column;
          match goal with
          | |- context [String.eqb ?k key] =>
              destruct (String.eqb_spec k key) as [E|_];
              [exfalso; apply Hk; rewrite <- E;
               unfold derived_columns; set_solver|]
          end).
  reflexivity.
Qed.

Lemma with_metrics_derived (close : Series) (d : DataFrame) (key : string) :
  key ∈ derived_columns ->
  is_Some (column key (with_metrics sqrtQ close d)).
Proof.
  unfold derived_columns. intros Hk.
  repeat (apply elem_of_cons in Hk; destruct Hk as [-> | Hk]);
    try (unfold with_metrics; cbv zeta; columns; eexists; reflexivity).
  inversion Hk.
Qed.

Lemma with_metrics_close (close : Series) (d : DataFrame) :
  column "Close" d = Some close ->
  column "Close" (with_metrics sqrtQ close d) = Some close.
Proof.
  intros H. rewrite with_metrics_other; [exact H|].
  unfold derived_columns. intros Hin.
  repeat (apply elem_of_cons in Hin; destruct Hin as [E | Hin];
          [discriminate|]).
  inversion Hin.
Qed.

(** Running the engine on its own output changes nothing. *)
Lemma with_metrics_idempotent (close : Series) (d : DataFrame) :
  with_metrics sqrtQ close (with_metrics sqrtQ close d)
  = with_metrics sqrtQ close d.
Proof.
  set (D := with_metrics sqrtQ close d).
  unfold with_metrics at 1. cbv zeta.
  repeat (rewrite with_column_id;
          [| unfold D, with_metrics; cbv zeta; columns; reflexivity]).
  reflexivity.
Qed.

Lemma with_metrics_NoDup (close : Series) (d : DataFrame) :
  NoDup (column_names d) ->
  NoDup (column_names (with_metrics sqrtQ close d)).
Proof.
  intros H. unfold with_metrics. cbv zeta.
  repeat apply NoDup_with_column. exact H.
Qed.

(** C2, as stated, fails: after the call the table the caller passed has
    gained the derived columns. *)
Lemma calculate_metrics_mutates_input :
  exists h1,
    calculate_metrics sqrt_floor 1%positive sample_heap
    = Ok (1%positive, h1) /\
    (column "SMA_20" <$> sample_heap !! 1%positive) = Some None /\
    (column "SMA_20" <$> h1 !! 1%positive) = Some (Some [NaN; NaN; NaN]) /\
    h1 !! 1%positive <> sample_heap !! 1%positive.
Proof.
  eexists. split.
  - apply (calculate_metrics_run sqrt_floor 1%positive sample_frame
             [Fin 11; Fin 12; Fin 11]); reflexivity.
  - rewrite lookup_insert_eq. split; [reflexivity|].
    split; [vm_compute; reflexivity|].
    intros E. apply (f_equal (fmap (column "SMA_20"))) in E.
    vm_compute in E. discriminate.
Qed.

(** C2 (amended): [calculate_metrics] works on the heap alone and its
    result is determined by the table it is given, whatever else the heap
    holds; it returns the table of the caller itself, updated in place:
    the eight derived columns are set, and the index, every other column
    and every other table are left as they were. *)
Theorem calculate_metrics_frame (df : ref) (d : DataFrame) (close : Series)
    (h h2 : heap) :
  h !! df = Some d ->
  h2 !! df = Some d ->
  column "Close" d = Some close ->
  exists d',
    calculate_metrics sqrtQ df h = Ok (df, <[df := d']> h) /\
    calculate_metrics sqrtQ df h2 = Ok (df, <[df := d']> h2) /\
    df_index d' = df_index d /\
    (forall key, key ∉ derived_columns -> column key d' = column key d) /\
    (forall key, key ∈ derived_columns -> is_Some (column key d')) /\
    (forall r : ref, r <> df -> <[df := d']> h !! r = h !! r).
Proof.
  intros Hd Hd2 Hc. exists (with_metrics sqrtQ close d).
  split; [apply calculate_metrics_run; assumption|].
  split; [apply calculate_metrics_run; assumption|].
  split; [reflexivity|].
  split; [intros key; apply with_metrics_other|].
  split; [intros key; apply with_metrics_derived|].
  intros r Hr. apply lookup_insert_ne. congruence.
Qed.


(** C4: on a table of at least 1 and fewer than 20 rows the engine raises
    nothing, and SMA_20, BB_middle, BB_upper and BB_lower hold the
    undefined marker at every position. *)
Theorem short_series_undefined (df : ref) (d : DataFrame) (close : Series)
    (h : heap) :
  h !! df = Some d ->
  column "Close" d = Some close ->
  (1 <= length close < 20)%nat ->
  exists d',
    calculate_metrics sqrtQ df h = Ok (df, <[df := d']> h) /\
    column "SMA_20" d' = Some (replicate (length close) NaN) /\
    column "BB_middle" d' = Some (replicate (length close) NaN) /\
    column "BB_upper" d' = Some (replicate (length close) NaN) /\
    column "BB_lower" d' = Some (replicate (length close) NaN).
Proof.
  intros Hd Hc [_ Hlen]. exists (with_metrics sqrtQ close d).
  split; [apply calculate_metrics_run; assumption|].
  assert (Hm : rolling_mean 20 close = replicate (length close) NaN)
    by (apply rolling_all_nan, Hlen).
  assert (Hs : length (scalar_mul (Fin 2) (rolling_std sqrtQ 20 close))
               = length close).
  { unfold scalar_mul, rolling_std. rewrite length_map. apply length_rolling. }
  unfold with_metrics. cbv zeta. rewrite Hm.
  repeat split; columns.
  - reflexivity.
  - reflexivity.
  - rewrite replicate_nan_add by exact Hs. reflexivity.
  - rewrite replicate_nan_sub by exact Hs. reflexivity.
Qed.

(** C9: applying the engine to its own output yields that output again:
    every derived column is recomputed to the value it has, and no column
    is added a second time. *)
Theorem calculate_metrics_idempotent (df : ref) (d : DataFrame)
    (close : Series) (h : heap) :
  h !! df = Some d ->
  column "Close" d = Some close ->
  exists h' d',
    calculate_metrics sqrtQ df h = Ok (df, h') /\
    h' !! df = Some d' /\
    calculate_metrics sqrtQ df h' = Ok (df, h') /\
    (NoDup (column_names d) -> NoDup (column_names d')).
Proof.
  intros Hd Hc.
  exists (<[df := with_metrics sqrtQ close d]> h),
         (with_metrics sqrtQ close d).
  split; [apply calculate_metrics_run; assumption|].
  split; [apply lookup_insert_eq|].
  split; [|apply with_metrics_NoDup].
  rewrite (calculate_metrics_insert sqrtQ df _ close)
    by (apply with_metrics_close, Hc).
  rewrite with_metrics_idempotent. reflexivity.
Qed.

End MetricsClaims.

Lemma calculate_metrics_frame_witness :
  exists d',
    calculate_metrics sqrt_floor 1%positive sample_heap
    = Ok (1%positive, <[1%positive := d']> sample_heap) /\
    calculate_metrics sqrt_floor 1%positive sample_heap
    = Ok (1%positive, <[1%positive := d']> sample_heap) /\
    df_index d' = df_index sample_frame /\
    (forall key, key ∉ derived_columns ->
                 column key d' = column key sample_frame) /\
    (forall key, key ∈ derived_columns -> is_Some (column key d')) /\
    (forall r : ref, r <> 1%positive ->
                     <[1%positive := d']> sample_heap !! r
                     = sample_heap !! r).
Proof.
  apply (calculate_metrics_frame sqrt_floor 1%positive sample_frame
           [Fin 11; Fin 12; Fin 11] sample_heap sample_heap);
    reflexivity.
Defined.


Lemma short_series_undefined_witness :
  exists d',
    calculate_metrics sqrt_floor 1%positive sample_heap
    = Ok (1%positive, <[1%positive := d']> sample_heap) /\
    column "SMA_20" d' = Some [NaN; NaN; NaN] /\
    column "BB_middle" d' = Some [NaN; NaN; NaN] /\
    column "BB_upper" d' = Some [NaN; NaN; NaN] /\
    column "BB_lower" d' = Some [NaN; NaN; NaN].
Proof.
  apply (short_series_undefined sqrt_floor 1%positive sample_frame
           [Fin 11; Fin 12; Fin 11] sample_heap);
    [reflexivity | reflexivity | simpl; lia].
Defined.

Lemma calculate_metrics_idempotent_witness :
  exists h' d',
    calculate_metrics sqrt_floor 1%positive sample_heap
    = Ok (1%positive, h') /\
    h' !! 1%positive = Some d' /\
    calculate_metrics sqrt_floor 1%positive h' = Ok (1%positive, h') /\
    (NoDup (column_names sample_frame) -> NoDup (column_names d')).
Proof.
  apply (calculate_metrics_idempotent sqrt_floor 1%positive sample_frame
           [Fin 11; Fin 12; Fin 11] sample_heap); reflexivity.
Defined.

(** The MACD of the sample table, computed. *)
Lemma macd_sample :
  (h' ← match calculate_metrics sqrt_floor 1%positive sample_heap with
        | Ok (_, h') => Some h'
        | Raise _ => None
        end;
   d' ← h' !! 1%positive;
   column "MACD" d')
  = Some [Fin 0; Fin (28 # 351); Fin (7588 # 123201)].
Proof. vm_compute. reflexivity. Qed.
(** ** [create_price_chart] *)

Lemma deref_run (df : ref) (d : DataFrame) (h : heap) :
  h !! df = Some d -> deref df h = Ok (d, h).
Proof. intros H. unfold deref. rewrite H. reflexivity. Qed.

Lemma getitem_read (df : ref) (key : string) (d : DataFrame) (s : Series)
    (h : heap) :
  h !! df = Some d -> column key d = Some s ->
  getitem df key h = Ok (s, h).
Proof.
  intros Hd Hc. unfold getitem. rewrite bind_run, (deref_run _ _ _ Hd), Hc.
  reflexivity.
Qed.

Lemma has_column_Some (d : DataFrame) (key : string) :
  has_column d key = true -> exists s, column key d = Some s.
Proof.
  unfold has_column. destruct (column key d) as [s|]; [|discriminate].
  intros _. exists s. reflexivity.
Qed.

Lemma lift_run {A : Type} (r : result A) (a : A) (h : heap) :
  r = Ok a -> lift r h = Ok (a, h).
Proof. intros ->. reflexivity. Qed.

(** C8: on every indicator table, whatever its number of rows,
    [create_price_chart] returns a chart of exactly 3 rows in 1 column,
    with the row heights 0.5, 0.25 and 0.25; every trace sits in one of
    the three rows, and none of the rows is empty. *)
Theorem create_price_chart_panels (df : ref) (d : DataFrame)
    (symbol : string) (h : heap) :
  h !! df = Some d ->
  indicator_table d = true ->
  exists fig,
    create_price_chart df symbol h = Ok (fig, h) /\
    fig_rows fig = 3%nat /\
    fig_cols fig = 1%nat /\
    fig_row_heights fig = [0.5; 0.25; 0.25]%Q /\
    Forall2 Qeq (fig_row_heights fig) [1 # 2; 1 # 4; 1 # 4]%Q /\
    trace_cells fig
    = [(1, 1); (1, 1); (1, 1); (1, 1); (1, 1); (2, 1); (3, 1)]%nat /\
    (forall row, (1 <= row <= 3)%nat -> traces_in_row fig row <> []).
Proof.
  intros Hd Hcols. unfold indicator_table in Hcols. simpl in Hcols.
  repeat (apply andb_prop in Hcols; destruct Hcols as [?H Hcols]).
  repeat match goal with
         | H : has_column d _ = true |- _ =>
             apply has_column_Some in H; destruct H as [? ?]
         end.
  eexists. split.
  - unfold create_price_chart.
    repeat (rewrite bind_run;
            first [ rewrite (deref_run _ _ _ Hd)
                  | erewrite getitem_read by eassumption
                  | erewrite lift_run by (vm_compute; reflexivity) ]).
    reflexivity.
  - repeat split; try reflexivity.
    + repeat constructor.
    + intros row Hrow.
      assert (E : row = 1%nat \/ row = 2%nat \/ row = 3%nat) by lia.
      destruct E as [-> | [-> | ->]]; discriminate.
Qed.

Lemma create_price_chart_panels_witness :
  exists fig,
    create_price_chart 1%positive "TCS.NS" sample_indicator_heap
    = Ok (fig, sample_indicator_heap) /\
    fig_rows fig = 3%nat /\
    fig_cols fig = 1%nat /\
    fig_row_heights fig = [0.5; 0.25; 0.25]%Q /\
    Forall2 Qeq (fig_row_heights fig) [1 # 2; 1 # 4; 1 # 4]%Q /\
    trace_cells fig
    = [(1, 1); (1, 1); (1, 1); (1, 1); (1, 1); (2, 1); (3, 1)]%nat /\
    (forall row, (1 <= row <= 3)%nat -> traces_in_row fig row <> []).
Proof.
  apply (create_price_chart_panels 1%positive
           (with_metrics sqrt_floor [Fin 11; Fin 12; Fin 11] sample_frame));
    vm_compute; reflexivity.
Defined.

(** Before the indicators are computed the table has no band columns, and
    the chart builder raises. *)
Lemma create_price_chart_needs_indicators :
  create_price_chart 1%positive "TCS.NS" sample_heap
  = Raise (KeyError "BB_upper").
Proof. vm_compute. reflexivity. Qed.

(** ** The model on small inputs *)

Example rolling_mean_sample :
  rolling_mean 3 [Fin 1; Fin 2; Fin 3; Fin 4; Fin 5]
  = [NaN; NaN; Fin 2; Fin 3; Fin 4].
Proof. vm_compute. reflexivity. Qed.

(** A missing or infinite cell leaves the average in place and shifts the
    weights of the next observation. *)
Example ewm_mean_gap :
  ewm_mean 3 [NaN; Fin 1; NaN; Fin 3; PInf; Fin 4]
  = [NaN; Fin 1; Fin 1; Fin (7 # 3); Fin (7 # 3); Fin (31 # 9)].
Proof. vm_compute. reflexivity. Qed.

(** A series with sessions down: the first defined position is the
    fourteenth, where the gains sum to 15 and the losses to 2. *)
Example rsi_sample :
  calculate_rsi
    [Fin 1; Fin 2; Fin 3; Fin 2; Fin 5; Fin 6; Fin 7; Fin 8; Fin 7;
     Fin 10; Fin 11; Fin 12; Fin 13; Fin 14; Fin 12] 14
  = replicate 13 NaN ++ [Fin (1500 # 17); Fin (1500 # 19)].
Proof. vm_compute. reflexivity. Qed.

Example format_number_samples :
  format_number (PyFloat (Fin (-0.001))) = "-0.00" /\
  format_number (PyFloat (Fin 0.125)) = "0.12" /\
  format_number (PyFloat (Fin 999.999)) = "1000.00" /\
  format_number (PyInt 12345678901234567890) = "12345678901.23B" /\
  format_number (PyInt (-12345678901234567890))
  = "-12345678901234567168.00" /\
  format_number (PyFloat PInf) = "infB" /\
  format_number (PyFloat NaN) = "N/A" /\
  format_number PyNone = "N/A" /\
  format_number (PyStr "1500") = "N/A".
Proof. repeat split; vm_compute; reflexivity. Qed.
(** * Further properties *)

(** ** [format_number]: when the answer is "N/A" *)

Lemma last_char_suffixed (s : string) (c : ascii) :
  last_char (String.append s (String c EmptyString)) = Some c.
Proof. rewrite last_char_app by discriminate. reflexivity. Qed.

Lemma suffixed_not_na (s : string) (c : ascii) :
  c <> "A"%char -> String.append s (String c EmptyString) <> "N/A".
Proof.
  intros Hc E. apply (f_equal last_char) in E.
  rewrite last_char_suffixed in E. simpl in E. congruence.
Qed.

Lemma float_format_2f_not_na (x : float) : float_format_2f x <> "N/A".
Proof.
  destruct x as [| | |q]; try discriminate. apply fixed2_plain.
Qed.

(** Whatever the [try] block returns besides the "N/A" of its first
    test is a rendering, with or without suffix. *)
Lemma format_number_try_rendering (v : pyval) (s : string) :
  pd_isna v || py_eq_zero v = false ->
  format_number_try v = Ok s -> s <> "N/A".
Proof.
  intros Hz. unfold format_number_try. rewrite Hz.
  assert (Hdiv : forall c (suffix : ascii), suffix <> "A"%char ->
            (x ← py_truediv v c;
             Ok (String.append (float_format_2f x)
                   (String suffix EmptyString))) = Ok s -> s <> "N/A").
  { intros c suffix Hs H.
    destruct (py_truediv v c) as [x|]; [|discriminate].
    inversion H. apply suffixed_not_na, Hs. }
  destruct (py_ge v 1e9) as [[|]|]; cbn [mbind result_bind];
    try discriminate.
  { apply Hdiv. discriminate. }
  destruct (py_ge v 1e6) as [[|]|]; cbn [mbind result_bind];
    try discriminate.
  { apply Hdiv. discriminate. }
  destruct (py_ge v 1e3) as [[|]|]; cbn [mbind result_bind];
    try discriminate.
  { apply Hdiv. discriminate. }
  destruct v as [|n|x|t]; simpl; try discriminate.
  - destruct (float_of_int n) as [x|]; [|discriminate].
    intros H. inversion H. apply float_format_2f_not_na.
  - intros H. inversion H. apply float_format_2f_not_na.
Qed.

Lemma float_of_int_ok (n : Z) :
  (Z.abs n <? 2 ^ 1024 - 2 ^ 970) = true ->
  float_of_int n = Ok (fin (inject_Z (round53 n))).
Proof. intros H. unfold float_of_int. rewrite H. reflexivity. Qed.

Lemma float_of_int_overflow (n : Z) :
  (Z.abs n <? 2 ^ 1024 - 2 ^ 970) = false ->
  float_of_int n = Raise OverflowError.
Proof. intros H. unfold float_of_int. rewrite H. reflexivity. Qed.

(** On an input that is not answered "N/A" the [try] block returns. *)
Lemma format_number_try_ok (v : pyval) :
  na_input v = false -> exists s, format_number_try v = Ok s.
Proof.
  intros Hna. unfold format_number_try.
  destruct v as [|n|x|t]; simpl in Hna; try discriminate.
  - apply orb_false_iff in Hna. destruct Hna as [Hz Hc].
    apply negb_false_iff in Hc.
    cbn [pd_isna py_eq_zero orb]. rewrite Hz.
    cbn [py_ge py_truediv py_format_2f mbind result_bind].
    rewrite (float_of_int_ok n Hc). cbn [mbind result_bind].
    repeat match goal with
           | |- context [if ?b then _ else _] => destruct b
           end; eexists; reflexivity.
  - cbn [pd_isna py_eq_zero]. rewrite Hna.
    cbn [py_ge py_truediv py_format_2f mbind result_bind].
    repeat match goal with
           | |- context [if ?b then _ else _] => destruct b
           end; eexists; reflexivity.
Qed.

Lemma format_number_na_spec (v : pyval) :
  format_number v = "N/A" <-> na_input v = true.
Proof.
  split.
  - intros H. destruct (na_input v) eqn:Hna; [reflexivity|]. exfalso.
    destruct (format_number_try_ok v Hna) as [s Hs].
    unfold format_number in H. rewrite Hs in H. subst s.
    revert Hs. 
    assert (Hz : pd_isna v || py_eq_zero v = false).
    { destruct v as [|n|x|t]; simpl in *; try discriminate.
      - apply orb_false_iff in Hna. tauto.
      - exact Hna. }
    intros Hs. exact (format_number_try_rendering v _ Hz Hs eq_refl).
  - intros Hna. unfold format_number, format_number_try.
    destruct v as [|n|x|t]; simpl in Hna.
    + reflexivity.
    + apply orb_true_iff in Hna. destruct Hna as [Hz | Hc].
      * cbn [pd_isna py_eq_zero orb]. rewrite Hz. reflexivity.
      * apply negb_true_iff in Hc.
        cbn [pd_isna py_eq_zero orb].
        destruct (n =? 0); [reflexivity|].
        cbn [py_ge py_truediv py_format_2f mbind result_bind].
        rewrite (float_of_int_overflow n Hc). cbn [mbind result_bind].
        repeat match goal with
               | |- context [if ?b then _ else _] => destruct b
               end; reflexivity.
    + cbn [pd_isna py_eq_zero]. rewrite Hna. reflexivity.
    + reflexivity.
Qed.
(** X1: [format_number] answers "N/A" exactly for [None], a string, a
    NaN, a zero, and an int beyond the range of a float; every other
    input is rendered. *)
Theorem format_number_na_iff (v : pyval) :
  format_number v = "N/A" <-> na_input v = true.
Proof. apply format_number_na_spec. Qed.

(** ** [format_number]: ints printed as they are *)

Lemma round_half_even_int (z : Z) : round_half_even (inject_Z z) = z.
Proof.
  unfold round_half_even.
  assert (F : Qfloor (inject_Z z) = z) by apply Qfloor_Z.
  rewrite F.
  assert (C : Qcompare (inject_Z z - inject_Z z) (1 # 2) = Lt).
  { apply Qlt_alt.
    assert (E : (inject_Z z - inject_Z z == 0)%Q) by ring.
    rewrite E. reflexivity. }
  rewrite C. reflexivity.
Qed.

Lemma fixed2_int (n : Z) :
  fixed2 (inject_Z n)
  = String.append (if n <? 0 then "-" else "")
      (String.append (Z_to_string (Z.abs n)) ".00").
Proof.
  unfold fixed2.
  assert (R : round_half_even (Qabs (inject_Z n) * 100) = Z.abs n * 100).
  { assert (E : (Qabs (inject_Z n) * 100)%Q = inject_Z (Z.abs n * 100)).
    { unfold Qabs, inject_Z, Qmult. simpl. reflexivity. }
    rewrite E. apply round_half_even_int. }
  rewrite R.
  assert (S : Qneg (inject_Z n) = (n <? 0)).
  { unfold Qneg, Qle_bool, inject_Z. simpl.
    destruct (Z.leb_spec 0 (n * 1)), (Z.ltb_spec n 0); simpl;
      try reflexivity; lia. }
  rewrite S.
  rewrite Z.div_mul by lia.
  assert (D1 : (Z.abs n * 100 / 10) mod 10 = 0).
  { replace (Z.abs n * 100) with (Z.abs n * 10 * 10) by lia.
    rewrite Z.div_mul by lia. apply Z.mod_mul. lia. }
  assert (D0 : (Z.abs n * 100) mod 10 = 0).
  { replace (Z.abs n * 100) with (Z.abs n * 10 * 10) by lia.
    apply Z.mod_mul. lia. }
  rewrite D1, D0. reflexivity.
Qed.

Lemma fin_int (n : Z) : fin (inject_Z n) = Fin (inject_Z n).
Proof.
  unfold fin. f_equal. unfold inject_Z, Qred.
  pose proof (Z.ggcd_gcd n 1) as G.
  pose proof (Z.ggcd_correct_divisors n 1) as D.
  destruct (Z.ggcd n 1) as [g [a b]]. simpl in *.
  rewrite Z.gcd_1_r in G. subst g. destruct D as [Da Db].
  assert (a = n) by lia. assert (b = 1) by lia. subst a b. reflexivity.
Qed.

(** X2: a positive int below 1000, and a negative int above [-2^53], is
    printed as the int itself followed by ".00". *)
Theorem format_number_int_plain (n : Z) :
  0 < n < 1000 \/ - 2 ^ 53 < n < 0 ->
  format_number (PyInt n)
  = String.append (if n <? 0 then "-" else "")
      (String.append (Z_to_string (Z.abs n)) ".00").
Proof.
  intros Hn.
  assert (Hz : (n =? 0) = false) by (apply Z.eqb_neq; lia).
  assert (Hsmall : Z.abs n < 2 ^ 53) by lia.
  assert (Hc : (Z.abs n <? 2 ^ 1024 - 2 ^ 970) = true).
  { apply Z.ltb_lt. eapply Z.lt_trans; [exact Hsmall|]. reflexivity. }
  assert (Hge : forall c : Q, (1000 <= c)%Q ->
                              Qle_bool c (inject_Z n) = false).
  { intros c Hc'. apply Qle_bool_false.
    eapply Qlt_le_trans; [|exact Hc'].
    unfold Qlt, inject_Z. simpl. lia. }
  unfold format_number, format_number_try.
  cbn [pd_isna py_eq_zero orb]. rewrite Hz.
  cbn [py_ge mbind result_bind].
  rewrite !Hge by (unfold Qle; simpl; lia).
  cbn [py_format_2f mbind result_bind].
  rewrite (float_of_int_ok n Hc). cbn [mbind result_bind].
  assert (R : round53 n = n).
  { unfold round53. apply Z.ltb_lt in Hsmall. rewrite Hsmall. reflexivity. }
  rewrite R, fin_int. cbn [float_format_2f]. apply fixed2_int.
Qed.

Lemma format_number_int_plain_witness :
  format_number (PyInt 42)
  = String.append (if 42 <? 0 then "-" else "")
      (String.append (Z_to_string (Z.abs 42)) ".00").
Proof. apply (format_number_int_plain 42). left. lia. Defined.
(** ** [get_financial_metrics]: errors and the currency symbol *)

Lemma percent_entry_none (info : gmap string pyval) (field : string) :
  not_none info field = false ->
  percent_entry info field = Raise TypeError.
Proof.
  unfold not_none, percent_entry, dict_get.
  destruct (info !! field) as [[| | |]|]; simpl; try discriminate.
  reflexivity.
Qed.

Lemma financial_metrics_ok (info : gmap string pyval) :
  symbol_ok info && percent_ok info = true ->
  exists m, get_financial_metrics info = Ok m /\
            map fst m = metric_labels.
Proof.
  intros H. apply andb_prop in H. destruct H as [Hsym Hpct].
  unfold percent_ok in Hpct. simpl in Hpct.
  repeat (apply andb_prop in Hpct; destruct Hpct as [? Hpct]).
  destruct (percent_entry_ok info "profitMargins") as [s1 E1];
    [assumption|].
  destruct (percent_entry_ok info "operatingMargins") as [s2 E2];
    [assumption|].
  destruct (percent_entry_ok info "returnOnEquity") as [s3 E3];
    [assumption|].
  destruct (percent_entry_ok info "returnOnAssets") as [s4 E4];
    [assumption|].
  destruct (dividend_entry_ok info) as [sd Ed].
  unfold symbol_ok in Hsym. unfold get_financial_metrics, dict_get.
  destruct (info !! "symbol") as [[| | |]|]; simpl in Hsym;
    try discriminate; cbn [default py_contains mbind result_bind];
    rewrite Ed; cbn [mbind result_bind];
    rewrite E1, E2, E3, E4; cbn [mbind result_bind];
    eexists; split; reflexivity.
Qed.

(** X3: [get_financial_metrics] raises (a [TypeError]) exactly when the
    symbol is present without being a string, or one of the fields of
    Profit Margin, Operating Margin, ROE and ROA holds [None]; in every
    other case it returns the twelve entries in their fixed order. *)
Theorem financial_metrics_raises_iff (info : gmap string pyval) :
  (get_financial_metrics info = Raise TypeError <->
   symbol_ok info && percent_ok info = false) /\
  (symbol_ok info && percent_ok info = true ->
   exists m, get_financial_metrics info = Ok m /\
             map fst m = metric_labels).
Proof.
  pose proof (financial_metrics_ok info) as Hok.
  split; [|exact Hok].
  split.
  - intros H. destruct (symbol_ok info && percent_ok info) eqn:E;
      [|reflexivity].
    destruct (Hok eq_refl) as (m & Hm & _). congruence.
  - intros H. apply andb_false_iff in H.
    unfold get_financial_metrics.
    destruct (symbol_ok info) eqn:Hsym.
    + destruct H as [H | Hpct]; [discriminate|].
      assert (Hns : exists b,
                 py_contains ".NS" (dict_get info "symbol" (PyStr ""))
                 = Ok b).
      { unfold symbol_ok in Hsym. unfold dict_get.
        destruct (info !! "symbol") as [[| | |]|]; simpl in *;
          try discriminate; eexists; reflexivity. }
      destruct Hns as [b ->]. cbn [mbind result_bind].
      destruct (dividend_entry_ok info) as [sd ->].
      cbn [mbind result_bind].
      unfold percent_ok in Hpct. simpl in Hpct.
      destruct (not_none info "profitMargins") eqn:N1;
        [|rewrite (percent_entry_none _ _ N1); reflexivity].
      destruct (percent_entry_ok _ _ N1) as [s1 ->].
      cbn [mbind result_bind].
      destruct (not_none info "operatingMargins") eqn:N2;
        [|rewrite (percent_entry_none _ _ N2); reflexivity].
      destruct (percent_entry_ok _ _ N2) as [s2 ->].
      cbn [mbind result_bind].
      destruct (not_none info "returnOnEquity") eqn:N3;
        [|rewrite (percent_entry_none _ _ N3); reflexivity].
      destruct (percent_entry_ok _ _ N3) as [s3 ->].
      cbn [mbind result_bind].
      destruct (not_none info "returnOnAssets") eqn:N4;
        [|rewrite (percent_entry_none _ _ N4); reflexivity].
      discriminate.
    + unfold symbol_ok in Hsym. unfold dict_get.
      destruct (info !! "symbol") as [[| | |]|]; simpl in Hsym;
        try discriminate; reflexivity.
Qed.


Lemma financial_metrics_raises_iff_witness :
  get_financial_metrics {[ "profitMargins" := PyNone ]} = Raise TypeError /\
  exists m, get_financial_metrics ∅ = Ok m /\ map fst m = metric_labels.
Proof.
  split.
  - apply (proj2 (proj1 (financial_metrics_raises_iff
                           {[ "profitMargins" := PyNone ]}))).
    vm_compute. reflexivity.
  - apply (proj2 (financial_metrics_raises_iff ∅)).
    vm_compute. reflexivity.
Defined.

(** X4: the entries in front of a percent sign keep the sign: when
    [get_financial_metrics] returns, a Profit Margin, Operating Margin,
    ROE or ROA whose field is absent or zero reads "N/A%". *)
Theorem financial_metrics_percent_entries (info : gmap string pyval) :
  symbol_ok info = true ->
  percent_ok info = true ->
  exists m,
    get_financial_metrics info = Ok m /\
    forall label field,
      In (label, field) percent_entries ->
      absent_or_zero info field = true ->
      assoc label m = Some "N/A%".
Proof.
  intros Hsym Hpct.
  destruct (financial_metrics_ok info) as (m & Hm & _);
    [rewrite Hsym, Hpct; reflexivity|].
  exists m. split; [exact Hm|].
  intros label field. apply financial_metrics_percent_absent. exact Hm.
Qed.

Lemma financial_metrics_percent_entries_witness :
  exists m,
    get_financial_metrics ∅ = Ok m /\
    forall label field,
      In (label, field) percent_entries ->
      absent_or_zero ∅ field = true ->
      assoc label m = Some "N/A%".
Proof.
  apply (financial_metrics_percent_entries ∅); reflexivity.
Defined.

(** *** Where ".NS" is looked for *)

Lemma prefix_spec (a s : string) :
  String.prefix a s = true <-> exists post, s = String.append a post.
Proof.
  revert s. induction a as [|c a IH]; intros s.
  - destruct s; simpl; (split; [intros _; eexists; reflexivity | reflexivity]).
  - destruct s as [|d s]; simpl.
    + split; [discriminate | intros [post H]; discriminate].
    + destruct (Ascii.ascii_dec c d) as [->|Hcd].
      * rewrite IH. split; intros [post H]; exists post.
        -- rewrite H. reflexivity.
        -- inversion H. reflexivity.
      * split; [discriminate|]. intros [post H]. inversion H. congruence.
Qed.

Lemma str_contains_spec (needle s : string) :
  str_contains needle s = true <->
  exists pre post, s = String.append pre (String.append needle post).
Proof.
  induction s as [|c s IH].
  - cbn [str_contains]. rewrite orb_false_r, prefix_spec. split.
    + intros [post H]. exists EmptyString, post. exact H.
    + intros (pre & post & H). destruct pre; simpl in H.
      * exists post. exact H.
      * discriminate.
  - cbn [str_contains]. rewrite orb_true_iff, prefix_spec, IH. split.
    + intros [[post H] | (pre & post & H)].
      * exists EmptyString, post. exact H.
      * exists (String c pre), post. simpl. rewrite H. reflexivity.
    + intros (pre & post & H). destruct pre as [|d pre]; simpl in H.
      * left. exists post. exact H.
      * right. inversion H. exists pre, post. reflexivity.
Qed.

(** X5: Market Cap, EPS and Revenue carry one and the same currency
    symbol in front of the formatted field: the rupee sign when the
    symbol of the metadata contains ".NS" at any place, the dollar sign
    otherwise, also when the metadata has no symbol. *)
Theorem financial_metrics_currency (info : gmap string pyval)
    (m : list (string * string)) :
  get_financial_metrics info = Ok m ->
  exists symbol,
    dict_get info "symbol" (PyStr "") = PyStr symbol /\
    (currency_of symbol = rupee <->
     exists pre post,
       symbol = String.append pre (String.append ".NS" post)) /\
    (currency_of symbol = "$" <->
     ~ exists pre post,
         symbol = String.append pre (String.append ".NS" post)) /\
    forall label field,
      In (label, field) currency_entries ->
      assoc label m
      = Some (String.append (currency_of symbol)
                (format_number (dict_get info field (PyInt 0)))).
Proof.
  unfold get_financial_metrics. intros Hm.
  destruct (dict_get info "symbol" (PyStr "")) as [| | |symbol] eqn:Es;
    try discriminate.
  exists symbol. split; [reflexivity|].
  assert (Hcur : forall b : bool,
             (if b then rupee else "$") = rupee <-> b = true).
  { intros [|]; split; try reflexivity; discriminate. }
  split; [unfold currency_of; rewrite Hcur; apply str_contains_spec|].
  split.
  { unfold currency_of. rewrite <- str_contains_spec.
    destruct (str_contains ".NS" symbol); split; try discriminate;
      try reflexivity; intros H; congruence. }
  cbn [py_contains mbind result_bind] in Hm.
  destruct (if py_truthy _ then _ else _) as [sd|]; [|discriminate].
  cbn [mbind result_bind] in Hm.
  destruct (percent_entry info "profitMargins") as [s1|]; [|discriminate].
  cbn [mbind result_bind] in Hm.
  destruct (percent_entry info "operatingMargins") as [s2|];
    [|discriminate].
  cbn [mbind result_bind] in Hm.
  destruct (percent_entry info "returnOnEquity") as [s3|]; [|discriminate].
  cbn [mbind result_bind] in Hm.
  destruct (percent_entry info "returnOnAssets") as [s4|]; [|discriminate].
  cbn [mbind result_bind] in Hm.
  inversion Hm; subst m; clear Hm.
  intros label field Hin. simpl in Hin.
  repeat destruct Hin as [Hin|Hin]; try contradiction;
    inversion Hin; subst; reflexivity.
Qed.

Lemma financial_metrics_currency_witness :
  exists symbol,
    dict_get {[ "symbol" := PyStr "TCS.NS"; "marketCap" := PyInt 1500 ]}
      "symbol" (PyStr "") = PyStr symbol /\
    (currency_of symbol = rupee <->
     exists pre post,
       symbol = String.append pre (String.append ".NS" post)) /\
    (currency_of symbol = "$" <->
     ~ exists pre post,
         symbol = String.append pre (String.append ".NS" post)) /\
    forall label field,
      In (label, field) currency_entries ->
      assoc label
        [("Market Cap", "₹1.50K"); ("P/E Ratio", "N/A");
         ("EPS (TTM)", "₹N/A"); ("Beta", "N/A");
         ("Dividend Yield", "N/A"); ("Revenue (TTM)", "₹N/A");
         ("Profit Margin", "N/A%"); ("Operating Margin", "N/A%");
         ("ROE", "N/A%"); ("ROA", "N/A%");
         ("Debt to Equity", "N/A"); ("Current Ratio", "N/A")]
      = Some (String.append (currency_of symbol)
                (format_number
                   (dict_get {[ "symbol" := PyStr "TCS.NS";
                                "marketCap" := PyInt 1500 ]}
                      field (PyInt 0)))).
Proof.
  apply (financial_metrics_currency
           {[ "symbol" := PyStr "TCS.NS"; "marketCap" := PyInt 1500 ]}).
  vm_compute. reflexivity.
Defined.
(** ** Moving averages: where they are defined *)

Lemma observations_length_all_fin (win : list float) :
  length (observations win) = length win -> forallb is_fin win = true.
Proof.
  induction win as [|x win IH]; simpl; [reflexivity|].
  pose proof (length_observations win) as L.
  destruct x; simpl; intros H; try lia.
  apply IH. lia.
Qed.

Lemma prep_values_lookup (s : Series) (j : nat) :
  prep_values s !! j = (fun x => if isinf x then NaN else x) <$> s !! j.
Proof. unfold prep_values. rewrite map_fmap. apply list_lookup_fmap. Qed.

Lemma is_fin_prep (x : float) :
  is_fin (if isinf x then NaN else x) = is_fin x.
Proof. destruct x; reflexivity. Qed.

(** The cells of a window are finite exactly when the cells of the
    series it covers are. *)
Lemma window_all_fin (w i : nat) (s : Series) :
  (i < length s)%nat ->
  forallb is_fin (window w i (prep_values s)) = true <->
  forall j, (i + 1 - w <= j <= i)%nat ->
            exists q, s !! j = Some (Fin q).
Proof.
  intros Hi. rewrite forallb_Forall, Forall_lookup. split.
  - intros H j Hj.
    destruct (lookup_lt_is_Some_2 s j) as [x Hx]; [lia|].
    assert (Hk : (j - (i + 1 - w) < Nat.min w (i + 1))%nat) by lia.
    pose proof (window_lookup w i _ (prep_values s) Hk) as Hw.
    replace (i + 1 - w + (j - (i + 1 - w)))%nat with j in Hw by lia.
    rewrite prep_values_lookup, Hx in Hw. simpl in Hw.
    specialize (H _ _ Hw). rewrite is_fin_prep in H.
    destruct x as [| | |q]; try discriminate. exists q. exact Hx.
  - intros H k x Hx.
    assert (Hk : (k < Nat.min w (i + 1))%nat).
    { apply lookup_lt_Some in Hx. rewrite length_window in Hx;
        [exact Hx | rewrite length_prep_values; exact Hi]. }
    rewrite window_lookup in Hx by exact Hk.
    rewrite prep_values_lookup in Hx.
    destruct (H (i + 1 - w + k)%nat) as [q Hq]; [lia|].
    rewrite Hq in Hx. simpl in Hx. inversion Hx. reflexivity.
Qed.

(** A rolling aggregation is computed at a position exactly when the
    window is full and every cell of it is finite. *)
Lemma rolling_computed_iff (w : nat) (agg : list Q -> float) (s : Series)
    (i : nat) :
  (0 < w)%nat -> (i < length s)%nat ->
  (w <=? length (observations (window w i (prep_values s))))%nat = true <->
  (w <= i + 1)%nat /\
  forall j, (i + 1 - w <= j <= i)%nat -> exists q, s !! j = Some (Fin q).
Proof.
  intros Hw Hi. rewrite Nat.leb_le, <- (window_all_fin w i s Hi).
  pose proof (length_observations (window w i (prep_values s))) as L.
  pose proof (length_window w i (prep_values s)) as W.
  rewrite length_prep_values in W. specialize (W Hi).
  split.
  - intros H. split; [lia|].
    apply observations_length_all_fin. lia.
  - intros [H1 H2]. rewrite observations_all_fin by exact H2. lia.
Qed.

(** X6: the moving average of width [w] is defined at a position exactly
    when the position has [w] cells behind it, itself included, and all
    of them are finite; at every other position it is the undefined
    marker.  One missing cell thus blanks the [w] positions from its own
    on. *)
Theorem rolling_mean_defined_iff (w i : nat) (s : Series) :
  (0 < w)%nat -> (i < length s)%nat ->
  ((exists q, rolling_mean w s !! i = Some (Fin q)) <->
   (w <= i + 1)%nat /\
   forall j, (i + 1 - w <= j <= i)%nat ->
             exists p, s !! j = Some (Fin p)) /\
  ((~ exists q, rolling_mean w s !! i = Some (Fin q)) ->
   rolling_mean w s !! i = Some NaN).
Proof.
  intros Hw Hi. unfold rolling_mean.
  rewrite rolling_lookup by exact Hi. cbv zeta.
  rewrite <- (rolling_computed_iff w mean s i Hw Hi).
  set (obs := observations (window w i (prep_values s))).
  destruct (w <=? length obs)%nat eqn:E.
  - assert (Hne : obs <> []).
    { apply Nat.leb_le in E. destruct obs; simpl in E; [lia|discriminate]. }
    rewrite mean_eq by exact Hne. split.
    + split; [reflexivity|]. intros _. eexists. reflexivity.
    + intros H. exfalso. apply H. eexists. reflexivity.
  - split; [|reflexivity].
    split; [intros [q H]; discriminate | discriminate].
Qed.

Lemma rolling_mean_defined_iff_witness :
  ((exists q, rolling_mean 3 [Fin 1; NaN; Fin 3; Fin 4; Fin 5] !! 4%nat
              = Some (Fin q)) <->
   (3 <= 4 + 1)%nat /\
   forall j, (4 + 1 - 3 <= j <= 4)%nat ->
             exists p, [Fin 1; NaN; Fin 3; Fin 4; Fin 5] !! j
                       = Some (Fin p)) /\
  ((~ exists q, rolling_mean 3 [Fin 1; NaN; Fin 3; Fin 4; Fin 5] !! 4%nat
                = Some (Fin q)) ->
   rolling_mean 3 [Fin 1; NaN; Fin 3; Fin 4; Fin 5] !! 4%nat = Some NaN).
Proof.
  apply (rolling_mean_defined_iff 3 4 [Fin 1; NaN; Fin 3; Fin 4; Fin 5]);
    simpl; lia.
Defined.
(** ** Bollinger Bands *)

Lemma Qsum_squares_nonneg (m : Q) (obs : list Q) :
  (0 <= Qsum (map (fun x => (x - m) * (x - m)) obs))%Q.
Proof.
  apply Qsum_nonneg. intros q Hq. rewrite map_fmap in Hq.
  apply list_elem_of_fmap in Hq. destruct Hq as (x & -> & _).
  cbv beta. generalize (x - m)%Q. intros y.
  unfold Qle, Qmult. simpl. nia.
Qed.

Lemma variance_nonneg (obs : list Q) :
  (2 <= length obs)%nat ->
  exists v, variance obs = Fin v /\ (0 <= v)%Q.
Proof.
  intros Hlen. unfold variance.
  assert (Hpos : (0 < Qlen obs - 1)%Q).
  { unfold Qlen, Qlt, Qminus, Qplus, Qopp, inject_Z. simpl. lia. }
  assert (Z0 : Qzero (Qlen obs - 1) = false).
  { apply Qzero_false. intros E. rewrite E in Hpos.
    exact (Qlt_irrefl _ Hpos). }
  unfold fdiv. rewrite Z0. eexists. split; [reflexivity|].
  rewrite Qred_correct. apply Qle_shift_div_l; [exact Hpos|].
  rewrite Qmult_0_l. apply Qsum_squares_nonneg.
Qed.

Section Bands.

Variable sqrtQ : Q -> Q.
Hypothesis sqrtQ_nonneg : forall q, (0 <= q)%Q -> (0 <= sqrtQ q)%Q.

Lemma std_nonneg (obs : list Q) :
  (2 <= length obs)%nat ->
  exists sd, std sqrtQ obs = Fin sd /\ (0 <= sd)%Q.
Proof.
  intros Hlen. unfold std.
  destruct (variance_nonneg obs Hlen) as (v & -> & Hv).
  unfold fsqrt. apply Qneg_false in Hv as Hn. rewrite Hn.
  eexists. split; [reflexivity|].
  rewrite Qred_correct. apply sqrtQ_nonneg. exact Hv.
Qed.

(** X7: wherever the middle band (which is the SMA_20 column again) is
    defined, the two outer bands are defined too and enclose it:
    lower <= middle <= upper; wherever it is undefined, so are they. *)
Theorem bollinger_bands (df : ref) (d : DataFrame) (close : Series)
    (h : heap) (i : nat) :
  h !! df = Some d ->
  column "Close" d = Some close ->
  (i < length close)%nat ->
  exists d' middle upper lower,
    calculate_metrics sqrtQ df h = Ok (df, <[df := d']> h) /\
    column "SMA_20" d' = Some middle /\
    column "BB_middle" d' = Some middle /\
    column "BB_upper" d' = Some upper /\
    column "BB_lower" d' = Some lower /\
    ((middle !! i = Some NaN /\ upper !! i = Some NaN /\
      lower !! i = Some NaN) \/
     (exists m u l,
        middle !! i = Some (Fin m) /\ upper !! i = Some (Fin u) /\
        lower !! i = Some (Fin l) /\
        (l <= m <= u)%Q)).
Proof.
  intros Hd Hc Hi.
  exists (with_metrics sqrtQ close d), (rolling_mean 20 close),
    (series_add (rolling_mean 20 close)
       (scalar_mul (Fin 2) (rolling_std sqrtQ 20 close))),
    (series_sub (rolling_mean 20 close)
       (scalar_mul (Fin 2) (rolling_std sqrtQ 20 close))).
  split; [apply calculate_metrics_run; assumption|].
  do 4 (split; [unfold with_metrics; cbv zeta; columns; reflexivity|]).
  unfold series_add, series_sub, scalar_mul, rolling_mean, rolling_std.
  rewrite !lookup_zip_with, map_fmap, list_lookup_fmap.
  rewrite !rolling_lookup by exact Hi. cbv zeta.
  set (obs := observations (window 20 i (prep_values close))).
  destruct (20 <=? length obs)%nat eqn:E.
  - right. apply Nat.leb_le in E.
    assert (Hne : obs <> []) by (destruct obs; simpl in E; [lia|discriminate]).
    destruct (std_nonneg obs) as (sd & Hsd & Hsd0); [lia|].
    rewrite mean_eq by exact Hne. rewrite Hsd.
    do 3 eexists. split; [reflexivity|].
    split; [reflexivity|]. split; [reflexivity|].
    rewrite !Qred_correct. split; lra.
  - left. auto.
Qed.

End Bands.

Lemma sqrt_floor_nonneg (q : Q) : (0 <= q)%Q -> (0 <= sqrt_floor q)%Q.
Proof.
  intros _. unfold sqrt_floor.
  apply Qle_shift_div_l; [reflexivity|]. rewrite Qmult_0_l.
  unfold Qle, inject_Z. simpl.
  match goal with
  | |- context [Z.sqrt ?a] => pose proof (Z.sqrt_nonneg a)
  end.
  lia.
Qed.

Lemma bollinger_bands_witness :
  exists d' middle upper lower,
    calculate_metrics sqrt_floor 1%positive band_heap
    = Ok (1%positive, <[1%positive := d']> band_heap) /\
    column "SMA_20" d' = Some middle /\
    column "BB_middle" d' = Some middle /\
    column "BB_upper" d' = Some upper /\
    column "BB_lower" d' = Some lower /\
    ((middle !! 19%nat = Some NaN /\ upper !! 19%nat = Some NaN /\
      lower !! 19%nat = Some NaN) \/
     (exists m u l,
        middle !! 19%nat = Some (Fin m) /\ upper !! 19%nat = Some (Fin u) /\
        lower !! 19%nat = Some (Fin l) /\
        (l <= m <= u)%Q)).
Proof.
  apply (bollinger_bands sqrt_floor sqrt_floor_nonneg 1%positive
           band_frame band_sample band_heap 19);
    [reflexivity | reflexivity | vm_compute; lia].
Defined.
(** ** Exponential averages: no warm-up, and gaps *)

Lemma ewm_loop_all_fin (alpha : Q) (xs : list float) (p : Q) :
  forallb is_fin xs = true ->
  forallb is_fin (ewm_loop alpha (Fin p) 1 xs) = true.
Proof.
  revert p. induction xs as [|x xs IH]; intros p Hfin; [reflexivity|].
  simpl in Hfin. apply andb_prop in Hfin. destruct Hfin as [Hx Hxs].
  destruct x as [| | |q]; try discriminate.
  cbn [ewm_loop].
  destruct (ewm_step_finite alpha p p q (Qeq_refl p)) as (p' & E & _).
  rewrite E. cbn [forallb is_fin andb]. apply IH. exact Hxs.
Qed.

Lemma ewm_mean_all_fin (span : Z) (s : Series) :
  forallb is_fin s = true -> forallb is_fin (ewm_mean span s) = true.
Proof.
  intros Hfin. unfold ewm_mean. rewrite prep_values_all_fin by exact Hfin.
  destruct s as [|x s]; [reflexivity|].
  simpl in Hfin. apply andb_prop in Hfin. destruct Hfin as [Hx Hs].
  destruct x as [| | |q]; try discriminate.
  cbn [forallb is_fin andb]. apply ewm_loop_all_fin. exact Hs.
Qed.

Lemma ewm_mean_head (span : Z) (s : Series) (q : Q) :
  s !! 0%nat = Some (Fin q) -> ewm_mean span s !! 0%nat = Some (Fin q).
Proof.
  destruct s as [|x s]; [discriminate|]. simpl. intros H.
  inversion H. subst x. reflexivity.
Qed.

Lemma series_sub_all_fin (a b : Series) :
  forallb is_fin a = true -> forallb is_fin b = true ->
  forallb is_fin (series_sub a b) = true.
Proof.
  unfold series_sub. revert b.
  induction a as [|x a IH]; intros b Ha Hb; [reflexivity|].
  destruct b as [|y b]; [reflexivity|].
  simpl in Ha, Hb. apply andb_prop in Ha. apply andb_prop in Hb.
  destruct Ha as [Hx Ha], Hb as [Hy Hb].
  destruct x, y; try discriminate.
  simpl. apply IH; assumption.
Qed.

Lemma fsub_self (q : Q) : fsub (Fin q) (Fin q) = Fin 0.
Proof.
  unfold fsub, fneg, fadd. change (Fin 0) with (fin 0). unfold fin at 2.
  apply fin_eq. rewrite Qred_correct. ring.
Qed.

Section MacdFacts.

Variable sqrtQ : Q -> Q.

(** X8: on a table whose Close cells are all finite the MACD and the
    Signal_Line have no warm-up period: every cell of both columns is
    finite, and both start at 0 in the first row. *)
Theorem macd_no_warm_up (df : ref) (d : DataFrame) (close : Series)
    (h : heap) :
  h !! df = Some d ->
  column "Close" d = Some close ->
  forallb is_fin close = true ->
  close <> [] ->
  exists d' macd signal,
    calculate_metrics sqrtQ df h = Ok (df, <[df := d']> h) /\
    column "MACD" d' = Some macd /\
    column "Signal_Line" d' = Some signal /\
    forallb is_fin macd = true /\
    forallb is_fin signal = true /\
    macd !! 0%nat = Some (Fin 0) /\
    signal !! 0%nat = Some (Fin 0).
Proof.
  intros Hd Hc Hfin Hne.
  set (macd := series_sub (ewm_mean 12 close) (ewm_mean 26 close)).
  exists (with_metrics sqrtQ close d), macd, (ewm_mean 9 macd).
  split; [apply calculate_metrics_run; assumption|].
  do 2 (split; [unfold with_metrics; cbv zeta; columns; reflexivity|]).
  assert (Hm : forallb is_fin macd = true).
  { apply series_sub_all_fin; apply ewm_mean_all_fin; exact Hfin. }
  assert (H0 : macd !! 0%nat = Some (Fin 0)).
  { destruct close as [|x close]; [contradiction|].
    simpl in Hfin. apply andb_prop in Hfin. destruct Hfin as [Hx _].
    destruct x as [| | |q]; try discriminate.
    unfold macd, series_sub. rewrite lookup_zip_with.
    rewrite !(ewm_mean_head _ _ q) by reflexivity.
    change (Some (fsub (Fin q) (Fin q)) = Some (Fin 0)).
    rewrite fsub_self. reflexivity. }
  split; [exact Hm|].
  split; [apply ewm_mean_all_fin; exact Hm|].
  split; [exact H0|]. apply ewm_mean_head. exact H0.
Qed.

End MacdFacts.

Lemma macd_no_warm_up_witness :
  exists d' macd signal,
    calculate_metrics sqrt_floor 1%positive sample_heap
    = Ok (1%positive, <[1%positive := d']> sample_heap) /\
    column "MACD" d' = Some macd /\
    column "Signal_Line" d' = Some signal /\
    forallb is_fin macd = true /\
    forallb is_fin signal = true /\
    macd !! 0%nat = Some (Fin 0) /\
    signal !! 0%nat = Some (Fin 0).
Proof.
  apply (macd_no_warm_up sqrt_floor 1%positive sample_frame
           [Fin 11; Fin 12; Fin 11] sample_heap);
    [reflexivity | reflexivity | reflexivity | discriminate].
Defined.

(** *** Gaps *)

Lemma ewm_step_gap (alpha : Q) (weighted : float) (old_wt : Q)
    (cur : float) :
  is_fin cur = false ->
  fst (ewm_step alpha weighted old_wt (if isinf cur then NaN else cur))
  = weighted.
Proof.
  intros Hcur. unfold ewm_step.
  destruct cur; try discriminate; simpl; destruct (isnan weighted);
    reflexivity.
Qed.

Lemma ewm_loop_gap (alpha : Q) (vals : Series) (weighted : float)
    (old_wt : Q) (i : nat) (x : float) :
  vals !! S i = Some x -> is_fin x = false ->
  ewm_loop alpha weighted old_wt (prep_values vals) !! S i
  = ewm_loop alpha weighted old_wt (prep_values vals) !! i.
Proof.
  revert vals weighted old_wt.
  induction i as [|i IH]; intros vals weighted old_wt Hx Hfin.
  - destruct vals as [|v0 [|v1 rest]]; try discriminate.
    simpl in Hx. inversion Hx; subst v1.
    cbn [prep_values map ewm_loop].
    destruct (ewm_step alpha weighted old_wt
                (if isinf v0 then NaN else v0)) as [w1 o1] eqn:E1.
    pose proof (ewm_step_gap alpha w1 o1 x Hfin) as G.
    destruct (ewm_step alpha w1 o1 (if isinf x then NaN else x))
      as [w2 o2].
    simpl in G. subst w2. reflexivity.
  - destruct vals as [|v0 rest]; [discriminate|].
    cbn [prep_values map ewm_loop].
    destruct (ewm_step alpha weighted old_wt
                (if isinf v0 then NaN else v0)) as [w1 o1].
    change ((w1 :: ?l) !! S (S i)) with (l !! S i).
    change ((w1 :: ?l) !! S i) with (l !! i).
    apply (IH rest w1 o1); assumption.
Qed.

(** X9: a missing (or infinite) cell after the first row leaves an
    exponential average where it was: the average at that position is
    the average of the position before. *)
Theorem ewm_mean_gap_carries (span : Z) (s : Series) (i : nat) (x : float) :
  s !! S i = Some x ->
  is_fin x = false ->
  ewm_mean span s !! S i = ewm_mean span s !! i.
Proof.
  intros Hx Hfin. unfold ewm_mean.
  destruct s as [|v0 rest]; [discriminate|].
  cbn [prep_values map].
  change (map (fun x => if isinf x then NaN else x) rest)
    with (prep_values rest).
  destruct i as [|i].
  - destruct rest as [|v1 rest]; [discriminate|].
    simpl in Hx. inversion Hx; subst v1.
    cbn [prep_values map ewm_loop].
    pose proof (ewm_step_gap (ewm_alpha span)
                  (if isinf v0 then NaN else v0) 1 x Hfin) as G.
    destruct (ewm_step (ewm_alpha span) (if isinf v0 then NaN else v0) 1
                (if isinf x then NaN else x)) as [w1 o1].
    simpl in G. subst w1. reflexivity.
  - change ((?a :: ?l) !! S (S i)) with (l !! S i).
    change ((?a :: ?l) !! S i) with (l !! i).
    apply (ewm_loop_gap _ rest _ _ i x); assumption.
Qed.

Lemma ewm_mean_gap_carries_witness :
  ewm_mean 12 [Fin 11; Fin 12; NaN; Fin 11] !! 2%nat
  = ewm_mean 12 [Fin 11; Fin 12; NaN; Fin 11] !! 1%nat.
Proof.
  apply (ewm_mean_gap_carries 12 [Fin 11; Fin 12; NaN; Fin 11] 1 NaN);
    reflexivity.
Defined.
(** ** The RSI of falling prices, and its closed form *)

Lemma nonincreasing_lookup (s : Series) (j : nat) (x y : float) :
  nonincreasing s = true ->
  s !! j = Some x -> s !! S j = Some y -> fleb y x = true.
Proof.
  revert j. induction s as [|a s IH]; intros j Hs Hx Hy; [discriminate|].
  destruct s as [|b s]; [discriminate|].
  simpl in Hs. apply andb_prop in Hs. destruct Hs as [Hab Hs].
  destruct j as [|j].
  - simpl in Hx, Hy. congruence.
  - exact (IH j Hs Hx Hy).
Qed.

Lemma decreasing_lookup (s : Series) (j : nat) (x y : float) :
  decreasing s = true ->
  s !! j = Some x -> s !! S j = Some y -> fltb y x = true.
Proof.
  revert j. induction s as [|a s IH]; intros j Hs Hx Hy; [discriminate|].
  destruct s as [|b s]; [discriminate|].
  simpl in Hs. apply andb_prop in Hs. destruct Hs as [Hab Hs].
  destruct j as [|j].
  - simpl in Hx, Hy. congruence.
  - exact (IH j Hs Hx Hy).
Qed.

Lemma decreasing_nonincreasing (s : Series) :
  decreasing s = true -> nonincreasing s = true.
Proof.
  induction s as [|a s IH]; [reflexivity|].
  destruct s as [|b s]; [reflexivity|].
  simpl. intros H. apply andb_prop in H. destruct H as [Hab Hs].
  apply andb_true_intro. split.
  - unfold fleb. rewrite Hab. reflexivity.
  - exact (IH Hs).
Qed.

(** A step down is not a gain. *)
Lemma fsub_not_positive (x y : float) :
  fleb y x = true -> fgtb (fsub y x) (Fin 0) = false.
Proof.
  unfold fleb, fsub, fgtb.
  destruct x as [| | |a], y as [| | |b]; simpl; try discriminate;
    try reflexivity.
  intros H. apply negb_false_iff, Qle_bool_iff.
  rewrite !Qred_correct.
  apply orb_true_iff in H. destruct H as [H | H].
  - apply negb_true_iff, Qle_bool_false in H. lra.
  - apply Qeq_bool_iff in H. lra.
Qed.

(** A strict step down between finite cells is a finite, positive loss. *)
Lemma fsub_negative (a b : Q) :
  fltb (Fin b) (Fin a) = true ->
  exists q, fneg (if fltb (fsub (Fin b) (Fin a)) (Fin 0)
                  then fsub (Fin b) (Fin a) else Fin 0) = Fin q /\
            (0 < q)%Q.
Proof.
  simpl. intros H. apply negb_true_iff, Qle_bool_false in H.
  assert (E : Qle_bool 0 (Qred (b + Qred (- a))) = false).
  { apply Qle_bool_false. rewrite !Qred_correct. lra. }
  rewrite E. simpl. eexists. split; [reflexivity|].
  rewrite !Qred_correct. lra.
Qed.

Lemma gain_input_zero (prices : Series) :
  nonincreasing prices = true ->
  Forall (eq (Fin 0))
    (map (fun x => if fgtb x (Fin 0) then x else Fin 0) (diff prices)).
Proof.
  intros Hmono. rewrite map_fmap. apply Forall_fmap, Forall_lookup.
  intros i d Hd.
  change (Fin 0 = (if fgtb d (Fin 0) then d else Fin 0)).
  assert (E : fgtb d (Fin 0) = false).
  { destruct (diff_lookup_inv _ _ _ Hd)
      as [[_ ->] | (j & x & y & _ & Hx & Hy & ->)]; [reflexivity|].
    apply fsub_not_positive. eapply nonincreasing_lookup; eassumption. }
  rewrite E. reflexivity.
Qed.

Lemma loss_input_decreasing (prices : Series) :
  decreasing prices = true ->
  forallb is_fin prices = true ->
  let loss := map (fun x => fneg (if fltb x (Fin 0) then x else Fin 0))
                (diff prices) in
  forallb is_fin loss = true /\
  forall i, (0 < i < length prices)%nat ->
            exists q, loss !! i = Some (Fin q) /\ (0 < q)%Q.
Proof.
  intros Hdec Hfin loss.
  assert (Hstep : forall j d, diff prices !! S j = Some d ->
            exists q, fneg (if fltb d (Fin 0) then d else Fin 0) = Fin q /\
                      (0 < q)%Q).
  { intros j d Hd.
    destruct (diff_lookup_inv _ _ _ Hd)
      as [[E _] | (k & x & y & E & Hx & Hy & ->)]; [discriminate|].
    inversion E; subst k.
    pose proof (decreasing_lookup _ _ _ _ Hdec Hx Hy) as Hlt.
    pose proof (forallb_lookup _ _ _ _ Hfin Hx) as Fx.
    pose proof (forallb_lookup _ _ _ _ Hfin Hy) as Fy.
    destruct x as [| | |a]; try discriminate.
    destruct y as [| | |b]; try discriminate.
    apply fsub_negative, Hlt. }
  split.
  - apply forallb_Forall. unfold loss. rewrite map_fmap.
    apply Forall_fmap, Forall_lookup. intros i d Hd.
    change (is_fin (fneg (if fltb d (Fin 0) then d else Fin 0)) = true).
    destruct i as [|j].
    + destruct (diff_lookup_inv _ _ _ Hd)
        as [[_ ->] | (k & _ & _ & E & _)]; [reflexivity | discriminate].
    + destruct (Hstep j d Hd) as (q & -> & _). reflexivity.
  - intros i [Hi0 Hi]. destruct i as [|j]; [lia|].
    destruct (lookup_lt_is_Some_2 (diff prices) (S j)) as [d Hd];
      [rewrite length_diff; exact Hi|].
    destruct (Hstep j d Hd) as (q & Hq & Hqpos).
    exists q. split; [|exact Hqpos].
    unfold loss. rewrite map_fmap, list_lookup_fmap, Hd.
    cbn [fmap option_fmap option_map]. rewrite Hq. reflexivity.
Qed.

Lemma rsi_value_zero_gain (b : Q) :
  (0 <= b)%Q ->
  rsi_value (Fin 0) (Fin b) = NaN \/ rsi_value (Fin 0) (Fin b) = Fin 0.
Proof.
  intros Hb. unfold rsi_value.
  destruct (Qzero b) eqn:Zb.
  - left. unfold fdiv at 2. rewrite Zb. reflexivity.
  - right.
    assert (E : fdiv (Fin 0) (Fin b) = Fin 0).
    { unfold fdiv. rewrite Zb. change (Fin 0) with (fin 0).
      apply fin_eq. unfold Qdiv. apply Qmult_0_l. }
    rewrite E. reflexivity.
Qed.

Lemma rsi_value_zero_gain_pos (b : Q) :
  (0 < b)%Q -> rsi_value (Fin 0) (Fin b) = Fin 0.
Proof.
  intros Hb.
  destruct (rsi_value_zero_gain b (Qlt_le_weak _ _ Hb)) as [E | E];
    [|exact E].
  exfalso. unfold rsi_value in E.
  assert (Zb : Qzero b = false).
  { apply Qzero_false. intros H. rewrite H in Hb. exact (Qlt_irrefl _ Hb). }
  assert (E' : fdiv (Fin 0) (Fin b) = Fin 0).
  { unfold fdiv. rewrite Zb. change (Fin 0) with (fin 0).
    apply fin_eq. unfold Qdiv. apply Qmult_0_l. }
  rewrite E' in E. discriminate E.
Qed.

(** X10: the mirror image of the rising case.  On a series that never
    steps up every defined value of the RSI is exactly 0, and on a
    finite, strictly decreasing series the value is defined, and 0, at
    every position from the fourteenth on. *)
Theorem rsi_falling (prices : Series) (i : nat) (y : float) :
  calculate_rsi prices 14 !! i = Some y ->
  (nonincreasing prices = true -> y = NaN \/ y = Fin 0) /\
  (decreasing prices = true -> forallb is_fin prices = true ->
   (13 <= i)%nat -> y = Fin 0).
Proof.
  intros Hy. apply rsi_lookup_Some in Hy.
  destruct Hy as (g & l & Hg & Hl & ->).
  assert (Hp : (0 < 14)%nat) by lia.
  pose proof (rsi_loss_nonneg _ _ _ _ Hp Hl) as Nl.
  split.
  - intros Hmono. rewrite rsi_gain_eq in Hg.
    destruct (rolling_mean_zero _ _ _ _ Hp (gain_input_zero _ Hmono) Hg)
      as [-> | ->].
    + left. apply rsi_value_nan_l.
    + destruct Nl as [-> | (b & -> & Hb)].
      * left. apply rsi_value_nan_r.
      * apply rsi_value_zero_gain, Hb.
  - intros Hdec Hfin Hi.
    assert (Hlen : (i < length prices)%nat).
    { apply lookup_lt_Some in Hg. rewrite length_rsi_gain in Hg. exact Hg. }
    pose proof (decreasing_nonincreasing _ Hdec) as Hmono.
    rewrite rsi_gain_eq in Hg.
    pose proof (gain_input_zero _ Hmono) as Hzero.
    destruct (rolling_mean_zero _ _ _ _ Hp Hzero Hg) as [-> | ->].
    { rewrite rolling_mean_full in Hg;
        [ discriminate | lia | lia
          | rewrite length_map, length_diff; exact Hlen
          | apply all_zero_fin, Hzero ]. }
    clear Hg Hzero.
    rewrite rsi_loss_eq in Hl.
    destruct (loss_input_decreasing _ Hdec Hfin) as [Lfin Lpos].
    rewrite rolling_mean_full in Hl;
      [ | lia | lia | rewrite length_map, length_diff; exact Hlen
        | exact Lfin ].
    destruct (Lpos i) as (q & Hq & Hqpos); [lia|].
    set (L := map (fun x => fneg (if fltb x (Fin 0) then x else Fin 0))
                (diff prices)) in *.
    set (obs := observations (window 14 i L)) in *.
    assert (Hin : q ∈ obs).
    { apply elem_of_observations. apply window_last; [lia | exact Hq]. }
    assert (Hall : forall p, p ∈ obs -> (0 <= p)%Q).
    { intros p Hp'. apply elem_of_observations, elem_of_window in Hp'.
      assert (HL : Forall nonneg_cell L).
      { unfold L. rewrite map_fmap. apply Forall_fmap, Forall_forall.
        intros x _. apply loss_input_nonneg. }
      rewrite Forall_forall in HL.
      destruct (HL _ Hp') as [E | (p' & E & Hp'')]; [discriminate|].
      inversion E; subst. exact Hp''. }
    pose proof (Qsum_ge_elem obs q Hall Hin) as Hsum.
    assert (Hne : obs <> []) by (intros E; rewrite E in Hin; inversion Hin).
    pose proof (Qlen_pos obs Hne) as Hlenpos.
    inversion Hl as [El].
    apply rsi_value_zero_gain_pos. rewrite Qred_correct.
    apply Qlt_shift_div_l; [exact Hlenpos|]. lra.
Qed.

Lemma rsi_falling_witness :
  (Fin 0 = NaN \/ Fin 0 = Fin 0) /\ Fin 0 = Fin 0.
Proof.
  destruct (rsi_falling
              (map (fun n => Fin (inject_Z (30 - Z.of_nat n))) (seq 1 15))
              14 (Fin 0)) as (H1 & H2).
  - vm_compute; reflexivity.
  - split.
    + apply H1. vm_compute; reflexivity.
    + apply H2; [vm_compute; reflexivity | vm_compute; reflexivity | lia].
Defined.

(** The value in the arithmetic of the model, as one quotient. *)
Lemma rsi_quotient (prices : Series) (i : nat) (g l : Q) :
  rsi_gain prices 14 !! i = Some (Fin g) ->
  rsi_loss prices 14 !! i = Some (Fin l) ->
  ((g + l == 0)%Q -> calculate_rsi prices 14 !! i = Some NaN) /\
  (~ (g + l == 0)%Q ->
   exists y, calculate_rsi prices 14 !! i = Some (Fin y) /\
             (y == 100 * g / (g + l))%Q).
Proof.
  intros Hg Hl.
  assert (Hp : (0 < 14)%nat) by lia.
  destruct (rsi_gain_nonneg _ _ _ _ Hp Hg) as [E | (g' & E & Hg0)];
    [discriminate|]. inversion E; subst g'; clear E.
  destruct (rsi_loss_nonneg _ _ _ _ Hp Hl) as [E | (l' & E & Hl0)];
    [discriminate|]. inversion E; subst l'; clear E.
  assert (Hrsi : calculate_rsi prices 14 !! i
                 = Some (rsi_value (Fin g) (Fin l))).
  { apply rsi_lookup_Some. exists (Fin g), (Fin l). auto. }
  rewrite Hrsi. split.
  - intros Hz. f_equal.
    assert (Zg : Qzero g = true) by (apply Qzero_true; lra).
    assert (Zl : Qzero l = true) by (apply Qzero_true; lra).
    unfold rsi_value, fdiv at 2. rewrite Zl, Zg. reflexivity.
  - intros Hnz. destruct (Qzero l) eqn:Zl.
    + apply Qzero_true in Zl.
      assert (Hgpos : (0 < g)%Q).
      { apply Qle_lteq in Hg0. destruct Hg0 as [H|H]; [exact H|].
        exfalso. apply Hnz. rewrite <- H, Zl. reflexivity. }
      assert (Zg : Qzero g = false).
      { apply Qzero_false. intros H. rewrite H in Hgpos.
        exact (Qlt_irrefl _ Hgpos). }
      assert (Ng : Qneg g = false) by (apply Qneg_false, Hg0).
      exists 100%Q. split.
      * f_equal. unfold rsi_value, fdiv at 2.
        assert (Qzero l = true) as -> by (apply Qzero_true, Zl).
        rewrite Zg, Ng. reflexivity.
      * rewrite Zl. field. intros H. apply Hnz. rewrite Zl. lra.
    + apply Qzero_false in Zl as Hl1.
      assert (Hlpos : (0 < l)%Q).
      { apply Qle_lteq in Hl0. destruct Hl0 as [H|H]; [exact H|].
        exfalso. apply Hl1. symmetry. exact H. }
      set (r := Qred (g / l)).
      assert (Hr : (r == g / l)%Q) by apply Qred_correct.
      assert (Hr0 : (0 <= r)%Q).
      { rewrite Hr. apply Qle_shift_div_l; [exact Hlpos|]. lra. }
      set (u := Qred (1 + r)).
      assert (Hu : (u == 1 + r)%Q) by apply Qred_correct.
      assert (Zu : Qzero u = false).
      { apply Qzero_false. intros E. rewrite E in Hu. lra. }
      set (t := Qred (100 / u)).
      eexists. split.
      * f_equal. unfold rsi_value, fdiv at 2. rewrite Zl.
        unfold fin at 1. fold r. unfold fadd at 1, fin at 1. fold u.
        unfold fdiv. rewrite Zu. unfold fin at 1. fold t. reflexivity.
      * rewrite !Qred_correct. unfold t. rewrite Qred_correct, Hu, Hr.
        field. split; [lra|]. intros H. apply Hnz. lra.
Qed.

(** X11: the RSI sits on the side of 50 that the averages say: where it
    is defined, it is at least 50 when the average gain is at least the
    average loss, and at most 50 when the average gain is at most the
    average loss. *)
Theorem rsi_side_of_fifty (prices : Series) (i : nat) (g l y : Q) :
  rsi_gain prices 14 !! i = Some (Fin g) ->
  rsi_loss prices 14 !! i = Some (Fin l) ->
  calculate_rsi prices 14 !! i = Some (Fin y) ->
  ((l <= g)%Q -> (50 <= y)%Q) /\ ((g <= l)%Q -> (y <= 50)%Q).
Proof.
  intros Hg Hl Hy.
  assert (Hp : (0 < 14)%nat) by lia.
  destruct (rsi_gain_nonneg _ _ _ _ Hp Hg) as [E | (g' & E & Hg0)];
    [discriminate|]. inversion E; subst g'; clear E.
  destruct (rsi_loss_nonneg _ _ _ _ Hp Hl) as [E | (l' & E & Hl0)];
    [discriminate|]. inversion E; subst l'; clear E.
  destruct (rsi_quotient prices i g l Hg Hl) as [Hzero Hquot].
  assert (Hsum : (0 < g + l)%Q).
  { destruct (Qlt_le_dec 0 (g + l)) as [H|H]; [exact H|].
    assert (Hz : (g + l == 0)%Q) by lra.
    rewrite (Hzero Hz) in Hy. discriminate. }
  destruct Hquot as (y' & Hy' & Eq); [lra|].
  rewrite Hy in Hy'. inversion Hy'; subst y'; clear Hy'.
  assert (Hmul : (y * (g + l) == 100 * g)%Q).
  { rewrite Eq. field. lra. }
  split; intros Hle.
  - apply Qnot_lt_le. intros Hlt.
    assert ((y * (g + l) < 50 * (g + l))%Q)
      by (apply Qmult_lt_compat_r; assumption).
    lra.
  - apply Qnot_lt_le. intros Hlt.
    assert ((50 * (g + l) < y * (g + l))%Q)
      by (apply Qmult_lt_compat_r; assumption).
    lra.
Qed.

Lemma rsi_side_of_fifty_witness :
  (50 <= 1500 # 17)%Q /\ (25 # 2 <= 50)%Q.
Proof.
  split.
  - apply (proj1 (rsi_side_of_fifty mostly_rising 13 (15 # 14) (1 # 7)
                    (1500 # 17) eq_refl eq_refl eq_refl)).
    vm_compute. discriminate.
  - apply (proj2 (rsi_side_of_fifty mostly_falling 13 (1 # 7) 1
                    (25 # 2) eq_refl eq_refl eq_refl)).
    vm_compute. discriminate.
Defined.
(** ** [calculate_metrics]: errors, shape, and what the columns depend on *)

(** The sample tables have distinct column labels. *)
Lemma sample_frame_labels : NoDup (column_names sample_frame).
Proof. apply (bool_decide_unpack _). vm_compute. reflexivity. Defined.

Lemma sample_indicator_labels :
  NoDup (column_names
           (with_metrics sqrt_floor [Fin 11; Fin 12; Fin 11] sample_frame)).
Proof. apply (bool_decide_unpack _). vm_compute. reflexivity. Defined.

Lemma open_only_labels : NoDup (column_names open_only_frame).
Proof. apply (bool_decide_unpack _). vm_compute. reflexivity. Defined.

Lemma assoc_elem_of {V : Type} (key : string) (l : list (string * V))
    (v : V) :
  assoc key l = Some v -> (key, v) ∈ l.
Proof.
  induction l as [|[k u] l IH]; simpl; [discriminate|].
  destruct (String.eqb_spec k key) as [->|_].
  - intros H. inversion H. left.
  - intros H. right. exact (IH H).
Qed.

Lemma rectangular_column (d : DataFrame) (key : string) (s : Series) :
  rectangular d -> column key d = Some s ->
  length s = length (df_index d).
Proof.
  unfold rectangular, column. intros Hd Hs.
  apply assoc_elem_of in Hs. rewrite Forall_forall in Hd.
  exact (Hd _ Hs).
Qed.

Lemma rectangular_with_column (d : DataFrame) (key : string) (s : Series) :
  rectangular d -> length s = length (df_index d) ->
  rectangular (with_column key s d).
Proof.
  unfold rectangular, with_column. simpl. intros Hd Hs.
  induction (df_columns d) as [|[k v] cols IH]; simpl.
  - constructor; [exact Hs | constructor].
  - inversion Hd; subst. destruct (String.eqb k key).
    + constructor; assumption.
    + constructor; [assumption | apply IH; assumption].
Qed.

Lemma names_with_column_fresh (d : DataFrame) (key : string) (s : Series) :
  key ∉ column_names d ->
  column_names (with_column key s d) = column_names d ++ [key].
Proof.
  unfold column_names, with_column. simpl. intros Hk.
  rewrite names_set_column.
  destruct (existsb (String.eqb key) (map fst (df_columns d))) eqn:E;
    [|reflexivity].
  exfalso. apply Hk. apply existsb_exists in E.
  destruct E as (x & Hx & Ex). apply String.eqb_eq in Ex. subst x.
  apply list_elem_of_In, Hx.
Qed.

Lemma names_with_column_append (d : DataFrame) (key : string) (s : Series)
    (names : list string) :
  column_names d = names -> key ∉ names ->
  column_names (with_column key s d) = names ++ [key].
Proof.
  intros <- Hk. apply names_with_column_fresh, Hk.
Qed.

Section MetricsMore.

Variable sqrtQ : Q -> Q.

(** X12: on a table whose column labels are distinct, [calculate_metrics]
    raises exactly when the table has no Close column, and then it is
    the [KeyError] of the first statement; with a Close column the table
    is always processed, whatever other columns it has or lacks. *)
Theorem calculate_metrics_raises_iff (df : ref) (d : DataFrame) (h : heap) :
  h !! df = Some d ->
  NoDup (column_names d) ->
  (column "Close" d = None <->
   calculate_metrics sqrtQ df h = Raise (KeyError "Close")) /\
  (column "Close" d <> None <->
   exists h', calculate_metrics sqrtQ df h = Ok (df, h')).
Proof.
  intros Hd _. destruct (column "Close" d) as [close|] eqn:Hc.
  - rewrite (calculate_metrics_run sqrtQ df d close h Hd Hc). split.
    + split; discriminate.
    + split; [intros _; eexists; reflexivity | discriminate].
  - rewrite (calculate_metrics_no_close sqrtQ df d h Hd Hc). split.
    + split; reflexivity.
    + split; [congruence | intros [h' H]; discriminate].
Qed.

(** X13: [calculate_metrics] keeps a table rectangular: if every column
    has one cell per row, so has every column afterwards, the eight
    derived ones included, and the index is the one it was. *)
Theorem calculate_metrics_rectangular (df : ref) (d : DataFrame)
    (close : Series) (h : heap) :
  h !! df = Some d ->
  column "Close" d = Some close ->
  rectangular d ->
  exists d',
    calculate_metrics sqrtQ df h = Ok (df, <[df := d']> h) /\
    df_index d' = df_index d /\
    rectangular d' /\
    (forall key s, key ∈ derived_columns -> column key d' = Some s ->
                   length s = length (df_index d)).
Proof.
  intros Hd Hc Hrect. exists (with_metrics sqrtQ close d).
  split; [apply calculate_metrics_run; assumption|].
  split; [reflexivity|].
  pose proof (rectangular_column d _ _ Hrect Hc) as Hlen.
  assert (R : rectangular (with_metrics sqrtQ close d)).
  { unfold with_metrics. cbv zeta.
    repeat (apply rectangular_with_column;
            [| cbn [df_index with_column];
               unfold series_sub, series_add, scalar_mul, rolling_mean,
                 rolling_std;
               rewrite ?length_zip_with, ?length_map, ?length_rolling,
                 ?length_ewm_mean, ?length_zip_with, ?length_ewm_mean,
                 ?length_calculate_rsi, ?Hlen; lia]).
    exact Hrect. }
  split; [exact R|].
  intros key s _ Hs. apply (rectangular_column _ _ _ R Hs).
Qed.

(** X14: the derived columns are computed from Close alone: two tables
    with the same Close column come out with the same eight derived
    columns, whatever their other columns hold (stale derived columns
    included). *)
Theorem calculate_metrics_close_only (df1 df2 : ref) (d1 d2 : DataFrame)
    (close : Series) (h1 h2 : heap) :
  h1 !! df1 = Some d1 ->
  h2 !! df2 = Some d2 ->
  column "Close" d1 = Some close ->
  column "Close" d2 = Some close ->
  exists d1' d2',
    calculate_metrics sqrtQ df1 h1 = Ok (df1, <[df1 := d1']> h1) /\
    calculate_metrics sqrtQ df2 h2 = Ok (df2, <[df2 := d2']> h2) /\
    forall key, key ∈ derived_columns ->
                column key d1' = column key d2' /\
                is_Some (column key d1').
Proof.
  intros Hd1 Hd2 Hc1 Hc2.
  exists (with_metrics sqrtQ close d1), (with_metrics sqrtQ close d2).
  split; [apply calculate_metrics_run; assumption|].
  split; [apply calculate_metrics_run; assumption|].
  unfold derived_columns. intros key Hk.
  repeat (apply elem_of_cons in Hk; destruct Hk as [-> | Hk]);
    try (unfold with_metrics; cbv zeta; columns;
         split; [reflexivity | eexists; reflexivity]).
  inversion Hk.
Qed.

(** X15: on a table that has none of the derived columns yet, the eight
    columns are appended after the existing ones, in the order of the
    assignments. *)
Theorem calculate_metrics_appends (df : ref) (d : DataFrame)
    (close : Series) (h : heap) :
  h !! df = Some d ->
  column "Close" d = Some close ->
  (forall key, key ∈ derived_columns -> key ∉ column_names d) ->
  exists d',
    calculate_metrics sqrtQ df h = Ok (df, <[df := d']> h) /\
    column_names d' = column_names d ++ derived_columns.
Proof.
  intros Hd Hc Hfresh. exists (with_metrics sqrtQ close d).
  split; [apply calculate_metrics_run; assumption|].
  assert (E : column_names d ++ derived_columns
              = (((((((column_names d ++ ["SMA_20"]) ++ ["SMA_50"])
                     ++ ["RSI"]) ++ ["MACD"]) ++ ["Signal_Line"])
                  ++ ["BB_middle"]) ++ ["BB_upper"]) ++ ["BB_lower"])
    by (rewrite <- !app_assoc; reflexivity).
  rewrite E. unfold with_metrics. cbv zeta.
  repeat (apply names_with_column_append;
          [| intros Hin;
             rewrite ?elem_of_app, ?list_elem_of_singleton in Hin;
             repeat match goal with
                    | H : _ \/ _ |- _ => destruct H as [H | H]
                    end; try discriminate;
             match goal with H : _ ∈ column_names d |- _ => revert H end;
             apply Hfresh; unfold derived_columns; set_solver ]).
  reflexivity.
Qed.

End MetricsMore.

Lemma calculate_metrics_raises_iff_witness :
  (exists h', calculate_metrics sqrt_floor 1%positive sample_heap
              = Ok (1%positive, h')) /\
  calculate_metrics sqrt_floor 1%positive open_only_heap
  = Raise (KeyError "Close").
Proof.
  split.
  - apply (proj1 (proj2 (calculate_metrics_raises_iff sqrt_floor
                           1%positive sample_frame sample_heap eq_refl
                           sample_frame_labels))).
    discriminate.
  - apply (proj1 (proj1 (calculate_metrics_raises_iff sqrt_floor
                           1%positive open_only_frame open_only_heap
                           eq_refl open_only_labels))).
    reflexivity.
Defined.

Lemma sample_frame_rectangular : rectangular sample_frame.
Proof. unfold rectangular. simpl. repeat constructor. Qed.

Lemma calculate_metrics_rectangular_witness :
  exists d',
    calculate_metrics sqrt_floor 1%positive sample_heap
    = Ok (1%positive, <[1%positive := d']> sample_heap) /\
    df_index d' = df_index sample_frame /\
    rectangular d' /\
    (forall key s, key ∈ derived_columns -> column key d' = Some s ->
                   length s = length (df_index sample_frame)).
Proof.
  apply (calculate_metrics_rectangular sqrt_floor 1%positive sample_frame
           [Fin 11; Fin 12; Fin 11] sample_heap);
    [reflexivity | reflexivity | exact sample_frame_rectangular].
Defined.

Lemma calculate_metrics_close_only_witness :
  exists d1' d2',
    calculate_metrics sqrt_floor 1%positive sample_heap
    = Ok (1%positive, <[1%positive := d1']> sample_heap) /\
    calculate_metrics sqrt_floor 2%positive {[ 2%positive := stale_frame ]}
    = Ok (2%positive,
          <[2%positive := d2']> {[ 2%positive := stale_frame ]}) /\
    forall key, key ∈ derived_columns ->
                column key d1' = column key d2' /\
                is_Some (column key d1').
Proof.
  apply (calculate_metrics_close_only sqrt_floor 1%positive 2%positive
           sample_frame stale_frame [Fin 11; Fin 12; Fin 11]);
    reflexivity.
Defined.

Lemma calculate_metrics_appends_witness :
  exists d',
    calculate_metrics sqrt_floor 1%positive sample_heap
    = Ok (1%positive, <[1%positive := d']> sample_heap) /\
    column_names d' = column_names sample_frame ++ derived_columns.
Proof.
  apply (calculate_metrics_appends sqrt_floor 1%positive sample_frame
           [Fin 11; Fin 12; Fin 11] sample_heap);
    [reflexivity | reflexivity |].
  intros key Hk Hin.
  apply list_elem_of_In in Hk. apply list_elem_of_In in Hin.
  simpl in Hk, Hin.
  repeat match goal with
         | H : _ \/ _ |- _ => destruct H as [H | H]
         end; try contradiction; subst; discriminate.
Defined.
(** ** [create_price_chart]: errors and what it leaves alone *)

Lemma read_only_ret {A : Type} (a : A) : read_only (mret a).
Proof. intros h a' h' H. inversion H. reflexivity. Qed.

Lemma read_only_bind {A B : Type} (m : M A) (f : A -> M B) :
  read_only m -> (forall a, read_only (f a)) -> read_only (m ≫= f).
Proof.
  intros Hm Hf h b h' H. rewrite bind_run in H.
  destruct (m h) as [[a h1]|] eqn:E; [|discriminate].
  apply Hm in E. subst h1. exact (Hf a _ _ _ H).
Qed.

Lemma read_only_deref (df : ref) : read_only (deref df).
Proof.
  intros h a h' H. unfold deref in H.
  destruct (h !! df); inversion H. reflexivity.
Qed.

Lemma read_only_getitem (df : ref) (key : string) :
  read_only (getitem df key).
Proof.
  unfold getitem. apply read_only_bind; [apply read_only_deref|].
  intros d. destruct (column key d).
  - apply read_only_ret.
  - intros h a h' H. discriminate.
Qed.

Lemma read_only_lift {A : Type} (r : result A) : read_only (lift r).
Proof.
  intros h a h' H. unfold lift in H. destruct r; inversion H. reflexivity.
Qed.

(** X16: [create_price_chart] never changes a table: whenever it returns,
    the heap is the one it was called on. *)
Theorem create_price_chart_read_only (df : ref) (symbol : string) :
  read_only (create_price_chart df symbol).
Proof.
  unfold create_price_chart.
  repeat first [ apply read_only_ret
               | apply read_only_lift
               | apply read_only_deref
               | apply read_only_getitem
               | apply read_only_bind; [|intros ?] ].
Qed.

Lemma create_price_chart_read_only_witness :
  match create_price_chart 1%positive "TCS.NS" sample_indicator_heap with
  | Ok (_, h') => h' = sample_indicator_heap
  | Raise _ => False
  end.
Proof.
  destruct (create_price_chart 1%positive "TCS.NS" sample_indicator_heap)
    as [[fig h']|e] eqn:E.
  - exact (create_price_chart_read_only 1%positive "TCS.NS"
             sample_indicator_heap fig h' E).
  - vm_compute in E. discriminate E.
Defined.

Ltac chart_steps Hd :=
  repeat (rewrite bind_run;
          first [ rewrite (deref_run _ _ _ Hd)
                | erewrite getitem_read by eassumption
                | erewrite getitem_missing by eassumption
                | erewrite lift_run by (vm_compute; reflexivity) ]).

(** The run on a table that has the ten columns: the traces and their
    cells. *)
Lemma create_price_chart_traces (df : ref) (d : DataFrame)
    (symbol : string) (h : heap) :
  h !! df = Some d ->
  indicator_table d = true ->
  exists fig open high low close upper lower sma20 sma50 volume rsi,
    create_price_chart df symbol h = Ok (fig, h) /\
    column "Open" d = Some open /\ column "High" d = Some high /\
    column "Low" d = Some low /\ column "Close" d = Some close /\
    column "BB_upper" d = Some upper /\ column "BB_lower" d = Some lower /\
    column "SMA_20" d = Some sma20 /\ column "SMA_50" d = Some sma50 /\
    column "Volume" d = Some volume /\ column "RSI" d = Some rsi /\
    map fst (fig_data fig)
    = [ Candlestick (df_index d) open high low close "Price";
        Scatter (df_index d) upper "Upper Band"
          (mkLine "rgba(173, 204, 255, 0.3)" None) None;
        Scatter (df_index d) lower "Lower Band"
          (mkLine "rgba(173, 204, 255, 0.3)" None)
          (Some ("tonexty", "rgba(173, 204, 255, 0.1)"));
        Scatter (df_index d) sma20 "20-Day MA"
          (mkLine "#00FF9D" (Some 1.5%Q)) None;
        Scatter (df_index d) sma50 "50-Day MA"
          (mkLine "#FF4B4B" (Some 1.5%Q)) None;
        Bar (df_index d) volume "Volume" (volume_colors close open) 0.8%Q;
        Scatter (df_index d) rsi "RSI"
          (mkLine "#00FF9D" (Some 1.5%Q)) None ] /\
    fig_rows fig = 3%nat /\
    map hl_y (fig_hlines fig) = [70; 30]%Q.
Proof.
  intros Hd Hcols. unfold indicator_table in Hcols. simpl in Hcols.
  repeat (apply andb_prop in Hcols; destruct Hcols as [?H Hcols]).
  repeat match goal with
         | H : has_column d _ = true |- _ =>
             apply has_column_Some in H; destruct H as [? ?]
         end.
  do 11 eexists. split.
  - unfold create_price_chart. chart_steps Hd. reflexivity.
  - repeat (split; [eassumption|]). repeat split; reflexivity.
Qed.

Lemma create_price_chart_missing (df : ref) (d : DataFrame)
    (symbol : string) (h : heap) (key : string) :
  h !! df = Some d ->
  first_missing d = Some key ->
  create_price_chart df symbol h = Raise (KeyError key).
Proof.
  intros Hd. unfold first_missing, has_column, chart_columns. cbn [find].
  repeat match goal with
         | |- context [column ?k d] =>
             let E := fresh "E" in
             destruct (column k d) eqn:E; cbn [negb]
         end;
    intros Hk; inversion Hk; subst key;
    unfold create_price_chart; chart_steps Hd; reflexivity.
Qed.

Lemma first_missing_exists (d : DataFrame) :
  indicator_table d = false -> exists key, first_missing d = Some key.
Proof.
  unfold indicator_table, first_missing.
  induction chart_columns as [|k ks IH]; simpl; [discriminate|].
  destruct (has_column d k); simpl; [exact IH|].
  intros _. eexists. reflexivity.
Qed.

Lemma create_price_chart_returns (df : ref) (d : DataFrame)
    (symbol : string) (h h' : heap) (fig : Figure) :
  h !! df = Some d ->
  create_price_chart df symbol h = Ok (fig, h') ->
  indicator_table d = true.
Proof.
  intros Hd Hfig. destruct (indicator_table d) eqn:E; [reflexivity|].
  destruct (first_missing_exists d E) as [key Hkey].
  rewrite (create_price_chart_missing df d symbol h key Hd Hkey) in Hfig.
  discriminate.
Qed.

(** X17: among the tables whose column labels are distinct,
    [create_price_chart] returns exactly on those that have the ten
    columns it reads; on any other it raises the [KeyError] of the first
    column missing, in the order Open, High, Low, Close, BB_upper,
    BB_lower, SMA_20, SMA_50, Volume, RSI. *)
Theorem create_price_chart_raises_iff (df : ref) (d : DataFrame)
    (symbol : string) (h : heap) :
  h !! df = Some d ->
  NoDup (column_names d) ->
  (indicator_table d = true <->
   exists fig, create_price_chart df symbol h = Ok (fig, h)) /\
  (indicator_table d = false <->
   exists key, first_missing d = Some key /\
               create_price_chart df symbol h = Raise (KeyError key)).
Proof.
  intros Hd _. split; split.
  - intros Hind.
    destruct (create_price_chart_traces df d symbol h Hd Hind)
      as (fig & ? & ? & ? & ? & ? & ? & ? & ? & ? & ? & Hfig & _).
    exists fig. exact Hfig.
  - intros [fig Hfig].
    exact (create_price_chart_returns df d symbol h h fig Hd Hfig).
  - intros Hind. destruct (first_missing_exists d Hind) as [key Hkey].
    exists key. split; [exact Hkey|].
    exact (create_price_chart_missing df d symbol h key Hd Hkey).
  - intros (key & _ & Hraise).
    destruct (indicator_table d) eqn:E; [|reflexivity].
    destruct (create_price_chart_traces df d symbol h Hd E)
      as (fig & ? & ? & ? & ? & ? & ? & ? & ? & ? & ? & Hfig & _).
    congruence.
Qed.

Lemma create_price_chart_raises_iff_witness :
  (exists fig,
     create_price_chart 1%positive "TCS.NS" sample_indicator_heap
     = Ok (fig, sample_indicator_heap)) /\
  exists key,
    first_missing sample_frame = Some key /\
    create_price_chart 1%positive "TCS.NS" sample_heap
    = Raise (KeyError key).
Proof.
  split.
  - apply (proj1 (proj1 (create_price_chart_raises_iff 1%positive
                           (with_metrics sqrt_floor [Fin 11; Fin 12; Fin 11]
                              sample_frame)
                           "TCS.NS" sample_indicator_heap eq_refl
                           sample_indicator_labels))).
    reflexivity.
  - apply (proj1 (proj2 (create_price_chart_raises_iff 1%positive
                           sample_frame "TCS.NS" sample_heap eq_refl
                           sample_frame_labels))).
    reflexivity.
Defined.

(** X18: on a rectangular indicator table every trace of the chart is
    drawn over the index of the table and holds one value per session;
    the volume bars have one colour per session. *)
Theorem create_price_chart_aligned (df : ref) (d : DataFrame)
    (symbol : string) (h : heap) :
  h !! df = Some d ->
  indicator_table d = true ->
  rectangular d ->
  exists fig,
    create_price_chart df symbol h = Ok (fig, h) /\
    forall t, t ∈ map fst (fig_data fig) ->
              trace_x t = df_index d /\
              Forall (eq (length (df_index d))) (trace_sizes t).
Proof.
  intros Hd Hind Hrect.
  destruct (create_price_chart_traces df d symbol h Hd Hind)
    as (fig & o & hi & lo & c & up & lw & s20 & s50 & v & rsi & Hfig
        & Ho & Hhi & Hlo & Hc & Hup & Hlw & H20 & H50 & Hv & Hrsi
        & Hdata & _).
  exists fig. split; [exact Hfig|].
  pose proof (rectangular_column d _ _ Hrect Ho).
  pose proof (rectangular_column d _ _ Hrect Hhi).
  pose proof (rectangular_column d _ _ Hrect Hlo).
  pose proof (rectangular_column d _ _ Hrect Hc).
  pose proof (rectangular_column d _ _ Hrect Hup).
  pose proof (rectangular_column d _ _ Hrect Hlw).
  pose proof (rectangular_column d _ _ Hrect H20).
  pose proof (rectangular_column d _ _ Hrect H50).
  pose proof (rectangular_column d _ _ Hrect Hv).
  pose proof (rectangular_column d _ _ Hrect Hrsi).
  assert (Hcol : length (volume_colors c o) = length (df_index d)).
  { unfold volume_colors. rewrite length_zip_with. lia. }
  rewrite Hdata. intros t Ht.
  repeat (apply elem_of_cons in Ht; destruct Ht as [-> | Ht]);
    try (split; [reflexivity|]; cbn [trace_sizes];
         repeat constructor; congruence).
  inversion Ht.
Qed.

Lemma sample_indicator_rectangular :
  rectangular (with_metrics sqrt_floor [Fin 11; Fin 12; Fin 11] sample_frame).
Proof. unfold rectangular. vm_compute. repeat constructor. Qed.

Lemma create_price_chart_aligned_witness :
  exists fig,
    create_price_chart 1%positive "TCS.NS" sample_indicator_heap
    = Ok (fig, sample_indicator_heap) /\
    forall t, t ∈ map fst (fig_data fig) ->
              trace_x t
              = df_index (with_metrics sqrt_floor [Fin 11; Fin 12; Fin 11]
                            sample_frame) /\
              Forall (eq (length
                            (df_index
                               (with_metrics sqrt_floor
                                  [Fin 11; Fin 12; Fin 11] sample_frame))))
                (trace_sizes t).
Proof.
  apply (create_price_chart_aligned 1%positive
           (with_metrics sqrt_floor [Fin 11; Fin 12; Fin 11] sample_frame)
           "TCS.NS" sample_indicator_heap);
    [reflexivity | vm_compute; reflexivity
     | exact sample_indicator_rectangular].
Defined.

(** ** The engine followed by the chart builder *)

Lemma has_column_with_metrics (sqrtQ : Q -> Q) (close : Series)
    (d : DataFrame) (key : string) :
  key ∈ ohlcv_columns ->
  has_column (with_metrics sqrtQ close d) key = has_column d key.
Proof.
  intros Hk. unfold has_column. rewrite with_metrics_other; [reflexivity|].
  intros Hin. apply list_elem_of_In in Hk. apply list_elem_of_In in Hin.
  simpl in Hk, Hin.
  repeat match goal with
         | H : _ \/ _ |- _ => destruct H as [H | H]
         end; try contradiction; subst; discriminate.
Qed.

Lemma indicator_table_with_metrics (sqrtQ : Q -> Q) (close : Series)
    (d : DataFrame) :
  indicator_table (with_metrics sqrtQ close d)
  = (has_column d "Open" && has_column d "High" && has_column d "Low"
     && has_column d "Close" && has_column d "Volume").
Proof.
  unfold indicator_table, chart_columns. cbn [forallb].
  assert (Hin : forall key, In key ohlcv_columns ->
                  has_column (with_metrics sqrtQ close d) key
                  = has_column d key).
  { intros key Hk. apply has_column_with_metrics, list_elem_of_In, Hk. }
  assert (Hder : forall key, In key derived_columns ->
                   has_column (with_metrics sqrtQ close d) key = true).
  { intros key Hk. unfold has_column.
    destruct (with_metrics_derived sqrtQ close d key) as [s ->];
      [apply list_elem_of_In, Hk | reflexivity]. }
  rewrite (Hin "Open"), (Hin "High"), (Hin "Low"), (Hin "Close"),
    (Hin "Volume") by (simpl; tauto).
  rewrite (Hder "BB_upper"), (Hder "BB_lower"), (Hder "SMA_20"),
    (Hder "SMA_50"), (Hder "RSI") by (simpl; tauto).
  repeat match goal with
         | |- context [has_column d ?k] => destruct (has_column d k)
         end; reflexivity.
Qed.

Section Pipeline.

Variable sqrtQ : Q -> Q.

(** X19: the two calls of the front ends, the indicator engine followed
    by the chart builder on its result.  Among the tables whose column
    labels are distinct they return exactly on those that have the five
    columns Open, High, Low, Close and Volume: the engine supplies every
    other column the chart builder reads.  The table ends up with the
    derived columns, and the chart has its three rows. *)
Theorem metrics_then_chart (hist : ref) (d : DataFrame) (symbol : string)
    (h : heap) :
  h !! hist = Some d ->
  NoDup (column_names d) ->
  (forallb (has_column d) ohlcv_columns = true <->
   exists fig h',
     (calculate_metrics sqrtQ hist ≫= fun df =>
      create_price_chart df symbol) h = Ok (fig, h')) /\
  (forallb (has_column d) ohlcv_columns = true ->
   exists fig close,
     column "Close" d = Some close /\
     (calculate_metrics sqrtQ hist ≫= fun df =>
      create_price_chart df symbol) h
     = Ok (fig, <[hist := with_metrics sqrtQ close d]> h) /\
     fig_rows fig = 3%nat).
Proof.
  intros Hd _.
  assert (Hall : forallb (has_column d) ohlcv_columns
                 = (has_column d "Open" && has_column d "High"
                    && has_column d "Low" && has_column d "Close"
                    && has_column d "Volume")).
  { unfold ohlcv_columns. cbn [forallb].
    repeat match goal with
           | |- context [has_column d ?k] => destruct (has_column d k)
           end; reflexivity. }
  assert (Hrun : forallb (has_column d) ohlcv_columns = true ->
            exists fig close,
              column "Close" d = Some close /\
              (calculate_metrics sqrtQ hist ≫= fun df =>
               create_price_chart df symbol) h
              = Ok (fig, <[hist := with_metrics sqrtQ close d]> h) /\
              fig_rows fig = 3%nat).
  { intros H.
    assert (Hclose : has_column d "Close" = true).
    { rewrite Hall in H.
      destruct (has_column d "Close"); [reflexivity|].
      rewrite !andb_false_r in H. discriminate. }
    apply has_column_Some in Hclose. destruct Hclose as [close Hc].
    assert (Hind : indicator_table (with_metrics sqrtQ close d) = true)
      by (rewrite indicator_table_with_metrics, <- Hall; exact H).
    destruct (create_price_chart_traces hist
                (with_metrics sqrtQ close d) symbol
                (<[hist := with_metrics sqrtQ close d]> h)
                (lookup_insert_eq _ _ _) Hind)
      as (fig & ? & ? & ? & ? & ? & ? & ? & ? & ? & ? & Hfig & Hrest).
    exists fig, close. split; [exact Hc|]. split.
    - rewrite bind_run, (calculate_metrics_run sqrtQ hist d close h Hd Hc).
      exact Hfig.
    - destruct Hrest
        as (_ & _ & _ & _ & _ & _ & _ & _ & _ & _ & _ & Hrows & _).
      exact Hrows. }
  split; [|exact Hrun].
  split.
  - intros H. destruct (Hrun H) as (fig & close & _ & Hfig & _).
    eexists. eexists. exact Hfig.
  - intros (fig & h' & Hfig). rewrite bind_run in Hfig.
    destruct (column "Close" d) as [close|] eqn:Hc.
    + rewrite (calculate_metrics_run sqrtQ hist d close h Hd Hc) in Hfig.
      pose proof (create_price_chart_returns hist
                    (with_metrics sqrtQ close d) symbol _ h' fig
                    (lookup_insert_eq _ _ _) Hfig) as Hind.
      rewrite indicator_table_with_metrics, <- Hall in Hind. exact Hind.
    + rewrite (calculate_metrics_no_close sqrtQ hist d h Hd Hc) in Hfig.
      discriminate.
Qed.

End Pipeline.

Lemma metrics_then_chart_witness :
  exists fig close,
    column "Close" sample_frame = Some close /\
    (calculate_metrics sqrt_floor 1%positive ≫= fun df =>
     create_price_chart df "TCS.NS") sample_heap
    = Ok (fig, <[1%positive := with_metrics sqrt_floor close sample_frame]>
                 sample_heap) /\
    fig_rows fig = 3%nat.
Proof.
  apply (proj2 (metrics_then_chart sqrt_floor 1%positive sample_frame
                  "TCS.NS" sample_heap eq_refl sample_frame_labels)).
  reflexivity.
Defined.
(** ** [get_company_profile] *)

(** X20: the company profile always has its five entries.  A text entry
    reads "N/A" when its field has no entry in the metadata and is
    otherwise whatever the metadata holds there, [None] included; the
    number of employees is always a string, and it is "N/A" exactly when
    [format_number] answers so for the field (an absent field counting
    as 0). *)
Theorem company_profile_entries (info : gmap string pyval) :
  map fst (get_company_profile info)
  = ["Business Summary"; "Sector"; "Industry"; "Website";
     "Full Time Employees"] /\
  (forall label field,
      In (label, field) profile_text_entries ->
      (info !! field = None ->
       assoc label (get_company_profile info) = Some (PyStr "N/A")) /\
      (forall v, info !! field = Some v ->
                 assoc label (get_company_profile info) = Some v)) /\
  exists s,
    assoc "Full Time Employees" (get_company_profile info)
    = Some (PyStr s) /\
    (s = "N/A" <->
     na_input (dict_get info "fullTimeEmployees" (PyInt 0)) = true).
Proof.
  split; [reflexivity|]. split.
  - intros label field Hin. simpl in Hin.
    repeat destruct Hin as [Hin | Hin]; try contradiction;
      inversion Hin; subst; unfold get_company_profile, dict_get;
      cbn [assoc String.eqb Ascii.eqb Bool.eqb];
      (split; [intros -> | intros v ->]; reflexivity).
  - eexists. split; [reflexivity|]. apply format_number_na_spec.
Qed.

(** ** [get_stock_news] *)

Section NewsFacts.

Variable Ticker_news : string -> result (list (gmap string pyval)).
Variable date_of_timestamp : pyval -> result string.
Variable str_exn : exn -> string.

Lemma news_records_Forall2 (items : list (gmap string pyval))
    (records : list NewsRow) :
  news_records date_of_timestamp items = Ok records <->
  Forall2 (fun item r => news_record date_of_timestamp item = Ok r)
    items records.
Proof.
  revert records. induction items as [|item items IH]; intros records.
  - simpl. split.
    + intros H. inversion H. constructor.
    + intros H. inversion H. reflexivity.
  - cbn [news_records]. split.
    + destruct (news_record date_of_timestamp item) as [r|] eqn:Er;
        [|discriminate].
      cbn [mbind result_bind].
      destruct (news_records date_of_timestamp items) as [rs|] eqn:Ers;
        [|discriminate].
      cbn [mbind result_bind]. intros H. inversion H; subst.
      constructor; [exact Er | apply IH; reflexivity].
    + intros H. inversion H as [|? r ? rs Hr Hrs]; subst.
      rewrite Hr. cbn [mbind result_bind].
      apply IH in Hrs. rewrite Hrs. reflexivity.
Qed.

Lemma news_records_raise (items : list (gmap string pyval)) (i : nat)
    (item : gmap string pyval) (e : exn) :
  items !! i = Some item ->
  news_record date_of_timestamp item = Raise e ->
  exists e', news_records date_of_timestamp items = Raise e'.
Proof.
  revert i. induction items as [|x items IH]; intros i Hi He;
    [discriminate|].
  cbn [news_records]. destruct i as [|i].
  - simpl in Hi. inversion Hi; subst x. rewrite He. eexists. reflexivity.
  - destruct (news_record date_of_timestamp x) as [r|];
      [|eexists; reflexivity].
    cbn [mbind result_bind].
    destruct (IH i Hi He) as [e' ->]. eexists. reflexivity.
Qed.

(** X21: [get_stock_news] is all or nothing.  When each of the first five
    items of the provider yields a record, the table holds exactly these
    records, in the order of the provider and at most five of them, and
    nothing is printed.  When the provider fails, or one of the first
    five items lacks a key or has a time stamp that cannot be dated, the
    table is the empty three-column table, whatever the other items
    hold, and one line is printed. *)
Theorem get_stock_news_all_or_nothing (symbol : string) :
  (forall news records,
      Ticker_news symbol = Ok news ->
      Forall2 (fun item r => news_record date_of_timestamp item = Ok r)
        (take 5 news) records ->
      get_stock_news Ticker_news date_of_timestamp str_exn symbol
      = (news_frame_of records, []) /\
      length records = Nat.min 5 (length news) /\
      (length records <= 5)%nat) /\
  (forall news i item e,
      Ticker_news symbol = Ok news ->
      (i < 5)%nat -> news !! i = Some item ->
      news_record date_of_timestamp item = Raise e ->
      exists line,
        get_stock_news Ticker_news date_of_timestamp str_exn symbol
        = (no_news_frame, [line])) /\
  (forall e,
      Ticker_news symbol = Raise e ->
      get_stock_news Ticker_news date_of_timestamp str_exn symbol
      = (no_news_frame,
         [String.append "Error fetching news: " (str_exn e)])).
Proof.
  split; [|split].
  - intros news records Hnews Hrec.
    pose proof (Forall2_length _ _ _ Hrec) as Hlen.
    rewrite length_take in Hlen.
    apply news_records_Forall2 in Hrec.
    unfold get_stock_news. cbv zeta. rewrite Hnews.
    cbn [mbind result_bind]. rewrite Hrec. cbn [mbind result_bind].
    split; [reflexivity|]. lia.
  - intros news i item e Hnews Hi Hitem He.
    assert (Htake : take 5 news !! i = Some item)
      by (rewrite lookup_take_lt by exact Hi; exact Hitem).
    destruct (news_records_raise _ _ _ _ Htake He) as [e' He'].
    unfold get_stock_news. cbv zeta. rewrite Hnews.
    cbn [mbind result_bind]. rewrite He'. cbn [mbind result_bind].
    eexists. reflexivity.
  - intros e Hnews. unfold get_stock_news. cbv zeta. rewrite Hnews.
    reflexivity.
Qed.

End NewsFacts.

(** X22: only the first five items of the provider count: two providers
    whose answers agree on their first five items give the same table
    and the same printed lines, however the later items differ. *)
Theorem get_stock_news_first_five
    (news1 news2 : string -> result (list (gmap string pyval)))
    (date_of_timestamp : pyval -> result string) (str_exn : exn -> string)
    (symbol : string) (l1 l2 : list (gmap string pyval)) :
  news1 symbol = Ok l1 ->
  news2 symbol = Ok l2 ->
  take 5 l1 = take 5 l2 ->
  get_stock_news news1 date_of_timestamp str_exn symbol
  = get_stock_news news2 date_of_timestamp str_exn symbol.
Proof.
  intros H1 H2 Htake. unfold get_stock_news. cbv zeta.
  rewrite H1, H2. cbn [mbind result_bind]. rewrite Htake. reflexivity.
Qed.

Lemma get_stock_news_first_five_witness :
  get_stock_news
    (fun _ => Ok (replicate 5 (sample_item "a" 0 (Some "l"))
                  ++ [sample_item "b" 1 None]))
    sample_date sample_str_exn "TCS.NS"
  = get_stock_news
      (fun _ => Ok (replicate 5 (sample_item "a" 0 (Some "l"))))
      sample_date sample_str_exn "TCS.NS".
Proof.
  apply (get_stock_news_first_five _ _ sample_date sample_str_exn "TCS.NS"
           (replicate 5 (sample_item "a" 0 (Some "l"))
            ++ [sample_item "b" 1 None])
           (replicate 5 (sample_item "a" 0 (Some "l"))));
    reflexivity.
Defined.

(** X23: a provider without news and a provider that fails both give a
    table without rows, but not the same table: without news the table
    has no columns at all and nothing is printed; after a failure it has
    the columns Title, Date and Link. *)
Theorem get_stock_news_empty
    (Ticker_news : string -> result (list (gmap string pyval)))
    (date_of_timestamp : pyval -> result string) (str_exn : exn -> string)
    (symbol : string) :
  (Ticker_news symbol = Ok [] ->
   get_stock_news Ticker_news date_of_timestamp str_exn symbol
   = (mkNewsFrame [] [], [])) /\
  (forall e, Ticker_news symbol = Raise e ->
     exists line,
       get_stock_news Ticker_news date_of_timestamp str_exn symbol
       = (mkNewsFrame ["Title"; "Date"; "Link"] [], [line])).
Proof.
  split.
  - intros H. unfold get_stock_news. cbv zeta. rewrite H. reflexivity.
  - intros e H. unfold get_stock_news. cbv zeta. rewrite H.
    eexists. reflexivity.
Qed.

Lemma get_stock_news_empty_witness :
  get_stock_news sample_news sample_date sample_str_exn "INFY.NS"
  = (mkNewsFrame [] [], []) /\
  exists line,
    get_stock_news sample_news sample_date sample_str_exn "AAPL"
    = (mkNewsFrame ["Title"; "Date"; "Link"] [], [line]).
Proof.
  split.
  - apply (get_stock_news_empty sample_news sample_date sample_str_exn
             "INFY.NS"). reflexivity.
  - apply (proj2 (get_stock_news_empty sample_news sample_date
                    sample_str_exn "AAPL") ValueError). reflexivity.
Defined.

(** The sample provider: the second of three items has no link, and the
    whole table is lost. *)
Example get_stock_news_sample :
  get_stock_news sample_news sample_date sample_str_exn "TCS.NS"
  = (no_news_frame, ["Error fetching news: 'link'"]).
Proof. vm_compute. reflexivity. Qed.

Lemma get_stock_news_all_or_nothing_witness :
  exists line,
    get_stock_news sample_news sample_date sample_str_exn "TCS.NS"
    = (no_news_frame, [line]).
Proof.
  destruct (get_stock_news_all_or_nothing sample_news sample_date
              sample_str_exn "TCS.NS") as (_ & H & _).
  apply (H [ sample_item "Results" 1700000000 (Some "https://a");
             sample_item "Dividend" 1700086400 None;
             sample_item "Outlook" 1700172800 (Some "https://c") ]
           1%nat (sample_item "Dividend" 1700086400 None)
           (KeyError "link"));
    [reflexivity | lia | reflexivity | vm_compute; reflexivity].
Defined.

Lemma company_profile_entries_witness :
  map fst (get_company_profile {[ "website" := PyNone ]})
  = ["Business Summary"; "Sector"; "Industry"; "Website";
     "Full Time Employees"] /\
  assoc "Sector" (get_company_profile {[ "website" := PyNone ]})
  = Some (PyStr "N/A") /\
  assoc "Website" (get_company_profile {[ "website" := PyNone ]})
  = Some PyNone.
Proof.
  destruct (company_profile_entries {[ "website" := PyNone ]})
    as (H1 & H2 & _).
  split; [exact H1|]. split.
  - destruct (H2 "Sector" "sector") as [Ha _]; [simpl; tauto|].
    apply Ha. reflexivity.
  - destruct (H2 "Website" "website") as [_ Hp]; [simpl; tauto|].
    apply Hp. reflexivity.
Defined.

Lemma format_number_na_iff_witness :
  format_number (PyStr "1500") = "N/A" <-> na_input (PyStr "1500") = true.
Proof. apply (format_number_na_iff (PyStr "1500")). Defined.

(** ** [get_stock_data] *)

(** X24: [get_stock_data] returns both the history and the metadata, or
    neither.  It asks for a date range only when the period is "custom"
    and both dates count as true, and for the period in every other case,
    the period "custom" included; when that call or the call for the
    metadata fails, the history is dropped as well, the pair is
    ([None], [None]) and one line is printed. *)
Theorem get_stock_data_all_or_nothing
    (history_period : string -> string -> result DataFrame)
    (history_range : string -> pyval -> pyval -> result DataFrame)
    (Ticker_info : string -> result (gmap string pyval))
    (str_exn : exn -> string)
    (symbol period : string) (start_date end_date : pyval) :
  let history :=
    if String.eqb period "custom" && py_truthy start_date
       && py_truthy end_date
    then history_range symbol start_date end_date
    else history_period symbol period in
  let answer :=
    get_stock_data history_period history_range Ticker_info str_exn
      symbol period start_date end_date in
  (forall hist info,
      history = Ok hist -> Ticker_info symbol = Ok info ->
      answer = ((Some hist, Some info), [])) /\
  (forall e, history = Raise e ->
             answer = ((None, None),
                       [String.append "Error fetching stock data: "
                          (str_exn e)])) /\
  (forall hist e,
      history = Ok hist -> Ticker_info symbol = Raise e ->
      answer = ((None, None),
                [String.append "Error fetching stock data: "
                   (str_exn e)])) /\
  (fst (fst answer) = None <-> snd (fst answer) = None) /\
  (fst (fst answer) = None <-> snd answer <> []).
Proof.
  cbv zeta. unfold get_stock_data.
  destruct (if String.eqb period "custom" && py_truthy start_date
               && py_truthy end_date
            then history_range symbol start_date end_date
            else history_period symbol period) as [hist|e1];
    cbn [mbind result_bind].
  - destruct (Ticker_info symbol) as [info|e2]; cbn [mbind result_bind].
    + split; [intros ? ? H1 H2; inversion H1; inversion H2; reflexivity|].
      split; [discriminate|]. split; [discriminate|].
      cbn [fst snd]. split; split; try discriminate.
      intros H. exfalso. apply H. reflexivity.
    + split; [discriminate|]. split; [discriminate|].
      split; [intros ? ? _ H2; inversion H2; reflexivity|].
      cbn [fst snd]. split; split; try reflexivity; discriminate.
  - split; [discriminate|].
    split; [intros ? H; inversion H; reflexivity|].
    split; [discriminate|].
    cbn [fst snd]. split; split; try reflexivity; discriminate.
Qed.

Lemma get_stock_data_all_or_nothing_witness :
  get_stock_data (fun _ _ => Raise ValueError)
    (fun _ _ _ => Ok sample_frame) (fun _ => Ok ∅) sample_str_exn
    "TCS.NS" "custom" (PyStr "2024-01-01") (PyStr "")
  = ((None, None), ["Error fetching stock data: ValueError"]).
Proof.
  apply (proj1 (proj2 (get_stock_data_all_or_nothing
                         (fun _ _ => Raise ValueError)
                         (fun _ _ _ => Ok sample_frame) (fun _ => Ok ∅)
                         sample_str_exn "TCS.NS" "custom"
                         (PyStr "2024-01-01") (PyStr ""))) ValueError).
  reflexivity.
Defined.
(** ** [submit_analysis] *)

Lemma G_bind_run {A B : Type} (m : G A) (f : A -> G B) (w : World) :
  (m ≫= f) w
  = match m w with
    | (Ok a, w') => f a w'
    | (Raise e, w') => (Raise e, w')
    end.
Proof. reflexivity. Qed.

Ltac world_cbn :=
  cbn [get_state set_state navigate print_lines new_table gui page objects
       stdout selected_stock time_period set_current_price set_price_change
       set_change_class set_market_cap set_volume set_chart set_metrics_df
       set_news_items fst snd].

Ltac step_world :=
  repeat
    (match goal with
     | |- context [@mbind G G_bind ?A ?B ?f ?m ?w] =>
         rewrite (@G_bind_run A B m f w)
     end;
     world_cbn).

Section AppFacts.

Variable sqrtQ : Q -> Q.
Variable history_period : string -> string -> result DataFrame.
Variable history_range : string -> pyval -> pyval -> result DataFrame.
Variable Ticker_info : string -> result (gmap string pyval).
Variable Ticker_news : string -> result (list (gmap string pyval)).
Variable date_of_timestamp : pyval -> result string.
Variable str_exn : exn -> string.

Local Abbreviation submit :=
  (submit_analysis sqrtQ history_period history_range Ticker_info
     Ticker_news date_of_timestamp str_exn).

(** X25: when the history or the metadata cannot be fetched,
    [submit_analysis] does nothing but let the fetcher print its line: no
    bound variable changes, no table is created, the page stays where it
    is, and nothing is raised.  The history is always asked for by
    period, never by date range. *)
Theorem submit_analysis_fetch_failure (w : World) (e : exn) :
  history_period (selected_stock (gui w)) (time_period (gui w)) = Raise e
  \/ ((exists hist,
         history_period (selected_stock (gui w)) (time_period (gui w))
         = Ok hist) /\
      Ticker_info (selected_stock (gui w)) = Raise e) ->
  submit w
  = (Ok tt,
     mkWorld (gui w) (page w) (objects w)
       (stdout w ++ [String.append "Error fetching stock data: "
                       (str_exn e)])).
Proof.
  intros H. unfold submit_analysis, get_stock_data.
  rewrite G_bind_run. cbn [get_state].
  rewrite !andb_false_r.
  destruct H as [H | [[hist H] Hinfo]]; rewrite H; cbn [mbind result_bind].
  - reflexivity.
  - rewrite Hinfo. reflexivity.
Qed.


Lemma py_format_2f_ge (v : pyval) (text : string) :
  py_format_2f v = Ok text -> exists rising, py_ge v 0 = Ok rising.
Proof.
  destruct v; simpl; try discriminate; intros _; eexists; reflexivity.
Qed.

Lemma fresh_table_lookup (h : heap) (d : DataFrame) (r : ref) :
  r ∈ dom h -> <[fresh (dom h) := d]> h !! r = h !! r.
Proof.
  intros Hr. apply lookup_insert_ne. intros E. subst r.
  exact (is_fresh (dom h) Hr).
Qed.

(** The run up to the first statement that can fail after the fetch. *)
Lemma submit_analysis_steps (w : World) (hist : DataFrame)
    (info : gmap string pyval) (close : Series) :
  history_period (selected_stock (gui w)) (time_period (gui w)) = Ok hist ->
  Ticker_info (selected_stock (gui w)) = Ok info ->
  column "Close" hist = Some close ->
  let r := fresh (dom (objects w)) in
  let tables := <[r := with_metrics sqrtQ close hist]> (objects w) in
  let change := dict_get info "regularMarketChangePercent" (PyInt 0) in
  let priced :=
    set_current_price
      (String.append "$"
         (format_number (dict_get info "currentPrice" (PyInt 0))))
      (gui w) in
  submit w
  = match py_format_2f change with
    | Raise e => (Raise e, mkWorld priced (page w) tables (stdout w))
    | Ok text =>
        match py_ge change 0 with
        | Raise e =>
            (Raise e,
             mkWorld (set_price_change (String.append text "%") priced)
               (page w) tables (stdout w))
        | Ok rising =>
            let updated :=
              set_volume (format_number (dict_get info "volume" (PyInt 0)))
                (set_market_cap
                   (String.append "$"
                      (format_number (dict_get info "marketCap" (PyInt 0))))
                   (set_change_class
                      (if rising : bool then "positive" else "negative")
                      (set_price_change (String.append text "%") priced)))
            in
            match create_price_chart r (selected_stock (gui w)) tables with
            | Raise e =>
                (Raise e, mkWorld updated (page w) tables (stdout w))
            | Ok (fig, tables') =>
                let news :=
                  get_stock_news Ticker_news date_of_timestamp str_exn
                    (selected_stock (gui w)) in
                (Ok tt,
                 mkWorld
                   (set_news_items (fst news)
                      (set_metrics_df
                         [ ("Metric",
                            ["P/E Ratio"; "EPS"; "52 Week High";
                             "52 Week Low"; "Beta"]);
                           ("Value",
                            [ format_number
                                (dict_get info "trailingPE" (PyInt 0));
                              format_number
                                (dict_get info "trailingEps" (PyInt 0));
                              format_number
                                (dict_get info "fiftyTwoWeekHigh" (PyInt 0));
                              format_number
                                (dict_get info "fiftyTwoWeekLow" (PyInt 0));
                              format_number
                                (dict_get info "beta" (PyInt 0)) ]) ]
                         (set_chart (Some fig) updated)))
                   "analysis" tables' (stdout w ++ snd news))
            end
        end
    end.
Proof.
  intros Hhist Hinfo Hc. cbv zeta.
  unfold submit_analysis, get_stock_data.
  rewrite G_bind_run. cbn [get_state].
  rewrite !andb_false_r, Hhist. cbn [mbind result_bind].
  rewrite Hinfo. cbn [mbind result_bind].
  step_world. unfold on_tables at 1. world_cbn.
  rewrite (calculate_metrics_insert sqrtQ _ hist close _ Hc).
  step_world. unfold try_result at 1.
  destruct (py_format_2f (dict_get info "regularMarketChangePercent"
                            (PyInt 0))) as [text|e];
    [|rewrite app_nil_r; reflexivity].
  step_world. unfold try_result at 1.
  destruct (py_ge (dict_get info "regularMarketChangePercent" (PyInt 0)) 0)
    as [rising|e]; [|rewrite app_nil_r; reflexivity].
  step_world. unfold on_tables at 1. world_cbn.
  destruct (create_price_chart _ _ _) as [[fig tables']|e];
    [|rewrite app_nil_r; reflexivity].
  step_world.
  destruct (get_stock_news Ticker_news date_of_timestamp str_exn
              (selected_stock (gui w))) as [news printed].
  step_world. world_cbn. rewrite app_nil_r. reflexivity.
Qed.

(** X26: on a history with the five columns Open, High, Low, Close and
    Volume and a change figure that formats, [submit_analysis] runs to its
    end: the fetched table is a new object that ends up with the derived
    columns, every bound variable but the two inputs is set, the class is
    "positive" exactly when the change is at least zero, the chart has
    its three rows, the key statistics are two columns of five entries,
    the news lines are printed after the fetcher's, and the page is
    "analysis". *)
Theorem submit_analysis_success (w : World) (hist : DataFrame)
    (info : gmap string pyval) (text : string) :
  history_period (selected_stock (gui w)) (time_period (gui w)) = Ok hist ->
  Ticker_info (selected_stock (gui w)) = Ok info ->
  forallb (has_column hist) ohlcv_columns = true ->
  py_format_2f (dict_get info "regularMarketChangePercent" (PyInt 0))
  = Ok text ->
  exists close rising fig,
    column "Close" hist = Some close /\
    py_ge (dict_get info "regularMarketChangePercent" (PyInt 0)) 0
    = Ok rising /\
    fig_rows fig = 3%nat /\
    submit w
    = (Ok tt,
       mkWorld
         (mkState (selected_stock (gui w)) (time_period (gui w))
            (String.append "$"
               (format_number (dict_get info "currentPrice" (PyInt 0))))
            (String.append text "%")
            (if rising : bool then "positive" else "negative")
            (String.append "$"
               (format_number (dict_get info "marketCap" (PyInt 0))))
            (format_number (dict_get info "volume" (PyInt 0)))
            (Some fig)
            [ ("Metric",
               ["P/E Ratio"; "EPS"; "52 Week High"; "52 Week Low";
                "Beta"]);
              ("Value",
               map (fun field =>
                      format_number (dict_get info field (PyInt 0)))
                 ["trailingPE"; "trailingEps"; "fiftyTwoWeekHigh";
                  "fiftyTwoWeekLow"; "beta"]) ]
            (fst (get_stock_news Ticker_news date_of_timestamp str_exn
                    (selected_stock (gui w)))))
         "analysis"
         (<[fresh (dom (objects w)) := with_metrics sqrtQ close hist]>
            (objects w))
         (stdout w
          ++ snd (get_stock_news Ticker_news date_of_timestamp str_exn
                    (selected_stock (gui w))))).
Proof.
  intros Hhist Hinfo Hall Htext.
  assert (Hclose : has_column hist "Close" = true).
  { unfold ohlcv_columns in Hall. cbn [forallb] in Hall.
    destruct (has_column hist "Close"); [reflexivity|].
    rewrite !andb_false_r in Hall. discriminate. }
  apply has_column_Some in Hclose. destruct Hclose as [close Hc].
  destruct (py_format_2f_ge _ _ Htext) as [rising Hge].
  assert (Hind : indicator_table (with_metrics sqrtQ close hist) = true).
  { rewrite indicator_table_with_metrics.
    unfold ohlcv_columns in Hall. cbn [forallb] in Hall.
    rewrite andb_true_r in Hall.
    repeat match goal with
           | |- context [has_column hist ?k] =>
               destruct (has_column hist k)
           end; first [reflexivity | exact Hall]. }
  destruct (create_price_chart_traces (fresh (dom (objects w)))
              (with_metrics sqrtQ close hist) (selected_stock (gui w))
              (<[fresh (dom (objects w))
                 := with_metrics sqrtQ close hist]> (objects w))
              (lookup_insert_eq _ _ _) Hind)
    as (fig & ? & ? & ? & ? & ? & ? & ? & ? & ? & ? & Hfig & Hrest).
  exists close, rising, fig. split; [exact Hc|]. split; [exact Hge|]. split.
  - destruct Hrest
      as (_ & _ & _ & _ & _ & _ & _ & _ & _ & _ & _ & Hrows & _).
    exact Hrows.
  - rewrite (submit_analysis_steps w hist info close Hhist Hinfo Hc).
    cbv zeta. rewrite Htext, Hge, Hfig. reflexivity.
Qed.

(** X27: [submit_analysis] is not all-or-nothing.  When the change figure
    of the metadata does not format with two decimals ([None], a string,
    an int no float can hold), the callback raises that error after it
    has fetched the table, added the derived columns to it and set
    [current_price]: every other bound variable and the page are as they
    were, and nothing is printed. *)
Theorem submit_analysis_partial_update (w : World) (hist : DataFrame)
    (info : gmap string pyval) (close : Series) (e : exn) :
  history_period (selected_stock (gui w)) (time_period (gui w)) = Ok hist ->
  Ticker_info (selected_stock (gui w)) = Ok info ->
  column "Close" hist = Some close ->
  py_format_2f (dict_get info "regularMarketChangePercent" (PyInt 0))
  = Raise e ->
  submit w
  = (Raise e,
     mkWorld
       (mkState (selected_stock (gui w)) (time_period (gui w))
          (String.append "$"
             (format_number (dict_get info "currentPrice" (PyInt 0))))
          (price_change (gui w)) (change_class (gui w))
          (market_cap (gui w)) (volume (gui w)) (chart (gui w))
          (metrics_df (gui w)) (news_items (gui w)))
       (page w)
       (<[fresh (dom (objects w)) := with_metrics sqrtQ close hist]>
          (objects w))
       (stdout w)).
Proof.
  intros Hhist Hinfo Hc Htext.
  rewrite (submit_analysis_steps w hist info close Hhist Hinfo Hc).
  cbv zeta. rewrite Htext. reflexivity.
Qed.

(** X28: a fetched history that lacks a column stops [submit_analysis]
    with the [KeyError] of that column.  Without Close nothing bound
    changes; with Close but without another column the chart reads, the
    five figures are already set when the chart builder raises, and the
    chart, the key statistics, the news and the page stay as they
    were. *)
Theorem submit_analysis_missing_column (w : World) (hist : DataFrame)
    (info : gmap string pyval) :
  history_period (selected_stock (gui w)) (time_period (gui w)) = Ok hist ->
  Ticker_info (selected_stock (gui w)) = Ok info ->
  (column "Close" hist = None ->
   submit w
   = (Raise (KeyError "Close"),
      mkWorld (gui w) (page w)
        (<[fresh (dom (objects w)) := hist]> (objects w)) (stdout w))) /\
  (forall close text key,
      column "Close" hist = Some close ->
      py_format_2f (dict_get info "regularMarketChangePercent" (PyInt 0))
      = Ok text ->
      first_missing (with_metrics sqrtQ close hist) = Some key ->
      exists rising,
        py_ge (dict_get info "regularMarketChangePercent" (PyInt 0)) 0
        = Ok rising /\
        submit w
        = (Raise (KeyError key),
           mkWorld
             (mkState (selected_stock (gui w)) (time_period (gui w))
                (String.append "$"
                   (format_number (dict_get info "currentPrice" (PyInt 0))))
                (String.append text "%")
                (if rising : bool then "positive" else "negative")
                (String.append "$"
                   (format_number (dict_get info "marketCap" (PyInt 0))))
                (format_number (dict_get info "volume" (PyInt 0)))
                (chart (gui w)) (metrics_df (gui w)) (news_items (gui w)))
             (page w)
             (<[fresh (dom (objects w))
                := with_metrics sqrtQ close hist]> (objects w))
             (stdout w))).
Proof.
  intros Hhist Hinfo. split.
  - intros Hc. unfold submit_analysis, get_stock_data.
    rewrite G_bind_run. cbn [get_state].
    rewrite !andb_false_r, Hhist. cbn [mbind result_bind].
    rewrite Hinfo. cbn [mbind result_bind].
    step_world. unfold on_tables at 1. world_cbn.
    rewrite (calculate_metrics_no_close sqrtQ _ hist _
               (lookup_insert_eq _ _ _) Hc).
    rewrite app_nil_r. reflexivity.
  - intros close text key Hc Htext Hkey.
    destruct (py_format_2f_ge _ _ Htext) as [rising Hge].
    exists rising. split; [exact Hge|].
    rewrite (submit_analysis_steps w hist info close Hhist Hinfo Hc).
    cbv zeta. rewrite Htext, Hge.
    rewrite (create_price_chart_missing _ (with_metrics sqrtQ close hist)
               _ _ key (lookup_insert_eq _ _ _) Hkey).
    reflexivity.
Qed.

End AppFacts.

Lemma submit_analysis_fetch_failure_witness :
  submit_analysis sqrt_floor (fun _ _ => Raise ValueError)
    (fun _ _ _ => Ok sample_frame) (fun _ => Ok ∅) sample_news sample_date
    sample_str_exn (mkWorld initial_state "/" ∅ [])
  = (Ok tt,
     mkWorld initial_state "/" ∅
       [String.append "Error fetching stock data: "
          (sample_str_exn ValueError)]).
Proof.
  apply (submit_analysis_fetch_failure sqrt_floor
           (fun _ _ => Raise ValueError) (fun _ _ _ => Ok sample_frame)
           (fun _ => Ok ∅) sample_news sample_date sample_str_exn
           (mkWorld initial_state "/" ∅ []) ValueError).
  left. reflexivity.
Defined.

Lemma submit_analysis_success_witness :
  exists close rising fig,
    column "Close" sample_frame = Some close /\
    py_ge (dict_get (∅ : gmap string pyval) "regularMarketChangePercent"
             (PyInt 0)) 0
    = Ok rising /\
    fig_rows fig = 3%nat /\
    submit_analysis sqrt_floor (fun _ _ => Ok sample_frame)
      (fun _ _ _ => Raise ValueError) (fun _ => Ok ∅) sample_news
      sample_date sample_str_exn (mkWorld initial_state "/" ∅ [])
    = (Ok tt,
       mkWorld
         (mkState "RELIANCE.NS" "1y"
            (String.append "$"
               (format_number (dict_get ∅ "currentPrice" (PyInt 0))))
            (String.append "0.00" "%")
            (if rising : bool then "positive" else "negative")
            (String.append "$"
               (format_number (dict_get ∅ "marketCap" (PyInt 0))))
            (format_number (dict_get ∅ "volume" (PyInt 0)))
            (Some fig)
            [ ("Metric",
               ["P/E Ratio"; "EPS"; "52 Week High"; "52 Week Low";
                "Beta"]);
              ("Value",
               map (fun field =>
                      format_number (dict_get ∅ field (PyInt 0)))
                 ["trailingPE"; "trailingEps"; "fiftyTwoWeekHigh";
                  "fiftyTwoWeekLow"; "beta"]) ]
            (fst (get_stock_news sample_news sample_date sample_str_exn
                    "RELIANCE.NS")))
         "analysis"
         (<[fresh (dom (∅ : gmap positive DataFrame))
            := with_metrics sqrt_floor close sample_frame]> ∅)
         ([] ++ snd (get_stock_news sample_news sample_date sample_str_exn
                       "RELIANCE.NS"))).
Proof.
  apply (submit_analysis_success sqrt_floor (fun _ _ => Ok sample_frame)
           (fun _ _ _ => Raise ValueError) (fun _ => Ok ∅) sample_news
           sample_date sample_str_exn (mkWorld initial_state "/" ∅ [])
           sample_frame ∅ "0.00").
  - reflexivity.
  - reflexivity.
  - reflexivity.
  - vm_compute. reflexivity.
Defined.

Lemma submit_analysis_partial_update_witness :
  submit_analysis sqrt_floor (fun _ _ => Ok sample_frame)
    (fun _ _ _ => Raise ValueError)
    (fun _ => Ok {[ "regularMarketChangePercent" := PyNone ]}) sample_news
    sample_date sample_str_exn (mkWorld initial_state "/" ∅ [])
  = (Raise TypeError,
     mkWorld
       (mkState "RELIANCE.NS" "1y"
          (String.append "$"
             (format_number
                (dict_get {[ "regularMarketChangePercent" := PyNone ]}
                   "currentPrice" (PyInt 0))))
          "" "" "" "" None [] (mkNewsFrame [] []))
       "/"
       (<[fresh (dom (∅ : gmap positive DataFrame))
          := with_metrics sqrt_floor [Fin 11; Fin 12; Fin 11]
               sample_frame]> ∅)
       []).
Proof.
  apply (submit_analysis_partial_update sqrt_floor
           (fun _ _ => Ok sample_frame) (fun _ _ _ => Raise ValueError)
           (fun _ => Ok {[ "regularMarketChangePercent" := PyNone ]})
           sample_news sample_date sample_str_exn
           (mkWorld initial_state "/" ∅ []) sample_frame
           {[ "regularMarketChangePercent" := PyNone ]}
           [Fin 11; Fin 12; Fin 11] TypeError).
  - reflexivity.
  - reflexivity.
  - reflexivity.
  - vm_compute. reflexivity.
Defined.

Lemma submit_analysis_missing_column_witness :
  submit_analysis sqrt_floor (fun _ _ => Ok (mkDataFrame [] []))
    (fun _ _ _ => Raise ValueError) (fun _ => Ok ∅) sample_news
    sample_date sample_str_exn (mkWorld initial_state "/" ∅ [])
  = (Raise (KeyError "Close"),
     mkWorld initial_state "/"
       (<[fresh (dom (∅ : gmap positive DataFrame))
          := mkDataFrame [] []]> ∅)
       [])
  /\ exists rising,
       py_ge (dict_get (∅ : gmap string pyval)
                "regularMarketChangePercent" (PyInt 0)) 0
       = Ok rising /\
       submit_analysis sqrt_floor (fun _ _ => Ok stale_frame)
         (fun _ _ _ => Raise ValueError) (fun _ => Ok ∅) sample_news
         sample_date sample_str_exn (mkWorld initial_state "/" ∅ [])
       = (Raise (KeyError "Open"),
          mkWorld
            (mkState "RELIANCE.NS" "1y"
               (String.append "$"
                  (format_number (dict_get ∅ "currentPrice" (PyInt 0))))
               (String.append "0.00" "%")
               (if rising : bool then "positive" else "negative")
               (String.append "$"
                  (format_number (dict_get ∅ "marketCap" (PyInt 0))))
               (format_number (dict_get ∅ "volume" (PyInt 0)))
               None [] (mkNewsFrame [] []))
            "/"
            (<[fresh (dom (∅ : gmap positive DataFrame))
               := with_metrics sqrt_floor [Fin 11; Fin 12; Fin 11]
                    stale_frame]> ∅)
            []).
Proof.
  split.
  - apply (proj1 (submit_analysis_missing_column sqrt_floor
                    (fun _ _ => Ok (mkDataFrame [] []))
                    (fun _ _ _ => Raise ValueError) (fun _ => Ok ∅)
                    sample_news sample_date sample_str_exn
                    (mkWorld initial_state "/" ∅ []) (mkDataFrame [] []) ∅
                    eq_refl eq_refl)).
    reflexivity.
  - apply (proj2 (submit_analysis_missing_column sqrt_floor
                    (fun _ _ => Ok stale_frame)
                    (fun _ _ _ => Raise ValueError) (fun _ => Ok ∅)
                    sample_news sample_date sample_str_exn
                    (mkWorld initial_state "/" ∅ []) stale_frame ∅
                    eq_refl eq_refl)
             [Fin 11; Fin 12; Fin 11] "0.00" "Open").
    + reflexivity.
    + vm_compute. reflexivity.
    + vm_compute. reflexivity.
Defined.
